(** * BiliDownloader: login, resilient fetch and video resolution

    A shallow embedding of [src/session.py], [src/login.py] and the fetch and
    resolution part of [src/utils.py], with the properties of the
    specification that concern them; then of the rest of [src/utils.py], of
    [src/download_merge.py] and of [src/main.py], with properties of the
    code itself.

    Conventions of the model.
    - A Python [str] is a Rocq [string]: the bytes of its UTF-8 encoding.
    - A Python exception is a class and the text [str(e)] gives.
    - Everything outside the process (the servers, the clocks, the files) is
      a [World]: the program asks, the world answers.  The theorems hold for
      every world unless they say otherwise.
    - A program is a function from the state before to the result and the
      state after; the state is the trace of what the program did so far.
      [None] is a loop that ran out of fuel, never a Python value. *)

From Stdlib Require Import String Ascii ZArith List Bool Lia DecimalString.
Import ListNotations.
Open Scope string_scope.
Open Scope Z_scope.

(* ===================================================================== *)
(** * Text *)
(* ===================================================================== *)

Definition chr (n : nat) : string := String (ascii_of_nat n) EmptyString.

(** The characters a string literal cannot hold. *)
Definition LF : string := chr 10.
Definition CR : string := chr 13.
Definition DQ : string := chr 34.

(** [dq s] is [s] with every apostrophe turned into a double quote, to write
    JSON texts as literals. *)
Fixpoint dq (s : string) : string :=
  match s with
  | EmptyString => EmptyString
  | String c r =>
      String (if Ascii.eqb c "'"%char then ascii_of_nat 34 else c) (dq r)
  end.

(** [str(n)] for an integer. *)
Definition str_int (n : Z) : string := NilZero.string_of_int (Z.to_int n).

Fixpoint spaces (n : nat) : string :=
  match n with
  | O => EmptyString
  | S k => String " "%char (spaces k)
  end.

(** [format(s, ">w")]: right-aligned in a field of [w] characters. *)
Definition rjust (w : nat) (s : string) : string :=
  spaces (w - String.length s) ++ s.

(** [strip_prefix p s] is [Some r] when [s = p ++ r]. *)
Fixpoint strip_prefix (p s : string) : option string :=
  match p, s with
  | EmptyString, _ => Some s
  | String a p', String b s' =>
      if Ascii.eqb a b then strip_prefix p' s' else None
  | String _ _, EmptyString => None
  end.

Definition startswith (s p : string) : bool :=
  match strip_prefix p s with
  | Some _ => true
  | None => false
  end.

(** [s.endswith(p)]. *)
Definition endswith (s p : string) : bool :=
  let n := String.length s in
  let k := String.length p in
  (k <=? n)%nat && String.eqb (substring (n - k) k s) p.

(** [Contains t s]: [t] occurs in [s]. *)
Definition Contains (t s : string) : Prop :=
  exists a b, s = a ++ t ++ b.

(** The same, decided. *)
Fixpoint contains (t s : string) : bool :=
  startswith s t ||
  match s with
  | EmptyString => false
  | String _ r => contains t r
  end.

(* ===================================================================== *)
(** * Exceptions *)
(* ===================================================================== *)

(** The exception classes the program raises, catches or can be handed by
    the libraries it calls ([requests], [urllib3], [json], the built-ins). *)
Inductive ExcClass : Type :=
  (* built-in *)
  | BaseException | Exception | SystemExit | KeyboardInterrupt
  | OSError | FileNotFoundError | FileExistsError | PermissionError
  | IsADirectoryError | NotADirectoryError | TimeoutError
  | RuntimeError | LookupError | KeyError | IndexError
  | TypeError | AttributeError | ValueError | UnicodeDecodeError
  (* json *)
  | JSONDecodeError
  (* requests.exceptions *)
  | RequestException | HTTPError | ConnectionError | SSLError | ProxyError
  | Timeout | ConnectTimeout | ReadTimeout | RetryError | TooManyRedirects
  | InvalidURL | MissingSchema | InvalidJSONError | RequestsJSONDecodeError
  (* urllib3.exceptions *)
  | Urllib3HTTPError | PoolError | RequestError | MaxRetryError.

Definition ExcClass_eq_dec (a b : ExcClass) : {a = b} + {a <> b}.
Proof. decide equality. Defined.

Definition ExcClass_eqb (a b : ExcClass) : bool :=
  if ExcClass_eq_dec a b then true else false.

(** The base classes of each class, as the libraries declare them. *)
Definition bases (c : ExcClass) : list ExcClass :=
  match c with
  | BaseException => []
  | Exception | SystemExit | KeyboardInterrupt => [BaseException]
  | OSError | RuntimeError | LookupError | TypeError | AttributeError
  | ValueError => [Exception]
  | FileNotFoundError | FileExistsError | PermissionError | IsADirectoryError
  | NotADirectoryError | TimeoutError => [OSError]
  | KeyError | IndexError => [LookupError]
  | UnicodeDecodeError | JSONDecodeError => [ValueError]
  | RequestException => [OSError]
  | HTTPError | ConnectionError | Timeout | RetryError | TooManyRedirects
  | InvalidJSONError => [RequestException]
  | SSLError | ProxyError => [ConnectionError]
  | ConnectTimeout => [ConnectionError; Timeout]
  | ReadTimeout => [Timeout]
  | InvalidURL => [RequestException; ValueError]
  | MissingSchema => [RequestException; ValueError]
  | RequestsJSONDecodeError => [InvalidJSONError; JSONDecodeError]
  | Urllib3HTTPError => [Exception]
  | PoolError => [Urllib3HTTPError]
  | RequestError => [PoolError]
  | MaxRetryError => [RequestError]
  end.

(** [issubclass(c, d)]; no class of [bases] is deeper than eight levels. *)
Fixpoint subclass_upto (depth : nat) (c d : ExcClass) : bool :=
  ExcClass_eqb c d ||
  match depth with
  | O => false
  | S k => existsb (fun b => subclass_upto k b d) (bases c)
  end.

Definition issubclass (c d : ExcClass) : bool := subclass_upto 8 c d.

Record exn : Type := mkExn { exc_class : ExcClass; exc_str : string }.

Definition isinstance (e : exn) (c : ExcClass) : bool :=
  issubclass (exc_class e) c.

(** [isinstance(e, (c1, ..., cn))], the test of an [except] clause. *)
Definition isinstance_any (e : exn) (cs : list ExcClass) : bool :=
  existsb (isinstance e) cs.

Inductive result (A : Type) : Type :=
  | Ok (a : A)
  | Raise (e : exn).
Arguments Ok {A} a.
Arguments Raise {A} e.

(* ===================================================================== *)
(** * Python values *)
(* ===================================================================== *)

(** The values [json.loads] builds, which are also the values the program
    passes as keyword arguments.  A float is kept as the decimal number
    its literal denotes, [m * 10^e] (Python rounds it to a double; no
    property below looks at a float); [PFloatConst] is [NaN], [Infinity]
    or [-Infinity].  A [dict] keeps its keys in insertion order. *)
#[warnings="-register-all"]
Inductive PyVal : Type :=
  | PNone
  | PBool (b : bool)
  | PInt (n : Z)
  | PFloat (m e : Z)
  | PFloatConst (name : string)
  | PStr (s : string)
  | PList (l : list PyVal)
  | PDict (d : list (string * PyVal)).

Definition type_name (v : PyVal) : string :=
  match v with
  | PNone => "NoneType"
  | PBool _ => "bool"
  | PInt _ => "int"
  | PFloat _ _ | PFloatConst _ => "float"
  | PStr _ => "str"
  | PList _ => "list"
  | PDict _ => "dict"
  end.

Fixpoint dict_lookup {A : Type} (k : string) (d : list (string * A))
  : option A :=
  match d with
  | [] => None
  | (k', v) :: r => if String.eqb k k' then Some v else dict_lookup k r
  end.

(** [d[k] = v]: an existing key keeps its place. *)
Fixpoint dict_set {A : Type} (k : string) (v : A) (d : list (string * A))
  : list (string * A) :=
  match d with
  | [] => [(k, v)]
  | (k', v') :: r =>
      if String.eqb k k' then (k, v) :: r else (k', v') :: dict_set k v r
  end.

(** [d.update(other)]. *)
Definition dict_update {A : Type} (d other : list (string * A))
  : list (string * A) :=
  fold_left (fun acc kv => dict_set (fst kv) (snd kv) acc) other d.

(** [bool(v)], the test of [if v:]. *)
Definition truthy (v : PyVal) : bool :=
  match v with
  | PNone => false
  | PBool b => b
  | PInt n => negb (n =? 0)
  | PFloat m _ => negb (m =? 0)
  | PFloatConst _ => true
  | PStr s => negb (String.eqb s "")
  | PList l => match l with [] => false | _ => true end
  | PDict d => match d with [] => false | _ => true end
  end.

Definition is_none (v : PyVal) : bool :=
  match v with
  | PNone => true
  | _ => false
  end.

(** [v == n] for an integer constant [n]. *)
Definition py_eq_int (v : PyVal) (n : Z) : bool :=
  match v with
  | PInt k => k =? n
  | PBool b => (if b then 1 else 0) =? n
  | PFloat m e =>
      if 0 <=? e then m * 10 ^ e =? n else m =? n * 10 ^ (- e)
  | _ => false
  end.

Definition not_subscriptable (v : PyVal) : exn :=
  mkExn TypeError ("'" ++ type_name v ++ "' object is not subscriptable").

(** [repr(k)] of a key the program subscripts with (no quote, no escape). *)
Definition repr_key (k : string) : string := "'" ++ k ++ "'".

(** [v[k]] for a string constant [k]. *)
Definition getitem (v : PyVal) (k : string) : result PyVal :=
  match v with
  | PDict d =>
      match dict_lookup k d with
      | Some x => Ok x
      | None => Raise (mkExn KeyError (repr_key k))
      end
  | PList _ =>
      Raise (mkExn TypeError "list indices must be integers or slices, not str")
  | PStr _ =>
      Raise (mkExn TypeError "string indices must be integers, not 'str'")
  | _ => Raise (not_subscriptable v)
  end.

(** [v[0]]. The keys of a [dict] are strings, so [0] is never one. *)
Definition getitem0 (v : PyVal) : result PyVal :=
  match v with
  | PList (x :: _) => Ok x
  | PList [] => Raise (mkExn IndexError "list index out of range")
  | PStr (String c _) => Ok (PStr (String c EmptyString))
  | PStr EmptyString => Raise (mkExn IndexError "string index out of range")
  | PDict _ => Raise (mkExn KeyError "0")
  | _ => Raise (not_subscriptable v)
  end.

(** [v.get(k, default)]. *)
Definition py_get (v : PyVal) (k : string) (default : PyVal) : result PyVal :=
  match v with
  | PDict d =>
      match dict_lookup k d with
      | Some x => Ok x
      | None => Ok default
      end
  | _ =>
      Raise (mkExn AttributeError
               ("'" ++ type_name v ++ "' object has no attribute 'get'"))
  end.

(* ===================================================================== *)
(** * [json.loads] *)
(* ===================================================================== *)

Definition code (c : ascii) : Z := Z.of_N (N_of_ascii c).
Definition byte (n : Z) : ascii := ascii_of_N (Z.to_N n).

Definition is_json_ws (c : ascii) : bool :=
  let n := code c in
  (n =? 32) || (n =? 9) || (n =? 10) || (n =? 13).

Fixpoint skip_ws (s : string) : string :=
  match s with
  | String c r => if is_json_ws c then skip_ws r else s
  | EmptyString => s
  end.

Definition is_digit (c : ascii) : bool := (48 <=? code c) && (code c <=? 57).

(** The longest prefix of digits, and the rest. *)
Fixpoint span_digits (s : string) : string * string :=
  match s with
  | String c r =>
      if is_digit c
      then let (d, t) := span_digits r in (String c d, t)
      else (EmptyString, s)
  | EmptyString => (EmptyString, s)
  end.

Fixpoint digits_value (acc : Z) (s : string) : Z :=
  match s with
  | String c r => digits_value (10 * acc + (code c - 48)) r
  | EmptyString => acc
  end.

Definition hex_value (c : ascii) : option Z :=
  let n := code c in
  if (48 <=? n) && (n <=? 57) then Some (n - 48)
  else if (65 <=? n) && (n <=? 70) then Some (n - 55)
  else if (97 <=? n) && (n <=? 102) then Some (n - 87)
  else None.

(** Four hexadecimal digits, and the rest. *)
Definition hex4 (s : string) : option (Z * string) :=
  match s with
  | String a (String b (String c (String d r))) =>
      match hex_value a, hex_value b, hex_value c, hex_value d with
      | Some x, Some y, Some z, Some w =>
          Some (((x * 16 + y) * 16 + z) * 16 + w, r)
      | _, _, _, _ => None
      end
  | _ => None
  end.

(** The UTF-8 bytes of a code point. *)
Definition utf8 (cp : Z) : string :=
  if cp <? 128 then String (byte cp) EmptyString
  else if cp <? 2048 then
    String (byte (192 + cp / 64)) (String (byte (128 + cp mod 64)) EmptyString)
  else if cp <? 65536 then
    String (byte (224 + cp / 4096))
      (String (byte (128 + (cp / 64) mod 64))
         (String (byte (128 + cp mod 64)) EmptyString))
  else
    String (byte (240 + cp / 262144))
      (String (byte (128 + (cp / 4096) mod 64))
         (String (byte (128 + (cp / 64) mod 64))
            (String (byte (128 + cp mod 64)) EmptyString))).

(** What follows a backslash: the text it stands for, and the rest.  A high
    surrogate followed by an escaped low surrogate is one code point. *)
Definition scan_escape (s : string) : option (string * string) :=
  match s with
  | String c r =>
      let n := code c in
      if n =? 34 then Some (DQ, r)
      else if n =? 92 then Some (chr 92, r)
      else if n =? 47 then Some ("/", r)
      else if n =? 98 then Some (chr 8, r)
      else if n =? 102 then Some (chr 12, r)
      else if n =? 110 then Some (LF, r)
      else if n =? 114 then Some (CR, r)
      else if n =? 116 then Some (chr 9, r)
      else if n =? 117 then
        match hex4 r with
        | Some (u, r1) =>
            if (55296 <=? u) && (u <=? 56319) then
              match r1 with
              | String b (String v r2) =>
                  if (code b =? 92) && (code v =? 117) then
                    match hex4 r2 with
                    | Some (u2, r3) =>
                        if (56320 <=? u2) && (u2 <=? 57343)
                        then Some (utf8 (65536 + (u - 55296) * 1024
                                         + (u2 - 56320)), r3)
                        else Some (utf8 u, r1)
                    | None => None
                    end
                  else Some (utf8 u, r1)
              | _ => Some (utf8 u, r1)
              end
            else Some (utf8 u, r1)
        | None => None
        end
      else None
  | EmptyString => None
  end.

(** The body of a string literal, after its opening quote: the text, and
    what follows the closing quote. *)
Fixpoint scan_string (fuel : nat) (s : string) : option (string * string) :=
  match fuel with
  | O => None
  | S f =>
      match s with
      | EmptyString => None
      | String c r =>
          let n := code c in
          if n =? 34 then Some (EmptyString, r)
          else if n =? 92 then
            match scan_escape r with
            | Some (t, r1) =>
                match scan_string f r1 with
                | Some (u, r2) => Some (t ++ u, r2)
                | None => None
                end
            | None => None
            end
          else if n <? 32 then None
          else
            match scan_string f r with
            | Some (u, r1) => Some (String c u, r1)
            | None => None
            end
      end
  end.

(** A number: an optional minus sign, then [0] or a digit from 1 to 9 and
    more digits; then, optionally, a dot and one digit or more; then,
    optionally, [e] or [E], an optional sign and one digit or more.  It is
    an [int] when neither the fraction nor the exponent is there. *)
Definition scan_number (s : string) : option (PyVal * string) :=
  let (neg, s1) :=
    match s with
    | String c r => if code c =? 45 then (true, r) else (false, s)
    | EmptyString => (false, s)
    end in
  let int_part :=
    match s1 with
    | String c r =>
        if code c =? 48 then Some ("0", r)
        else if is_digit c then Some (span_digits s1)
        else None
    | EmptyString => None
    end in
  match int_part with
  | None => None
  | Some (ds, s2) =>
      let '(frac, s3) :=
        match s2 with
        | String c r =>
            if code c =? 46 then
              let (fs, t) := span_digits r in
              if String.eqb fs "" then (None, s2) else (Some fs, t)
            else (None, s2)
        | EmptyString => (None, s2)
        end in
      let '(expo, s4) :=
        match s3 with
        | String c r =>
            if (code c =? 101) || (code c =? 69) then
              let (eneg, r1) :=
                match r with
                | String g r' =>
                    if code g =? 45 then (true, r')
                    else if code g =? 43 then (false, r')
                    else (false, r)
                | EmptyString => (false, r)
                end in
              let (es, t) := span_digits r1 in
              if String.eqb es "" then (None, s3)
              else (Some (if eneg then - digits_value 0 es
                          else digits_value 0 es), t)
            else (None, s3)
        | EmptyString => (None, s3)
        end in
      let sign := if neg then -1 else 1 in
      match frac, expo with
      | None, None => Some (PInt (sign * digits_value 0 ds), s4)
      | _, _ =>
          let fs := match frac with Some f => f | None => EmptyString end in
          let ex := match expo with Some e => e | None => 0 end in
          Some (PFloat (sign * digits_value 0 (ds ++ fs))
                  (ex - Z.of_nat (String.length fs)), s4)
      end
  end.

(** One JSON value at the head of [s], and the rest. *)
Fixpoint scan_value (fuel : nat) (s : string) {struct fuel}
  : option (PyVal * string) :=
  match fuel with
  | O => None
  | S f =>
      match s with
      | EmptyString => None
      | String c r =>
          let n := code c in
          if n =? 34 then
            match scan_string (String.length r) r with
            | Some (t, r1) => Some (PStr t, r1)
            | None => None
            end
          else if n =? 123 then
            match skip_ws r with
            | String c1 r1 =>
                if code c1 =? 125 then Some (PDict [], r1)
                else scan_members f (skip_ws r) []
            | EmptyString => None
            end
          else if n =? 91 then
            match skip_ws r with
            | String c1 r1 =>
                if code c1 =? 93 then Some (PList [], r1)
                else scan_elements f (skip_ws r) []
            | EmptyString => None
            end
          else
            match strip_prefix "null" s, strip_prefix "true" s,
                  strip_prefix "false" s with
            | Some t, _, _ => Some (PNone, t)
            | _, Some t, _ => Some (PBool true, t)
            | _, _, Some t => Some (PBool false, t)
            | None, None, None =>
                match scan_number s with
                | Some x => Some x
                | None =>
                    match strip_prefix "NaN" s, strip_prefix "Infinity" s,
                          strip_prefix "-Infinity" s with
                    | Some t, _, _ => Some (PFloatConst "NaN", t)
                    | _, Some t, _ => Some (PFloatConst "Infinity", t)
                    | _, _, Some t => Some (PFloatConst "-Infinity", t)
                    | None, None, None => None
                    end
                end
            end
      end
  end

(** The elements of an array from the head of one of them; [acc] holds the
    elements read so far, last first. *)
with scan_elements (fuel : nat) (s : string) (acc : list PyVal) {struct fuel}
  : option (PyVal * string) :=
  match fuel with
  | O => None
  | S f =>
      match scan_value f s with
      | Some (v, r) =>
          match skip_ws r with
          | String c r1 =>
              if code c =? 44 then scan_elements f (skip_ws r1) (v :: acc)
              else if code c =? 93 then Some (PList (rev (v :: acc)), r1)
              else None
          | EmptyString => None
          end
      | None => None
      end
  end

(** The members of an object from the head of a key; a key read twice keeps
    its first place and its last value. *)
with scan_members (fuel : nat) (s : string) (acc : list (string * PyVal))
  {struct fuel} : option (PyVal * string) :=
  match fuel with
  | O => None
  | S f =>
      match s with
      | String q r =>
          if code q =? 34 then
            match scan_string (String.length r) r with
            | Some (k, r1) =>
                match skip_ws r1 with
                | String c r2 =>
                    if code c =? 58 then
                      match scan_value f (skip_ws r2) with
                      | Some (v, r3) =>
                          match skip_ws r3 with
                          | String c3 r4 =>
                              if code c3 =? 44
                              then scan_members f (skip_ws r4)
                                     (dict_set k v acc)
                              else if code c3 =? 125
                              then Some (PDict (dict_set k v acc), r4)
                              else None
                          | EmptyString => None
                          end
                      | None => None
                      end
                    else None
                | EmptyString => None
                end
            | None => None
            end
          else None
      | EmptyString => None
      end
  end.

(** [json.loads(s)]: [None] is a [JSONDecodeError].  The fuel is enough for
    every text: between two calls that spend it a character is read, or
    the next takes the element the first was called for. *)
Definition json_loads (s : string) : option PyVal :=
  match scan_value (2 * String.length s + 2) (skip_ws s) with
  | Some (v, r) =>
      match skip_ws r with
      | EmptyString => Some v
      | String _ _ => None
      end
  | None => None
  end.

(* ===================================================================== *)
(** * [repr] and [str] *)
(* ===================================================================== *)

Definition hex_digit (n : Z) : string :=
  String (byte (if n <? 10 then 48 + n else 87 + n)) EmptyString.

Fixpoint escape_str (quote : ascii) (s : string) : string :=
  match s with
  | EmptyString => EmptyString
  | String c r =>
      let n := code c in
      (if n =? 92 then chr 92 ++ chr 92
       else if n =? code quote then chr 92 ++ String quote EmptyString
       else if n =? 10 then chr 92 ++ "n"
       else if n =? 13 then chr 92 ++ "r"
       else if n =? 9 then chr 92 ++ "t"
       else if (n <? 32) || (n =? 127)
       then chr 92 ++ "x" ++ hex_digit (n / 16) ++ hex_digit (n mod 16)
       else String c EmptyString)
      ++ escape_str quote r
  end.

(** [repr(s)] of a string: between double quotes when it holds an apostrophe
    and no double quote, between apostrophes otherwise.  The bytes above 127
    are printed as they are. *)
Definition repr_str (s : string) : string :=
  if contains "'" s && negb (contains DQ s)
  then DQ ++ escape_str (ascii_of_nat 34) s ++ DQ
  else "'" ++ escape_str "'"%char s ++ "'".

(** [repr(v)].  A float is printed as its mantissa and exponent, which is
    not what Python prints. *)
Fixpoint py_repr (v : PyVal) : string :=
  match v with
  | PNone => "None"
  | PBool true => "True"
  | PBool false => "False"
  | PInt n => str_int n
  | PFloat m e => str_int m ++ "e" ++ str_int e
  | PFloatConst name =>
      if String.eqb name "NaN" then "nan"
      else if String.eqb name "Infinity" then "inf" else "-inf"
  | PStr s => repr_str s
  | PList l =>
      "[" ++
      (fix items (l : list PyVal) : string :=
         match l with
         | [] => EmptyString
         | [x] => py_repr x
         | x :: r => py_repr x ++ ", " ++ items r
         end) l
      ++ "]"
  | PDict d =>
      "{" ++
      (fix items (d : list (string * PyVal)) : string :=
         match d with
         | [] => EmptyString
         | [(k, x)] => repr_str k ++ ": " ++ py_repr x
         | (k, x) :: r => repr_str k ++ ": " ++ py_repr x ++ ", " ++ items r
         end) d
      ++ "}"
  end.

(** [str(v)], what an f-string prints for [{v}]. *)
Definition py_str (v : PyVal) : string :=
  match v with
  | PStr s => s
  | _ => py_repr v
  end.

(** [format(s, "10s")]: left-aligned in a field of [w] characters. *)
Definition ljust (w : nat) (s : string) : string :=
  s ++ spaces (w - String.length s).

(** Expressions that can raise, one after the other. *)
Definition rbind {A B : Type} (r : result A) (k : A -> result B) : result B :=
  match r with
  | Ok a => k a
  | Raise e => Raise e
  end.

Notation "x <~ r ;; k" := (rbind r (fun x => k))
  (at level 61, r at next level, right associativity).

(* ===================================================================== *)
(** * The HTTP client: [session.py] *)
(* ===================================================================== *)

(** [urllib3.util.retry.Retry], the fields the program sets; the backoff
    factor is in milliseconds. *)
Record Retry : Type := mkRetry {
  total : Z;
  backoff_factor_ms : Z;
  status_forcelist : list Z;
  allowed_methods : list string
}.

(** A [requests.Session]: its default headers, the retry policy of the
    adapter mounted on ["https://"] ([None]: the library's adapter, which
    never retries), and whether it is the object [session] of
    [session.py], the only one that holds the cookies of the process. *)
Record Session : Type := mkSession {
  sess_global : bool;
  sess_headers : list (string * string);
  sess_retry : option Retry
}.

(** The headers [requests] gives every new session; the version after
    [python-requests] is left out. *)
Definition default_headers : list (string * string) :=
  [("User-Agent", "python-requests");
   ("Accept-Encoding", "gzip, deflate");
   ("Accept", "*/*");
   ("Connection", "keep-alive")].

(** [requests.Session()]. *)
Definition requests_Session : Session :=
  {| sess_global := false;
     sess_headers := default_headers;
     sess_retry := None |}.

(** [s.headers.update(h)]. *)
Definition headers_update (s : Session) (h : list (string * string))
  : Session :=
  {| sess_global := sess_global s;
     sess_headers := dict_update (sess_headers s) h;
     sess_retry := sess_retry s |}.

(** [s.mount("https://", HTTPAdapter(max_retries=r))]. *)
Definition mount_https (s : Session) (r : Retry) : Session :=
  {| sess_global := sess_global s;
     sess_headers := sess_headers s;
     sess_retry := Some r |}.

Definition retry : Retry :=
  {| total := 3;
     backoff_factor_ms := 500;
     status_forcelist := [500; 502; 503; 504];
     allowed_methods := ["GET"; "POST"] |}.

Definition session : Session :=
  mount_https
    (headers_update
       {| sess_global := true;
          sess_headers := default_headers;
          sess_retry := None |}
       [("User-Agent",
         "Mozilla/5.0 (Windows NT 10.0; Win64; x64) "
         ++ "AppleWebKit/537.36 (KHTML, like Gecko) "
         ++ "Chrome/114.0.0.0 Safari/537.36");
        ("Referer", "https://passport.bilibili.com/login")])
    retry.

(** One call of [s.get(url, **kwargs)]. *)
Record Request : Type := mkRequest {
  rq_session : Session;
  rq_url : PyVal;
  rq_kwargs : list (string * PyVal)
}.

Record Response : Type := mkResponse {
  status_code : Z;
  reason : string;
  resp_url : string;
  text : string
}.

(** What a call of [get] comes to: a response, whatever its status, or an
    exception. *)
Inductive Outcome : Type :=
  | Reply (r : Response)
  | Fails (e : exn).

(** The message [raise_for_status] builds: empty unless the status is an
    error of the client (400 to 499) or of the server (500 to 599). *)
Definition http_error_msg (resp : Response) : string :=
  if (400 <=? status_code resp) && (status_code resp <? 500) then
    str_int (status_code resp) ++ " Client Error: " ++ reason resp
    ++ " for url: " ++ resp_url resp
  else if (500 <=? status_code resp) && (status_code resp <? 600) then
    str_int (status_code resp) ++ " Server Error: " ++ reason resp
    ++ " for url: " ++ resp_url resp
  else "".

(** Whether the request checks the server's certificate: the [verify]
    argument, and [True], the default of a session, without one. *)
Definition rq_verify (rq : Request) : PyVal :=
  match dict_lookup "verify" (rq_kwargs rq) with
  | Some v => v
  | None => PBool true
  end.

(* ===================================================================== *)
(** * Dates and cookies *)
(* ===================================================================== *)

(** A [datetime] in UTC. *)
Record DateTime : Type := mkDateTime {
  year : Z; month : Z; day : Z;
  hour : Z; minute : Z; second : Z; microsecond : Z
}.

Fixpoint lex_gt (a b : list Z) : bool :=
  match a, b with
  | x :: a', y :: b' => (y <? x) || ((x =? y) && lex_gt a' b')
  | _, _ => false
  end.

Definition dt_fields (d : DateTime) : list Z :=
  [year d; month d; day d; hour d; minute d; second d; microsecond d].

(** [a > b] for two datetimes of the same time zone. *)
Definition dt_gt (a b : DateTime) : bool :=
  lex_gt (dt_fields a) (dt_fields b).

(** A cookie of the jar: [expires] is in seconds since the epoch. *)
Record Cookie : Type := mkCookie {
  ck_name : string;
  ck_value : string;
  ck_domain : string;
  ck_expires : option Z
}.

(* ===================================================================== *)
(** * The pattern of the embedded manifest *)
(* ===================================================================== *)

(** One character of the class [\s] at the head of [s], and the rest: the
    white space of ASCII (9 to 13, 28 to 32) and of Unicode (U+0085,
    U+00A0, U+1680, U+2000 to U+200A, U+2028, U+2029, U+202F, U+205F,
    U+3000, in UTF-8). *)
Definition space_prefix (s : string) : option string :=
  match s with
  | String a r =>
      let x := code a in
      if ((9 <=? x) && (x <=? 13)) || ((28 <=? x) && (x <=? 32)) then Some r
      else
        match r with
        | String b r1 =>
            let y := code b in
            if (x =? 194) && ((y =? 133) || (y =? 160)) then Some r1
            else
              match r1 with
              | String c r2 =>
                  let z := code c in
                  if (x =? 225) && (y =? 154) && (z =? 128) then Some r2
                  else if (x =? 226) && (y =? 128)
                          && (((128 <=? z) && (z <=? 138))
                              || (z =? 168) || (z =? 169) || (z =? 175))
                  then Some r2
                  else if (x =? 226) && (y =? 129) && (z =? 159) then Some r2
                  else if (x =? 227) && (y =? 128) && (z =? 128) then Some r2
                  else None
              | EmptyString => None
              end
        | EmptyString => None
        end
  | EmptyString => None
  end.

Fixpoint skip_space_upto (fuel : nat) (s : string) : string :=
  match fuel with
  | O => s
  | S f =>
      match space_prefix s with
      | Some r => skip_space_upto f r
      | None => s
      end
  end.

(** [\s*] before something that is no white space: all of it. *)
Definition skip_space (s : string) : string :=
  skip_space_upto (String.length s) s.

(** Whether the end of the pattern matches at the head of [s]: a closing
    brace, white space, and the closing tag of the script. *)
Definition closes (s : string) : bool :=
  match s with
  | String c r =>
      (code c =? 125) && startswith (skip_space r) "</script>"
  | EmptyString => false
  end.

(** The shortest run of characters up to a place where the pattern can end;
    [s] is what follows the characters already taken, [taken]. *)
Fixpoint lazy_body (s : string) (taken : string) : option string :=
  match s with
  | EmptyString => None
  | String c r =>
      if closes s then Some (taken ++ "}")
      else lazy_body r (taken ++ String c EmptyString)
  end.

(** The pattern matched at the head of [s]: its first group. *)
Definition match_playinfo (s : string) : option string :=
  match strip_prefix "window.__playinfo__" s with
  | Some r1 =>
      match strip_prefix "=" (skip_space r1) with
      | Some r2 =>
          match skip_space r2 with
          | String c (String c1 r3) =>
              if code c =? 123
              then lazy_body r3 (String c (String c1 EmptyString))
              else None
          | _ => None
          end
      | None => None
      end
  | None => None
  end.

(** [re.search(r"window\.__playinfo__\s*=\s*({.+?})\s*</script>", s, re.S)]:
    the first group of the leftmost match. *)
Fixpoint search_playinfo (s : string) : option string :=
  match match_playinfo s with
  | Some g => Some g
  | None =>
      match s with
      | String _ r => search_playinfo r
      | EmptyString => None
      end
  end.

(* ===================================================================== *)
(** * [datetime.strptime] for the format of the credential file *)
(* ===================================================================== *)

(** One digit between [lo] and [hi]: its value, and the rest. *)
Definition one_digit (lo hi : Z) (s : string) : option (Z * string) :=
  match s with
  | String c r =>
      let n := code c - 48 in
      if (lo <=? n) && (n <=? hi) then Some (n, r) else None
  | EmptyString => None
  end.

(** A digit between [lo1] and [hi1], then one between [lo2] and [hi2]. *)
Definition two_digits (lo1 hi1 lo2 hi2 : Z) (s : string)
  : option (Z * string) :=
  match one_digit lo1 hi1 s with
  | Some (a, r) =>
      match one_digit lo2 hi2 r with
      | Some (b, r') => Some (10 * a + b, r')
      | None => None
      end
  | None => None
  end.

(** A space, then a digit from 1 to 9. *)
Definition space_digit (s : string) : option (Z * string) :=
  match s with
  | String c r => if code c =? 32 then one_digit 1 9 r else None
  | EmptyString => None
  end.

(** The alternatives of a directive, in the order the library tries them. *)
Definition alts_Y : list (string -> option (Z * string)) :=
  [fun s =>
     match two_digits 0 9 0 9 s with
     | Some (a, r) =>
         match two_digits 0 9 0 9 r with
         | Some (b, r') => Some (100 * a + b, r')
         | None => None
         end
     | None => None
     end].
Definition alts_m : list (string -> option (Z * string)) :=
  [two_digits 1 1 0 2; two_digits 0 0 1 9; one_digit 1 9].
Definition alts_d : list (string -> option (Z * string)) :=
  [two_digits 3 3 0 1; two_digits 1 2 0 9; two_digits 0 0 1 9;
   one_digit 1 9; space_digit].
Definition alts_H : list (string -> option (Z * string)) :=
  [two_digits 2 2 0 3; two_digits 0 1 0 9; one_digit 0 9].
Definition alts_M : list (string -> option (Z * string)) :=
  [two_digits 0 5 0 9; one_digit 0 9].
Definition alts_S : list (string -> option (Z * string)) :=
  [two_digits 6 6 0 1; two_digits 0 5 0 9; one_digit 0 9].

(** The first alternative after which the rest of the pattern, [k], matches
    too. *)
Fixpoint first_match {A : Type} (alts : list (string -> option (Z * string)))
  (s : string) (k : Z -> string -> option A) : option A :=
  match alts with
  | [] => None
  | alt :: more =>
      match alt s with
      | Some (v, r) =>
          match k v r with
          | Some a => Some a
          | None => first_match more s k
          end
      | None => first_match more s k
      end
  end.

(** A character and the rest of the pattern. *)
Definition literal {A : Type} (c : string) (s : string)
  (k : string -> option A) : option A :=
  match strip_prefix c s with
  | Some r => k r
  | None => None
  end.

(** White space of the format: one character of white space or more. *)
Definition spaces1 {A : Type} (s : string) (k : string -> option A)
  : option A :=
  match space_prefix s with
  | Some r => k (skip_space r)
  | None => None
  end.

Fixpoint lower (s : string) : string :=
  match s with
  | EmptyString => EmptyString
  | String c r =>
      String (if (65 <=? code c) && (code c <=? 90)
              then byte (code c + 32) else c) (lower r)
  end.

Definition is_leap (y : Z) : bool :=
  (y mod 4 =? 0) && (negb (y mod 100 =? 0) || (y mod 400 =? 0)).

Definition days_in_month (y m : Z) : Z :=
  if m =? 2 then (if is_leap y then 29 else 28)
  else if (m =? 4) || (m =? 6) || (m =? 9) || (m =? 11) then 30
  else 31.

(** The longest of [names] that [s] starts with, whatever the case of its
    letters: what follows it.  (The library tries the names from the
    longest to the shortest.) *)
Fixpoint longest_name (names : list string) (s : string)
  (best : option string) : option string :=
  match names with
  | [] => best
  | n :: more =>
      let found :=
        match strip_prefix n (lower s) with
        | Some _ =>
            let r := substring (String.length n)
                       (String.length s - String.length n) s in
            match best with
            | Some b =>
                if (String.length r <? String.length b)%nat
                then Some r else best
            | None => Some r
            end
        | None => best
        end in
      longest_name more s found
  end.

(** The pattern of the format [%Y-%m-%d %H:%M:%S %Z] matched at the head of
    [s]: the six numbers and what follows the match.  [tznames] are the
    names [%Z] takes besides [utc] and [gmt]. *)
Definition match_format (tznames : list string) (s : string)
  : option (Z * Z * Z * Z * Z * Z * string) :=
  first_match alts_Y s (fun Y s =>
  literal "-" s (fun s =>
  first_match alts_m s (fun m s =>
  literal "-" s (fun s =>
  first_match alts_d s (fun d s =>
  spaces1 s (fun s =>
  first_match alts_H s (fun H s =>
  literal ":" s (fun s =>
  first_match alts_M s (fun Mi s =>
  literal ":" s (fun s =>
  first_match alts_S s (fun Sec s =>
  spaces1 s (fun s =>
  match longest_name
          ("utc" :: "gmt" :: filter (fun n => negb (String.eqb n "")) tznames)
          s None with
  | Some r => Some (Y, m, d, H, Mi, Sec, r)
  | None => None
  end)))))))))))).

(** [datetime.strptime(s, "%Y-%m-%d %H:%M:%S %Z")] with its time zone set to
    UTC; [None] is a [ValueError]: the pattern does not match, or something
    follows the match, or the numbers are no date and time.  The digits
    are those of ASCII. *)
Definition strptime_utc (tznames : list string) (s : string)
  : option DateTime :=
  match match_format tznames s with
  | Some (Y, m, d, H, Mi, Sec, r) =>
      if String.eqb r "" && (1 <=? Y) && (d <=? days_in_month Y m)
         && (Sec <=? 59)
      then Some (mkDateTime Y m d H Mi Sec 0)
      else None
  | None => None
  end.

(* ===================================================================== *)
(** * The world, the state and the programs *)
(* ===================================================================== *)

(** What the program does not decide.
    - [net n rq]: what the request [rq] comes to when [n] requests were
      made before it (after the retries of the session's adapter).
    - [clock n]: the [n]-th reading of [time.time()], in milliseconds.
    - [utc_now]: [datetime.now(timezone.utc)].
    - [local_tznames]: the names of the local time zone, in lower case.
    - [file_read p]: the text of the file [p], or what [open] or the
      reading raises.
    - [file_write p]: what opening [p] for writing raises, if anything.
    - [makedirs p]: what [os.makedirs(p, exist_ok=True)] raises, if anything.
    - [cookiejar n]: the cookies of [session] when [n] requests were made.
    - [strftime_utc t]: [t] seconds since the epoch, formatted
      [%Y-%m-%d %H:%M:%S] in UTC. *)
Record World : Type := mkWorld {
  net : nat -> Request -> Outcome;
  clock : nat -> Z;
  utc_now : DateTime;
  local_tznames : list string;
  file_read : string -> result string;
  file_write : string -> option exn;
  makedirs : string -> option exn;
  cookiejar : nat -> list Cookie;
  strftime_utc : Z -> string
}.

(** What the program does, in order. *)
Inductive Event : Type :=
  | EvGet (rq : Request)
  | EvSleep (seconds : Z)
  | EvPrint (s : string)
  | EvShowQR (url : PyVal)
  | EvCookies (d : list (string * PyVal))
  | EvMakedirs (path : string)
  | EvDump (path : string) (v : PyVal).

Record State : Type := mkState {
  trace : list Event;
  n_requests : nat;
  n_clock : nat
}.

Definition initial : State :=
  {| trace := []; n_requests := 0; n_clock := 0 |}.

Definition log (e : Event) (s : State) : State :=
  {| trace := trace s ++ [e];
     n_requests := n_requests s;
     n_clock := n_clock s |}.

(** The requests of a trace, in order. *)
Definition requests_of (t : list Event) : list Request :=
  flat_map (fun e => match e with EvGet rq => [rq] | _ => [] end) t.

(** A program: [None] when the fuel of a loop ran out. *)
Definition M (A : Type) : Type := State -> option (result A * State).

Definition ret {A : Type} (a : A) : M A := fun s => Some (Ok a, s).

Definition raise {A : Type} (e : exn) : M A := fun s => Some (Raise e, s).

Definition bind {A B : Type} (m : M A) (k : A -> M B) : M B :=
  fun s =>
    match m s with
    | Some (Ok a, s') => k a s'
    | Some (Raise e, s') => Some (Raise e, s')
    | None => None
    end.

Notation "x <- m ;; k" := (bind m (fun x => k))
  (at level 61, m at next level, right associativity).
Notation "m ;;; k" := (bind m (fun _ => k))
  (at level 61, right associativity).

(** The value of an expression, or the exception it raises. *)
Definition lift {A : Type} (r : result A) : M A :=
  fun s => Some (r, s).

(** [try: body  except (classes) as e: handler e]. *)
Definition try_except {A : Type} (body : M A) (classes : list ExcClass)
  (handler : exn -> M A) : M A :=
  fun s =>
    match body s with
    | Some (Raise e, s') =>
        if isinstance_any e classes then handler e s'
        else Some (Raise e, s')
    | other => other
    end.

(** [while True: body]: the body says [Some a] to return [a] and [None]
    to go round again. *)
Fixpoint while_true {A : Type} (fuel : nat) (body : M (option A)) : M A :=
  fun s =>
    match fuel with
    | O => None
    | S f =>
        match body s with
        | Some (Ok (Some a), s') => Some (Ok a, s')
        | Some (Ok None, s') => while_true f body s'
        | Some (Raise e, s') => Some (Raise e, s')
        | None => None
        end
    end.

Definition emit (e : Event) : M unit := fun s => Some (Ok tt, log e s).

(** [print(s)], the end of line included. *)
Definition print (s : string) : M unit := emit (EvPrint (s ++ LF)).

(** [print(s, end="", flush=True)]. *)
Definition print_noeol (s : string) : M unit := emit (EvPrint s).

Section Programs.

Variable w : World.

(** [s.get(url, **kwargs)]. *)
Definition get (sess : Session) (url : PyVal) (kwargs : list (string * PyVal))
  : M Response :=
  fun s =>
    let rq := mkRequest sess url kwargs in
    let s' := {| trace := trace s ++ [EvGet rq];
                 n_requests := S (n_requests s);
                 n_clock := n_clock s |} in
    match net w (n_requests s) rq with
    | Reply r => Some (Ok r, s')
    | Fails e => Some (Raise e, s')
    end.

(** [time.time()]. *)
Definition time_time : M Z :=
  fun s =>
    Some (Ok (clock w (n_clock s)),
          {| trace := trace s;
             n_requests := n_requests s;
             n_clock := S (n_clock s) |}).

(** [time.sleep(seconds)]. *)
Definition sleep (seconds : Z) : M unit :=
  if seconds <? 0
  then raise (mkExn ValueError "sleep length must be non-negative")
  else emit (EvSleep seconds).

(** [resp.raise_for_status()]. *)
Definition raise_for_status (resp : Response) : M unit :=
  if String.eqb (http_error_msg resp) "" then ret tt
  else raise (mkExn HTTPError (http_error_msg resp)).

(** The text of a JSON error tells where the parsing stopped; the model
    keeps one text for all. *)
Definition json_error_text : string := "Expecting value".

(** [resp.json()], with the error of [requests] (2.27 and later). *)
Definition resp_json (resp : Response) : M PyVal :=
  match json_loads (text resp) with
  | Some v => ret v
  | None => raise (mkExn RequestsJSONDecodeError json_error_text)
  end.

(* --------------------------------------------------------------------- *)
(** ** Resilient fetch: [utils._safe_get] *)
(* --------------------------------------------------------------------- *)

(** [{k: v for k, v in kwargs.items() if k != "verify"}]. *)
Definition without_verify (kwargs : list (string * PyVal))
  : list (string * PyVal) :=
  filter (fun kv => negb (String.eqb (fst kv) "verify")) kwargs.

(** The classes of the two outer [except] clauses. *)
Definition fallback_classes : list ExcClass :=
  [SSLError; MaxRetryError; RequestException].

Definition all_failed_msg (e1 e2 e3 : exn) : string :=
  "三次尝试均失败:" ++ LF
  ++ "1) 普通 session.get → " ++ exc_str e1 ++ LF
  ++ "2) session.get verify=False → " ++ exc_str e2 ++ LF
  ++ "3) plain requests.get → " ++ exc_str e3.

Definition _safe_get (url : PyVal) (kwargs : list (string * PyVal))
  : M Response :=
  try_except
    (resp <- get session url kwargs ;;
     raise_for_status resp ;;;
     ret resp)
    fallback_classes
    (fun e1 =>
       try_except
         (resp <- get session url
                    (("verify", PBool false) :: without_verify kwargs) ;;
          raise_for_status resp ;;;
          ret resp)
         fallback_classes
         (fun e2 =>
            let no_retry := requests_Session in
            let no_retry := headers_update no_retry (sess_headers session) in
            try_except
              (resp <- get no_retry url
                         (("verify", PBool false) :: without_verify kwargs) ;;
               raise_for_status resp ;;;
               ret resp)
              [Exception]
              (fun e3 =>
                 raise (mkExn RuntimeError (all_failed_msg e1 e2 e3))))).

(* --------------------------------------------------------------------- *)
(** ** Resolution: [utils.get_bv_info] *)
(* --------------------------------------------------------------------- *)

(** [session.cookies.update(d)]. *)
Definition cookies_update (d : list (string * PyVal)) : M unit :=
  emit (EvCookies d).

(** [json.loads(s)]. *)
Definition json_loads_M (s : string) : M PyVal :=
  match json_loads s with
  | Some v => ret v
  | None => raise (mkExn JSONDecodeError json_error_text)
  end.

(** What [get_bv_info] returns; the two last fields are the closures. *)
Record BvInfo : Type := mkBvInfo {
  title : PyVal;
  video_url : PyVal;
  audio_url : PyVal;
  accept_quality : PyVal;
  get_video_infos : unit -> list (string * PyVal);
  get_audio_infos : unit -> list (string * PyVal)
}.

Definition no_playinfo_msg : string := "无法从 HTML 中提取 playinfo 数据".

Definition get_bv_info (bvid : string) (sessdata bili_jct dede_user_id : PyVal)
  : M BvInfo :=
  cookies_update [("SESSDATA", sessdata);
                  ("bili_jct", bili_jct);
                  ("DedeUserID", dede_user_id)] ;;;
  let page_url := "https://www.bilibili.com/video/" ++ bvid in
  html <- try_except
            (resp <- _safe_get (PStr page_url) [("timeout", PInt 10)] ;;
             ret (text resp))
            [RequestException]
            (fun e =>
               raise (mkExn RuntimeError
                        ("无法获取视频页面 HTML: " ++ exc_str e))) ;;
  match search_playinfo html with
  | None => raise (mkExn RuntimeError no_playinfo_msg)
  | Some group1 =>
      playinfo <- json_loads_M group1 ;;
      data <- lift (py_get playinfo "data" (PDict [])) ;;
      dash <- lift (py_get data "dash" (PDict [])) ;;
      videos <- lift (py_get dash "video" (PList [PDict []])) ;;
      video0 <- lift (getitem0 videos) ;;
      video_url <- lift (py_get video0 "baseUrl" PNone) ;;
      audios <- lift (py_get dash "audio" (PList [PDict []])) ;;
      audio0 <- lift (getitem0 audios) ;;
      audio_url <- lift (py_get audio0 "baseUrl" PNone) ;;
      data' <- lift (py_get playinfo "data" (PDict [])) ;;
      qualities <- lift (py_get data' "accept_quality" (PList [])) ;;
      let info_api :=
        "https://api.bilibili.com/x/web-interface/view?bvid=" ++ bvid in
      title <- try_except
                 (info_resp <- _safe_get (PStr info_api)
                                 [("timeout", PInt 5)] ;;
                  js <- resp_json info_resp ;;
                  d <- lift (py_get js "data" (PDict [])) ;;
                  lift (py_get d "title" (PStr "")))
                 [RequestException]
                 (fun e =>
                    raise (mkExn RuntimeError
                             ("无法获取视频信息: " ++ exc_str e))) ;;
      ret {| title := title;
             video_url := video_url;
             audio_url := audio_url;
             accept_quality := qualities;
             get_video_infos := fun _ =>
               [("bvid", PStr bvid); ("title", title);
                ("video_url", video_url)];
             get_audio_infos := fun _ =>
               [("bvid", PStr bvid); ("title", title);
                ("audio_url", audio_url)] |}
  end.

(* --------------------------------------------------------------------- *)
(** ** The QR login: [login.py] *)
(* --------------------------------------------------------------------- *)

Definition generate_url : string :=
  "https://passport.bilibili.com/x/passport-login/web/qrcode/generate".

Definition poll_url : string :=
  "https://passport.bilibili.com/x/passport-login/web/qrcode/poll".

(** The key and the address of a new QR code. *)
Definition get_qr_login : M (PyVal * PyVal) :=
  resp <- get session (PStr generate_url) [("timeout", PInt 5)] ;;
  raise_for_status resp ;;;
  js <- resp_json resp ;;
  c <- lift (getitem js "code") ;;
  if negb (py_eq_int c 0)
  then raise (mkExn RuntimeError ("申请二维码失败: " ++ py_str js))
  else
    data <- lift (getitem js "data") ;;
    key <- lift (getitem data "qrcode_key") ;;
    url <- lift (getitem data "url") ;;
    ret (key, url).

(** The QR code printed on the terminal. *)
Definition show_qr_terminal (qr_url : PyVal) : M unit :=
  emit (EvShowQR qr_url).

Definition poll_request (qrcode_key : PyVal) : Request :=
  mkRequest session (PStr poll_url)
    [("params", PDict [("qrcode_key", qrcode_key)]); ("timeout", PInt 5)].

(** The end of a round of the loop of [poll_login] that neither returns nor
    raises on the status: the line of progress, the time-out, the pause. *)
Definition poll_wait (elapsed : Z) (msg : string) (interval timeout : Z)
  : M (option bool) :=
  print_noeol (CR ++ "[" ++ rjust 3 (str_int elapsed) ++ "s] " ++ msg) ;;;
  if timeout <=? elapsed
  then raise (mkExn TimeoutError "扫码登录超时")
  else sleep interval ;;; ret None.

(** One round of the loop of [poll_login]; [start] is the clock read before
    the loop.  The clock is in milliseconds and [int] rounds towards zero. *)
Definition poll_round (qrcode_key : PyVal) (interval timeout start : Z)
  : M (option bool) :=
  resp <- get session (PStr poll_url)
            [("params", PDict [("qrcode_key", qrcode_key)]);
             ("timeout", PInt 5)] ;;
  raise_for_status resp ;;;
  js <- resp_json resp ;;
  c <- lift (getitem js "code") ;;
  if negb (py_eq_int c 0)
  then raise (mkExn RuntimeError ("轮询接口异常: " ++ py_str js))
  else
    d <- lift (getitem js "data") ;;
    status <- lift (getitem d "code") ;;
    now <- time_time ;;
    let elapsed := Z.quot (now - start) 1000 in
    if py_eq_int status 86101 then
      poll_wait elapsed "未扫码" interval timeout
    else if py_eq_int status 86090 then
      poll_wait elapsed "已扫码，待确认" interval timeout
    else if py_eq_int status 86038 then
      print (LF ++ "⚠️ [ " ++ str_int elapsed
             ++ "s ] 二维码已过期，重新申请..." ++ LF) ;;;
      ret (Some false)
    else if py_eq_int status 0 then
      login_url <- lift (getitem d "url") ;;
      _ <- get session login_url [("timeout", PInt 5)] ;;
      print (LF ++ "✅ 登录成功！[" ++ str_int elapsed ++ "s]" ++ LF) ;;;
      ret (Some true)
    else raise (mkExn RuntimeError ("未知扫码状态: " ++ py_str js)).

(** [True]: logged in; [False]: the QR code expired. *)
Definition poll_login (fuel : nat) (qrcode_key : PyVal) (interval timeout : Z)
  : M bool :=
  start <- time_time ;;
  while_true fuel (poll_round qrcode_key interval timeout start).

Definition credential_names : list string :=
  ["SESSDATA"; "bili_jct"; "DedeUserID"].

(** [next((c for c in cookies if c.name == name and
    c.domain.endswith(".bilibili.com")), None)]. *)
Definition find_cookie (cookies : list Cookie) (name : string)
  : option Cookie :=
  find (fun c => String.eqb (ck_name c) name
                 && endswith (ck_domain c) ".bilibili.com") cookies.

Definition extract_login_cookies_with_expiry (cookies : list Cookie) : PyVal :=
  PDict
    (fold_left
       (fun result name =>
          match find_cookie cookies name with
          | None =>
              dict_set name (PDict [("value", PNone); ("expires", PNone)])
                result
          | Some cookie =>
              let exp_str :=
                match ck_expires cookie with
                | None => PNone
                | Some t => PStr (strftime_utc w t ++ " UTC")
                end in
              dict_set name
                (PDict [("value", PStr (ck_value cookie));
                        ("expires", exp_str)])
                result
          end)
       credential_names []).

(** The value read from the file, [PNone] for [None]. *)
Definition parse_login_info (file_path : string) : M PyVal :=
  try_except
    (match file_read w file_path with
     | Ok txt => json_loads_M txt
     | Raise e => raise e
     end)
    [FileNotFoundError]
    (fun _ =>
       print ("登录信息文件 " ++ file_path ++ " 不存在，开始新登录流程。") ;;;
       ret PNone).

Definition bad_time_text : string :=
  "time data does not match format '%Y-%m-%d %H:%M:%S %Z'".

(** [parse_utc(dt_str)].  The text of the [ValueError] tells what did not
    match; the model keeps one text for all. *)
Definition parse_utc (dt_str : PyVal) : result DateTime :=
  match dt_str with
  | PStr s =>
      match strptime_utc (local_tznames w) s with
      | Some t => Ok t
      | None => Raise (mkExn ValueError bad_time_text)
      end
  | _ =>
      Raise (mkExn TypeError
               ("strptime() argument 1 must be str, not " ++ type_name dt_str))
  end.

(** [all(parse_utc(temp_info[name]["expires"]) > now for name in names
         if temp_info[name]["expires"] is not None)]. *)
Fixpoint all_unexpired (temp_info : PyVal) (now : DateTime)
  (names : list string) : result bool :=
  match names with
  | [] => Ok true
  | name :: more =>
      entry <~ getitem temp_info name ;;
      expires <~ getitem entry "expires" ;;
      if is_none expires then all_unexpired temp_info now more
      else
        entry' <~ getitem temp_info name ;;
        expires' <~ getitem entry' "expires" ;;
        t <~ parse_utc expires' ;;
        if dt_gt t now then all_unexpired temp_info now more
        else Ok false
  end.

(** [temp_info[name]["value"]]. *)
Definition cached_value (temp_info : PyVal) (name : string) : result PyVal :=
  entry <~ getitem temp_info name ;;
  getitem entry "value".

(** The [if temp_info:] of [login]: [Some temp_info] when [login] returns
    the credentials of the file, [None] when it goes on to the QR login. *)
Definition login_cached (temp_info : PyVal) : M (option PyVal) :=
  if truthy temp_info then
    try_except
      (let now := utc_now w in
       all_ok <- lift (all_unexpired temp_info now credential_names) ;;
       if all_ok : bool then
         sessdata <- lift (cached_value temp_info "SESSDATA") ;;
         bili_jct <- lift (cached_value temp_info "bili_jct") ;;
         dede_user_id <- lift (cached_value temp_info "DedeUserID") ;;
         cookies_update [("SESSDATA", sessdata);
                         ("bili_jct", bili_jct);
                         ("DedeUserID", dede_user_id)] ;;;
         print "✅ 已加载本地缓存，Cookie 未过期，直接使用。" ;;;
         ret (Some temp_info)
       else ret None)
      [Exception]
      (fun _ =>
         print "⚠️ 本地缓存无效或已过期，重新登录。" ;;;
         ret None)
  else ret None.

(** [exit(code)]. *)
Definition exit {A : Type} (code : Z) : M A :=
  raise (mkExn SystemExit (str_int code)).

(** [try: body  except c1: h1  except c2 as e: h2]. *)
Definition try_except2 {A : Type} (body : M A)
  (c1 : list ExcClass) (h1 : exn -> M A)
  (c2 : list ExcClass) (h2 : exn -> M A) : M A :=
  fun s =>
    match body s with
    | Some (Raise e, s') =>
        if isinstance_any e c1 then h1 e s'
        else if isinstance_any e c2 then h2 e s'
        else Some (Raise e, s')
    | other => other
    end.

(** One round of the loop of [login]: [Some tt] is its [break]. *)
Definition login_round (fuel : nat) : M (option unit) :=
  ku <- get_qr_login ;;
  let key := fst ku in
  let url := snd ku in
  print ("请用哔哩哔哩 App 扫描下面二维码：" ++ LF) ;;;
  show_qr_terminal url ;;;
  try_except2
    (ok <- poll_login fuel key 2 180 ;;
     if ok : bool then ret (Some tt) else ret None)
    [TimeoutError]
    (fun _ => print (LF ++ "⏰ 扫码超时，重新获取..." ++ LF) ;;; ret None)
    [Exception]
    (fun e =>
       print (LF ++ "❌ 登录异常：" ++ exc_str e ++ "，程序退出。") ;;;
       exit 1).

(** The [while True:] of [login]. *)
Definition login_loop (fuel : nat) : M unit :=
  while_true fuel (login_round fuel).

(** [for k, v in info.items(): print(...)]. *)
Fixpoint print_items (items : list (string * PyVal)) : M unit :=
  match items with
  | [] => ret tt
  | (k, v) :: more =>
      value <- lift (getitem v "value") ;;
      expires <- lift (getitem v "expires") ;;
      print (ljust 10 k ++ "= " ++ py_str value ++ LF
             ++ "  expires: " ++ py_str expires) ;;;
      print_items more
  end.

(** [json.dump(info, open(file_path, "w"))]. *)
Definition dump (file_path : string) (info : PyVal) : M unit :=
  match file_write w file_path with
  | Some e => raise e
  | None => emit (EvDump file_path info)
  end.

Definition os_makedirs (path : string) : M unit :=
  emit (EvMakedirs path) ;;;
  match makedirs w path with
  | Some e => raise e
  | None => ret tt
  end.

(** What [login] does after its loop. *)
Definition login_finish (file_path : string) : M PyVal :=
  fun s =>
    let info := extract_login_cookies_with_expiry
                  (cookiejar w (n_requests s)) in
    (print "—— 登录态 Cookie 信息 ——" ;;;
     print_items (match info with PDict d => d | _ => [] end) ;;;
     dump file_path info ;;;
     ret info) s.

Definition login (fuel : nat) (file_path : string) : M PyVal :=
  os_makedirs "data" ;;;
  temp_info <- parse_login_info file_path ;;
  cached <- login_cached temp_info ;;
  match cached with
  | Some info => ret info
  | None =>
      login_loop fuel ;;;
      login_finish file_path
  end.

End Programs.

(* ===================================================================== *)
(** * The notions the properties are stated with *)
(* ===================================================================== *)

(** The state after one more request. *)
Definition after_get (s : State) (rq : Request) : State :=
  {| trace := trace s ++ [EvGet rq];
     n_requests := S (n_requests s);
     n_clock := n_clock s |}.

(** What one tier of the resilient fetch comes to when it is the request
    number [n]: the response, or the exception of the transport, or the
    [HTTPError] that [raise_for_status] raises on the response. *)
Definition attempt_outcome (w : World) (n : nat) (rq : Request)
  : result Response :=
  match net w n rq with
  | Reply r =>
      if String.eqb (http_error_msg r) "" then Ok r
      else Raise (mkExn HTTPError (http_error_msg r))
  | Fails e => Raise e
  end.

(** The three tiers of the resilient fetch. *)
Definition tier1_request (url : PyVal) (kwargs : list (string * PyVal))
  : Request :=
  mkRequest session url kwargs.

Definition tier2_request (url : PyVal) (kwargs : list (string * PyVal))
  : Request :=
  mkRequest session url (("verify", PBool false) :: without_verify kwargs).

Definition tier3_request (url : PyVal) (kwargs : list (string * PyVal))
  : Request :=
  mkRequest (headers_update requests_Session (sess_headers session)) url
    (("verify", PBool false) :: without_verify kwargs).

(** The resilient fetch told tier by tier: the tiers in order, the first
    success wins, the errors that let the next tier try, and the error
    that tells the three failures. *)
Definition fetch_by_tiers (w : World) (url : PyVal)
  (kwargs : list (string * PyVal)) (s : State) : result Response * State :=
  let n := n_requests s in
  let s1 := after_get s (tier1_request url kwargs) in
  let s2 := after_get s1 (tier2_request url kwargs) in
  let s3 := after_get s2 (tier3_request url kwargs) in
  match attempt_outcome w n (tier1_request url kwargs) with
  | Ok r => (Ok r, s1)
  | Raise e1 =>
      if isinstance_any e1 fallback_classes then
        match attempt_outcome w (S n) (tier2_request url kwargs) with
        | Ok r => (Ok r, s2)
        | Raise e2 =>
            if isinstance_any e2 fallback_classes then
              match attempt_outcome w (S (S n)) (tier3_request url kwargs) with
              | Ok r => (Ok r, s3)
              | Raise e3 =>
                  if isinstance e3 Exception
                  then (Raise (mkExn RuntimeError (all_failed_msg e1 e2 e3)),
                        s3)
                  else (Raise e3, s3)
              end
            else (Raise e2, s2)
        end
      else (Raise e1, s1)
  end.

(** A world where nothing happens but what [n] says of the network. *)
Definition world_of (n : nat -> Request -> Outcome) : World :=
  {| net := n;
     clock := fun _ => 0;
     utc_now := mkDateTime 2025 1 1 0 0 0 0;
     local_tznames := [];
     file_read := fun _ => Raise (mkExn FileNotFoundError "No such file");
     file_write := fun _ => None;
     makedirs := fun _ => None;
     cookiejar := fun _ => [];
     strftime_utc := fun _ => "" |}.

Definition reply (status : Z) (why body : string) : Outcome :=
  Reply {| status_code := status; reason := why; resp_url := "";
           text := body |}.

(** ** Worlds for the resilient fetch *)

Definition page_url_example : PyVal :=
  PStr "https://www.bilibili.com/video/BV1xx411c7mD".

Definition ok_page : Response :=
  {| status_code := 200; reason := "OK"; resp_url := ""; text := "<html>" |}.

Definition not_found : Response :=
  {| status_code := 404; reason := "Not Found"; resp_url := ""; text := "" |}.

(** The first request is answered [404 Not Found], the next ones [200 OK]. *)
Definition net_404_then_200 (n : nat) (rq : Request) : Outcome :=
  match n with
  | O => Reply not_found
  | S _ => Reply ok_page
  end.

Definition tls_error : exn :=
  mkExn SSLError "certificate verify failed".

Definition refused : exn :=
  mkExn ConnectionError "connection refused".

(** No request gets a response: the certificate is refused as long as it is
    checked, the connection after that. *)
Definition net_down (n : nat) (rq : Request) : Outcome :=
  match rq_verify rq with
  | PBool false => Fails refused
  | _ => Fails tls_error
  end.

(** ** Notions and worlds for the resolution *)

Definition page_url (bvid : string) : PyVal :=
  PStr ("https://www.bilibili.com/video/" ++ bvid).

Definition info_api (bvid : string) : PyVal :=
  PStr ("https://api.bilibili.com/x/web-interface/view?bvid=" ++ bvid).

Definition credential_cookies (sessdata bili_jct dede_user_id : PyVal)
  : list (string * PyVal) :=
  [("SESSDATA", sessdata); ("bili_jct", bili_jct);
   ("DedeUserID", dede_user_id)].

(** The manifest [playinfo] lists the video representations [videos] and the
    audio representations [audios] in its dash section, and the accepted
    qualities [qualities]. *)
Definition manifest_lists (playinfo : PyVal) (videos audios : list PyVal)
  (qualities : PyVal) : Prop :=
  exists top data dash,
    playinfo = PDict top
    /\ dict_lookup "data" top = Some (PDict data)
    /\ dict_lookup "dash" data = Some (PDict dash)
    /\ dict_lookup "video" dash = Some (PList videos)
    /\ dict_lookup "audio" dash = Some (PList audios)
    /\ dict_lookup "accept_quality" data = Some qualities.

(** [js.get("data", {}).get("title", "")]. *)
Definition title_of (js : PyVal) : result PyVal :=
  d <~ py_get js "data" (PDict []) ;;
  py_get d "title" (PStr "").

Definition manifest_page : Response :=
  {| status_code := 200; reason := "OK"; resp_url := "";
     text :=
       "<html><script>window.__playinfo__="
       ++ dq ("{'code':0,'data':{'accept_quality':[120,80,64],"
              ++ "'dash':{'video':[{'id':80,'baseUrl':'V1'}],"
              ++ "'audio':[{'id':30280,'baseUrl':'A1'}]}}}")
       ++ "</script></html>" |}.

Definition view_reply : Response :=
  {| status_code := 200; reason := "OK"; resp_url := "";
     text := dq "{'code':0,'data':{'aid':1,'cid':2,'title':'T'}}" |}.

(** The page with its manifest, then the metadata. *)
Definition net_resolves (n : nat) (rq : Request) : Outcome :=
  match n with
  | O => Reply manifest_page
  | S _ => Reply view_reply
  end.

Definition plain_page : Response :=
  {| status_code := 200; reason := "OK"; resp_url := "";
     text := "<html><script>window.__INITIAL_STATE__={};</script></html>" |}.

(** A page without manifest, whatever is asked. *)
Definition net_plain (n : nat) (rq : Request) : Outcome := Reply plain_page.

(** ** Notions for the QR login *)

(** The states of the QR login the specification names. *)
Inductive QRState : Type :=
  | AWAITING_SCAN
  | SCANNED_PENDING_CONFIRM
  | EXPIRED
  | CONFIRMED.

(** The line of progress [poll_login] prints in a round that goes on. *)
Definition progress_line (elapsed : Z) (msg : string) : string :=
  CR ++ "[" ++ rjust 3 (str_int elapsed) ++ "s] " ++ msg.

Definition expired_line (elapsed : Z) : string :=
  (LF ++ "⚠️ [ " ++ str_int elapsed ++ "s ] 二维码已过期，重新申请..." ++ LF)
  ++ LF.

Definition success_line (elapsed : Z) : string :=
  (LF ++ "✅ 登录成功！[" ++ str_int elapsed ++ "s]" ++ LF) ++ LF.

(** The state of the login a line of [poll_login] shows on the terminal. *)
Definition shown_state (e : Event) : option QRState :=
  match e with
  | EvPrint line =>
      if startswith line (LF ++ "⚠️ [ ") then Some EXPIRED
      else if startswith line (LF ++ "✅ 登录成功！[") then Some CONFIRMED
      else if endswith line "未扫码" then Some AWAITING_SCAN
      else if endswith line "已扫码，待确认" then Some SCANNED_PENDING_CONFIRM
      else None
  | _ => None
  end.

(** The states a trace shows, in order. *)
Definition shown_states (t : list Event) : list QRState :=
  flat_map (fun e => match shown_state e with
                     | Some q => [q]
                     | None => []
                     end) t.

(** The seconds [poll_login] counts between the readings [i] and [j] of the
    clock. *)
Definition elapsed_between (w : World) (i j : nat) : Z :=
  Z.quot (clock w j - clock w i) 1000.

(** The outcome [o] of a request is a response of the polling endpoint with
    the status [status] in its data [d]: no HTTP error, a JSON object of
    code 0 whose data are the object [d], of code [status]. *)
Definition poll_reply (o : Outcome) (status : PyVal)
  (d : list (string * PyVal)) : Prop :=
  exists resp js c,
    o = Reply resp
    /\ http_error_msg resp = ""
    /\ json_loads (text resp) = Some (PDict js)
    /\ dict_lookup "code" js = Some c
    /\ py_eq_int c 0 = true
    /\ dict_lookup "data" js = Some (PDict d)
    /\ dict_lookup "code" d = Some status.

(** The outcome [o] of a request is a response of the endpoint that makes
    QR codes, with the key [key] and the address [url]. *)
Definition generate_reply (o : Outcome) (key url : PyVal) : Prop :=
  exists resp js c data,
    o = Reply resp
    /\ http_error_msg resp = ""
    /\ json_loads (text resp) = Some (PDict js)
    /\ dict_lookup "code" js = Some c
    /\ py_eq_int c 0 = true
    /\ dict_lookup "data" js = Some (PDict data)
    /\ dict_lookup "qrcode_key" data = Some key
    /\ dict_lookup "url" data = Some url.

Definition generate_request : Request :=
  mkRequest session (PStr generate_url) [("timeout", PInt 5)].

Definition confirm_request (login_url : PyVal) : Request :=
  mkRequest session login_url [("timeout", PInt 5)].

(** The state after a round of polling that goes on: the request, the
    reading of the clock, the line of progress, the pause. *)
Definition after_pending (w : World) (key : PyVal) (interval start : Z)
  (msg : string) (s : State) : State :=
  {| trace :=
       trace s
       ++ [EvGet (poll_request key);
           EvPrint (progress_line
                      (Z.quot (clock w (n_clock s) - start) 1000) msg);
           EvSleep interval];
     n_requests := S (n_requests s);
     n_clock := S (n_clock s) |}.

(** The message of the status [status] when the round goes on. *)
Definition pending_msg (status : Z) : option string :=
  if status =? 86101 then Some "未扫码"
  else if status =? 86090 then Some "已扫码，待确认"
  else None.

(** ** What a program asks the network *)

(** [respects n0 Q m]: run from a state where [n0] requests or more were
    made, the program [m] only adds to the trace, and the requests it adds
    are in [Q]. *)
Definition respects (n0 : nat) (Q : Request -> Prop) {A : Type} (m : M A)
  : Prop :=
  forall s r s',
    (n0 <= n_requests s)%nat ->
    m s = Some (r, s') ->
    (n_requests s <= n_requests s')%nat
    /\ exists new,
         trace s' = (trace s ++ new)%list /\ Forall Q (requests_of new).

(** What [poll_login] asks: the status of its key, and the confirmation. *)
Definition poll_requests (key : PyVal) (rq : Request) : Prop :=
  rq = poll_request key \/ exists u, rq = confirm_request u.

(** ** Rounds of the login *)

Definition scan_prompt : string :=
  ("请用哔哩哔哩 App 扫描下面二维码：" ++ LF) ++ LF.

Definition timeout_line : string :=
  (LF ++ "⏰ 扫码超时，重新获取..." ++ LF) ++ LF.

(** The state after [login] got a QR code and showed it. *)
Definition qr_shown (url : PyVal) (s : State) : State :=
  log (EvShowQR url)
    (log (EvPrint scan_prompt) (after_get s generate_request)).

(** The state after one more reading of the clock. *)
Definition clock_read (s : State) : State :=
  {| trace := trace s;
     n_requests := n_requests s;
     n_clock := S (n_clock s) |}.



(** [rounds_time_out w fuel n s s']: from [s], [n] rounds of the loop of
    [login] in a row get a QR code and end on the [TimeoutError] of
    [poll_login], and leave [s']. *)
Inductive rounds_time_out (w : World) (fuel : nat)
  : nat -> State -> State -> Prop :=
  | rounds_time_out_O (s : State) : rounds_time_out w fuel 0 s s
  | rounds_time_out_S (n : nat) (s s2 s' : State) (key url : PyVal)
      (e : exn) :
      generate_reply (net w (n_requests s) generate_request) key url ->
      poll_login w fuel key 2 180 (qr_shown url s) = Some (Raise e, s2) ->
      isinstance e TimeoutError = true ->
      rounds_time_out w fuel n (log (EvPrint timeout_line) s2) s' ->
      rounds_time_out w fuel (S n) s s'.

(** What the loop of [login] asks once [n0] requests were made: a QR code,
    the status of a key that a QR code made since then carries, and the
    confirmation. *)
Definition login_requests (w : World) (n0 : nat) (rq : Request) : Prop :=
  rq = generate_request
  \/ (exists key url i,
         (n0 <= i)%nat
         /\ generate_reply (net w i generate_request) key url
         /\ rq = poll_request key)
  \/ (exists u, rq = confirm_request u).


(** ** Worlds for the QR login *)

Definition ok_json (body : string) : Outcome := reply 200 "OK" body.

Definition generate_body (key : string) : string :=
  dq ("{'code':0,'message':'0','ttl':1,'data':{'url':"
      ++ "'https://account.bilibili.com/h5/account-h5/auth/scan-web?qrcode_key="
      ++ key ++ "','qrcode_key':'" ++ key ++ "'}}").

Definition scan_url (key : string) : PyVal :=
  PStr ("https://account.bilibili.com/h5/account-h5/auth/scan-web?qrcode_key="
        ++ key).

Definition poll_body (status : Z) (url : string) : string :=
  dq ("{'code':0,'message':'0','ttl':1,'data':{'url':'" ++ url
      ++ "','refresh_token':'','timestamp':0,'code':" ++ str_int status
      ++ ",'message':''}}").

Definition confirm_url : string :=
  "https://passport.biligame.com/x/passport-login/web/crossDomain?DedeUserID=1".

(** The outcomes of the requests, in the order of the requests. *)
Definition scripted (script : list Outcome) (n : nat) (rq : Request)
  : Outcome :=
  nth n script (Fails refused).

Definition world_at (n : nat -> Request -> Outcome) (c : nat -> Z) : World :=
  {| net := n;
     clock := c;
     utc_now := mkDateTime 2025 1 1 0 0 0 0;
     local_tznames := [];
     file_read := fun _ => Raise (mkExn FileNotFoundError "No such file");
     file_write := fun _ => None;
     makedirs := fun _ => None;
     cookiejar := fun _ => [];
     strftime_utc := fun _ => "" |}.

(** Not scanned, not scanned, scanned, confirmed. *)
Definition world_scan : World :=
  world_of (scripted [ok_json (poll_body 86101 "");
                      ok_json (poll_body 86101 "");
                      ok_json (poll_body 86090 "");
                      ok_json (poll_body 0 confirm_url);
                      ok_json ""]).


(** Nobody scans the two first QR codes for 180 seconds; the third is
    scanned and confirmed at once. *)
Definition world_two_timeouts : World :=
  world_at
    (scripted [ok_json (generate_body "K1");
               ok_json (poll_body 86101 "");
               ok_json (generate_body "K2");
               ok_json (poll_body 86101 "");
               ok_json (generate_body "K3");
               ok_json (poll_body 0 confirm_url);
               ok_json ""])
    (fun n => nth n [0; 180000; 180000; 360000; 360000; 361000] 361000).

(** Nobody ever scans: every QR code is made, every poll says "not
    scanned", and 180 seconds pass between two readings of the clock. *)
Definition world_idle : World :=
  world_at
    (fun _ rq =>
       match rq_url rq with
       | PStr u =>
           if String.eqb u generate_url then ok_json (generate_body "K")
           else ok_json (poll_body 86101 "")
       | _ => Fails refused
       end)
    (fun n => 180000 * Z.of_nat n).

(** The rest of a round of the loop of [login] once [get_qr_login] gave
    the key and the address. *)
Definition login_round_rest (w : World) (fuel : nat) (key url : PyVal)
  : M (option unit) :=
  print ("请用哔哩哔哩 App 扫描下面二维码：" ++ LF) ;;;
  show_qr_terminal url ;;;
  try_except2
    (ok <- poll_login w fuel key 2 180 ;;
     if ok : bool then ret (Some tt) else ret None)
    [TimeoutError]
    (fun _ => print (LF ++ "⏰ 扫码超时，重新获取..." ++ LF) ;;; ret None)
    [Exception]
    (fun e =>
       print (LF ++ "❌ 登录异常：" ++ exc_str e ++ "，程序退出。") ;;;
       exit 1).


(** ** Notions and worlds for the credential file *)

Definition no_file_line (file_path : string) : string :=
  ("登录信息文件 " ++ file_path ++ " 不存在，开始新登录流程。") ++ LF.


Definition cache_loaded_line : string :=
  "✅ 已加载本地缓存，Cookie 未过期，直接使用。" ++ LF.

(** The credential [name] of [temp_info] is an object with a value and an
    expiry: [None] when the expiry is absent, [Some t] when it is a string
    that reads as the time [t]. *)
Definition field_expiry (w : World) (temp_info : PyVal) (name : string)
  (expiry : option DateTime) : Prop :=
  exists entry value,
    getitem temp_info name = Ok (PDict entry)
    /\ dict_lookup "value" entry = Some value
    /\ match expiry with
       | None => dict_lookup "expires" entry = Some PNone
       | Some t =>
           exists str,
             dict_lookup "expires" entry = Some (PStr str)
             /\ strptime_utc (local_tznames w) str = Some t
       end.

(** Usable, as the specification has it: every expiry that is there is
    after [now]. *)
Definition usable (expiries : list (option DateTime)) (now : DateTime)
  : Prop :=
  forall t, In (Some t) expiries -> dt_gt t now = true.

(** The same, decided. *)
Definition usableb (expiries : list (option DateTime)) (now : DateTime)
  : bool :=
  forallb (fun x => match x with
                    | Some t => dt_gt t now
                    | None => true
                    end) expiries.

(** The state after [login] loaded the credentials of the file. *)
Definition cache_loaded (temp_info : PyVal) (s : State) : option State :=
  match cached_value temp_info "SESSDATA",
        cached_value temp_info "bili_jct",
        cached_value temp_info "DedeUserID" with
  | Ok a, Ok b, Ok c =>
      Some (log (EvPrint cache_loaded_line)
              (log (EvCookies (credential_cookies a b c)) s))
  | _, _, _ => None
  end.

(** What [login] does without credentials it can use: the QR login. *)
Definition qr_login (w : World) (fuel : nat) (file_path : string) : M PyVal :=
  login_loop w fuel ;;; login_finish w file_path.

Definition login_file : string := "data/login_info.json".

(** A world with the credential file [txt], where the first QR code is
    confirmed at the first poll. *)
Definition world_with_file (txt : string) (now : DateTime) : World :=
  {| net := scripted [ok_json (generate_body "K1");
                      ok_json (poll_body 0 confirm_url);
                      ok_json ""];
     clock := fun _ => 0;
     utc_now := now;
     local_tznames := [];
     file_read := fun p =>
       if String.eqb p login_file then Ok txt
       else Raise (mkExn FileNotFoundError "No such file");
     file_write := fun _ => None;
     makedirs := fun _ => None;
     cookiejar := fun _ => [];
     strftime_utc := fun _ => "" |}.

Definition noon_2025_06_01 : DateTime := mkDateTime 2025 6 1 12 0 0 0.

(** The credentials of a login: two expire in 2025-12, one has no expiry. *)
Definition good_file : string :=
  dq ("{'SESSDATA': {'value': 'a', 'expires': '2025-12-01 08:00:00 UTC'},"
      ++ " 'bili_jct': {'value': 'b', 'expires': '2025-12-01 08:00:00 UTC'},"
      ++ " 'DedeUserID': {'value': 'c', 'expires': null}}").

(** No JSON at all. *)
Definition broken_file : string := dq "{'SESSDATA': {'value': 'a', ".




(* ===================================================================== *)
(** * The rest of [utils.py] *)
(* ===================================================================== *)

(** ** The identifier of a video: [extract_bv] *)

(** Every character of [s] passes the test [p]. *)
Fixpoint string_forall (p : ascii -> bool) (s : string) : bool :=
  match s with
  | EmptyString => true
  | String c r => p c && string_forall p r
  end.

(** A character of the class [[0-9A-Za-z]]. *)
Definition is_alnum (c : ascii) : bool :=
  let n := code c in
  ((48 <=? n) && (n <=? 57)) || ((65 <=? n) && (n <=? 90))
  || ((97 <=? n) && (n <=? 122)).

(** The longest prefix of such characters, and the rest. *)
Fixpoint span_alnum (s : string) : string * string :=
  match s with
  | String c r =>
      if is_alnum c
      then let (a, t) := span_alnum r in (String c a, t)
      else (EmptyString, s)
  | EmptyString => (EmptyString, s)
  end.

(** The pattern [(BV[0-9A-Za-z]{10,})] matched at the head of [s]: its
    group.  The repetition is greedy and nothing follows it in the pattern,
    so it takes the whole run of characters of the class. *)
Definition match_bv (s : string) : option string :=
  match strip_prefix "BV" s with
  | Some r =>
      let run := fst (span_alnum r) in
      if (10 <=? String.length run)%nat then Some ("BV" ++ run) else None
  | None => None
  end.

(** [extract_bv(url)]: the group of the leftmost match, [None] without a
    match. *)
Fixpoint extract_bv (url : string) : option string :=
  match match_bv url with
  | Some g => Some g
  | None =>
      match url with
      | String _ r => extract_bv r
      | EmptyString => None
      end
  end.

(** An identifier stands at the head of [s]: [BV], then ten characters of
    the class or more. *)
Definition bv_at (s : string) : Prop :=
  exists run rest,
    s = "BV" ++ run ++ rest
    /\ (10 <= String.length run)%nat
    /\ string_forall is_alnum run = true.

(** [s] does not go on with a character of the class. *)
Definition run_ends (s : string) : Prop :=
  match s with
  | String c _ => is_alnum c = false
  | EmptyString => True
  end.

(** ** The identifiers of the video: [get_aid_cid], [_get_quality_list] *)

(** The exceptions of [cus_exceptions] that [utils.py] raises.  Their
    base classes are declared in that module, outside the files embedded
    here, and no [except] clause of the program names them: they are kept
    apart from the classes of [ExcClass], and a function that can raise
    one returns [Failed] for it. *)
Inductive CusException : Type :=
  | AidRetrievalError (msg : string)
  | CidRetrievalError (msg : string).

Inductive or_failed (A : Type) : Type :=
  | Returned (a : A)
  | Failed (e : CusException).
Arguments Returned {A} a.
Arguments Failed {A} e.

Definition view_url : string :=
  "https://api.bilibili.com/x/web-interface/view".

Definition playurl_url : string :=
  "https://api.bilibili.com/x/player/playurl".

Section Lookups.

Variable w : World.

(** [requests.get(url, **kwargs)]: a request outside every session. *)
Definition requests_get (url : PyVal) (kwargs : list (string * PyVal))
  : M Response :=
  get w requests_Session url kwargs.

Definition get_aid_cid (bvid : PyVal) : M (or_failed (PyVal * PyVal)) :=
  let url := view_url in
  resp <- requests_get (PStr url)
            [("params", PDict [("bvid", bvid)]);
             ("headers", PDict [("User-Agent", PStr "Mozilla/5.0")]);
             ("timeout", PInt 5)] ;;
  raise_for_status resp ;;;
  js <- resp_json resp ;;
  data <- lift (py_get js "data" (PDict [])) ;;
  aid <- lift (py_get data "aid" PNone) ;;
  cid <- lift (py_get data "cid" PNone) ;;
  if is_none aid then ret (Failed (AidRetrievalError "获取 aid 失败"))
  else if is_none cid then ret (Failed (CidRetrievalError "获取 cid 失败"))
  else ret (Returned (aid, cid)).

(** The parameters of the playback interface. *)
Definition playurl_params (aid bvid cid : PyVal) : PyVal :=
  PDict [("avid", aid);
         ("bvid", bvid);
         ("cid", cid);
         ("otype", PStr "json");
         ("type", PStr "mp4");
         ("fnver", PInt 0);
         ("fnval", PInt 0);
         ("fourk", PInt 1);
         ("platform", PStr "html5");
         ("high_quality", PInt 1)].

Definition _get_quality_list (bvid sessdata bili_jct dede_user_id : PyVal)
  (headers : PyVal) : M (or_failed PyVal) :=
  ids <- get_aid_cid bvid ;;
  match ids with
  | Failed e => ret (Failed e)
  | Returned (aid, cid) =>
      let params := playurl_params aid bvid cid in
      resp <- requests_get (PStr playurl_url)
                [("headers", headers); ("params", params);
                 ("timeout", PInt 5)] ;;
      raise_for_status resp ;;;
      js <- resp_json resp ;;
      data <- lift (py_get js "data" (PDict [])) ;;
      qualities <- lift (py_get data "accept_quality" (PList [])) ;;
      ret (Returned qualities)
  end.

End Lookups.

(* ===================================================================== *)
(** * Downloading and merging: [download_merge.py] *)
(* ===================================================================== *)

(** A character that the pattern of [_sanitize_filename] names: the
    backslash, the slash, the colon, the star, the question mark, the double
    quote, the angle brackets and the bar. *)
Definition is_illegal (c : ascii) : bool :=
  existsb (Z.eqb (code c)) [92; 47; 58; 42; 63; 34; 60; 62; 124].

Definition legal (c : ascii) : bool := negb (is_illegal c).

(** [re.sub(pattern, "_", name)]: every such character becomes an
    underscore. *)
Fixpoint _sanitize_filename (name : string) : string :=
  match name with
  | EmptyString => EmptyString
  | String c r =>
      String (if is_illegal c then "_"%char else c) (_sanitize_filename r)
  end.

(** [os.path.join(a, b)] where the separator is the slash. *)
Definition os_path_join (a b : string) : string :=
  if startswith b "/" then b
  else if String.eqb a "" || endswith a "/" then a ++ b
  else a ++ "/" ++ b.

(** ** The world and the state of the downloads *)

(** What the transfer of a body comes to: the chunks that [iter_content]
    yields, in order, and the exception that ends the iteration before the
    end of the body, if any. *)
Record Transfer : Type := mkTransfer {
  chunks : list string;
  broken : option exn
}.

(** What running [ffmpeg] comes to: it merged; or it failed, which the
    binding tells with its own exception, [ffmpeg.Error], of standard error
    [stderr] and of text [message]; or it could not be run and another
    exception tells it. *)
Inductive FfmpegOutcome : Type :=
  | Merged
  | FfmpegError (stderr : option string) (message : string)
  | FfmpegRaises (e : exn).

(** What a download or a merge does not decide, besides a [World].
    - [head_length n rq]: what [int(...)] of the [Content-Length] of the
      response to the [HEAD] request [rq] comes to, 0 without the header,
      when [n] requests were made before: the number, or the exception of
      the request or of [int].
    - [transfer n rq]: the body of the response to the request [rq].
    - [write_refused n p]: what writing to the file [p] raises, if anything,
      when the program took [n] steps before.
    - [ffmpeg_run n inputs out]: what merging [inputs] into [out] comes to.
    - [remove_refused n p]: what [os.remove(p)] raises, if anything.
    - [utf8_ignore b]: [b.decode("utf-8", errors="ignore")].
    - [stdin_line]: the line that [input] reads, or what it raises. *)
Record Media : Type := mkMedia {
  head_length : nat -> Request -> result Z;
  transfer : nat -> Request -> Transfer;
  write_refused : nat -> string -> option exn;
  ffmpeg_run : nat -> list string -> string -> FfmpegOutcome;
  remove_refused : nat -> string -> option exn;
  utf8_ignore : string -> string;
  stdin_line : result string
}.

(** What the whole program does, in order: the events of the login and of
    the resolution, and those of the downloads and of the merge. *)
Inductive Step : Type :=
  | Did (e : Event)
  | Head (rq : Request)
  | OpenWb (path : string)
  | WriteChunk (path : string) (chunk : string)
  | CloseFile (path : string)
  | Bar (desc : string) (bar_total : Z)
  | BarUpdate (n : Z)
  | CloseBar
  | CloseResponse
  | Ffmpeg (inputs : list string) (out : string)
           (options : list (string * string))
  | Remove (path : string).

Record Run : Type := mkRun {
  steps : list Step;
  r_requests : nat;
  r_clock : nat
}.

Definition start : Run := {| steps := []; r_requests := 0; r_clock := 0 |}.

Definition add (x : Step) (d : Run) : Run :=
  {| steps := steps d ++ [x];
     r_requests := r_requests d;
     r_clock := r_clock d |}.

(** A program over the steps: [None] when the fuel of a loop ran out. *)
Definition D (A : Type) : Type := Run -> option (result A * Run).

Definition dret {A : Type} (a : A) : D A := fun d => Some (Ok a, d).

Definition draise {A : Type} (e : exn) : D A := fun d => Some (Raise e, d).

Definition dbind {A B : Type} (m : D A) (k : A -> D B) : D B :=
  fun d =>
    match m d with
    | Some (Ok a, d') => k a d'
    | Some (Raise e, d') => Some (Raise e, d')
    | None => None
    end.

Declare Scope run_scope.
Delimit Scope run_scope with run.
Notation "x <- m ;; k" := (dbind m (fun x => k))
  (at level 61, m at next level, right associativity) : run_scope.
Notation "m ;;; k" := (dbind m (fun _ => k))
  (at level 61, right associativity) : run_scope.

Definition dlift {A : Type} (r : result A) : D A := fun d => Some (r, d).

Definition step (x : Step) : D unit := fun d => Some (Ok tt, add x d).

(** A program of the login or of the resolution as a part of the whole: it
    starts with the requests and the readings of the clock made so far, and
    its events are steps. *)
Definition as_state (d : Run) : State :=
  {| trace := []; n_requests := r_requests d; n_clock := r_clock d |}.

Definition liftM {A : Type} (m : M A) : D A :=
  fun d =>
    match m (as_state d) with
    | Some (r, s') =>
        Some (r, {| steps := steps d ++ map Did (trace s');
                    r_requests := n_requests s';
                    r_clock := n_clock s' |})
    | None => None
    end.

(** [with cm: body], where leaving [cm] is the step [on_exit]: the block is
    left the same way after a result and after an exception. *)
Definition with_exit {A : Type} (on_exit : Step) (body : D A) : D A :=
  fun d =>
    match body d with
    | Some (r, d') => Some (r, add on_exit d')
    | None => None
    end.

(** The requests of the steps and their methods, in order. *)
Inductive Method : Type := HEAD | GET.

Definition asked (l : list Step) : list (Method * Request) :=
  flat_map (fun x => match x with
                     | Head rq => [(HEAD, rq)]
                     | Did (EvGet rq) => [(GET, rq)]
                     | _ => []
                     end) l.

(** What the steps [l] leave in the file [path], which held [before]
    ([None]: there is no such file): opening it for writing empties it,
    writing adds to it, removing it leaves nothing. *)
Fixpoint file_after (path : string) (l : list Step) (before : option string)
  : option string :=
  match l with
  | [] => before
  | OpenWb p :: r =>
      file_after path r (if String.eqb p path then Some "" else before)
  | WriteChunk p c :: r =>
      file_after path r
        (if String.eqb p path
         then match before with Some t => Some (t ++ c) | None => None end
         else before)
  | Remove p :: r =>
      file_after path r (if String.eqb p path then None else before)
  | _ :: r => file_after path r before
  end.

(** How far the steps [l] move the progress bar. *)
Definition progress (l : list Step) : Z :=
  fold_right (fun x acc => match x with
                           | BarUpdate n => n + acc
                           | _ => acc
                           end) 0 l.

(** The bytes of the chunks, in order. *)
Definition body_bytes (cs : list string) : string :=
  fold_right append "" cs.

(** The options of the merge: the streams are copied, the output is
    written over. *)
Definition merge_options : list (string * string) :=
  [("vcodec", "copy"); ("acodec", "copy"); ("y", "")].

Section Downloads.

Variable w : World.
Variable md : Media.

Local Open Scope run_scope.

(** [session.head(url, **kwargs)] and the reading of the length. *)
Definition head_total (sess : Session) (url : PyVal)
  (kwargs : list (string * PyVal)) : D Z :=
  fun d =>
    let rq := mkRequest sess url kwargs in
    let d' := {| steps := steps d ++ [Head rq];
                 r_requests := S (r_requests d);
                 r_clock := r_clock d |} in
    match head_length md (r_requests d) rq with
    | Ok n => Some (Ok n, d')
    | Raise e => Some (Raise e, d')
    end.

(** [s.get(url, stream=True, **kwargs)]: the response and its body, which
    is not read yet. *)
Definition get_stream (sess : Session) (url : PyVal)
  (kwargs : list (string * PyVal)) : D (Response * Transfer) :=
  fun d =>
    let rq := mkRequest sess url kwargs in
    let d' := {| steps := steps d ++ [Did (EvGet rq)];
                 r_requests := S (r_requests d);
                 r_clock := r_clock d |} in
    match net w (r_requests d) rq with
    | Reply r => Some (Ok (r, transfer md (r_requests d) rq), d')
    | Fails e => Some (Raise e, d')
    end.

(** [open(path, "wb")]. *)
Definition open_wb (path : string) : D unit :=
  match file_write w path with
  | Some e => draise e
  | None => step (OpenWb path)
  end.

(** [f.write(chunk)]. *)
Definition f_write (path chunk : string) : D unit :=
  fun d =>
    match write_refused md (List.length (steps d)) path with
    | Some e => Some (Raise e, d)
    | None => Some (Ok tt, add (WriteChunk path chunk) d)
    end.

(** [for chunk in resp.iter_content(...)]: an empty chunk is passed over,
    another one is written and counted. *)
Fixpoint write_chunks (path : string) (cs : list string) (end_ : option exn)
  : D unit :=
  match cs with
  | [] =>
      match end_ with
      | Some e => draise e
      | None => dret tt
      end
  | chunk :: more =>
      if String.eqb chunk "" then write_chunks path more end_
      else
        f_write path chunk ;;;
        step (BarUpdate (Z.of_nat (String.length chunk))) ;;;
        write_chunks path more end_
  end.

(** [_sanitize_filename(name)] for an argument of any type: the pattern
    takes a string only (the text of the error is that of Python 3.11 and
    later). *)
Definition sanitize_arg (name : PyVal) : result string :=
  match name with
  | PStr s => Ok (_sanitize_filename s)
  | _ =>
      Raise (mkExn TypeError
               ("expected string or bytes-like object, got '"
                ++ type_name name ++ "'"))
  end.

(** [session.headers.get("User-Agent")]. *)
Definition session_user_agent : PyVal :=
  match dict_lookup "User-Agent" (sess_headers session) with
  | Some u => PStr u
  | None => PNone
  end.

(** The headers of the two requests of a download. *)
Definition download_headers (bvid : PyVal) : PyVal :=
  PDict [("Referer", PStr ("https://www.bilibili.com/video/" ++ py_str bvid));
         ("User-Agent", session_user_agent)].

Definition download_video (bvid title video_url : PyVal) : D string :=
  let out_dir := "temp" in
  liftM (os_makedirs w out_dir) ;;;
  safe_title <- dlift (sanitize_arg title) ;;
  let path := os_path_join out_dir (safe_title ++ "_video_only.mp4") in
  let headers := download_headers bvid in
  total <- head_total session video_url [("headers", headers)] ;;
  rb <- get_stream session video_url
          [("headers", headers); ("stream", PBool true)] ;;
  with_exit CloseResponse
    (liftM (raise_for_status (fst rb)) ;;;
     open_wb path ;;;
     with_exit (CloseFile path)
       (step (Bar ("下载视频 " ++ safe_title) total) ;;;
        with_exit CloseBar
          (write_chunks path (chunks (snd rb)) (broken (snd rb))))) ;;;
  liftM (print (LF ++ "✅ 视频已保存到 " ++ path)) ;;;
  dret path.

Definition download_audio (bvid title audio_url : PyVal) : D string :=
  let out_dir := "temp" in
  liftM (os_makedirs w out_dir) ;;;
  safe_title <- dlift (sanitize_arg title) ;;
  let path := os_path_join out_dir (safe_title ++ "_audio_only.mp3") in
  let headers := download_headers bvid in
  total <- head_total session audio_url [("headers", headers)] ;;
  rb <- get_stream session audio_url
          [("headers", headers); ("stream", PBool true)] ;;
  with_exit CloseResponse
    (liftM (raise_for_status (fst rb)) ;;;
     open_wb path ;;;
     with_exit (CloseFile path)
       (step (Bar ("下载音频 " ++ safe_title) total) ;;;
        with_exit CloseBar
          (write_chunks path (chunks (snd rb)) (broken (snd rb))))) ;;;
  liftM (print (LF ++ "✅ 音频已保存到 " ++ path)) ;;;
  dret path.

(** What [download_video] and [download_audio] have in common, with the
    end of the name of the file, the label of the progress bar and the
    word of the last line. *)
Definition download_file (suffix label saved : string)
  (bvid title url : PyVal) : D string :=
  liftM (os_makedirs w "temp") ;;;
  safe_title <- dlift (sanitize_arg title) ;;
  let path := os_path_join "temp" (safe_title ++ suffix) in
  let headers := download_headers bvid in
  total <- head_total session url [("headers", headers)] ;;
  rb <- get_stream session url
          [("headers", headers); ("stream", PBool true)] ;;
  with_exit CloseResponse
    (liftM (raise_for_status (fst rb)) ;;;
     open_wb path ;;;
     with_exit (CloseFile path)
       (step (Bar (label ++ safe_title) total) ;;;
        with_exit CloseBar
          (write_chunks path (chunks (snd rb)) (broken (snd rb))))) ;;;
  liftM (print (LF ++ "✅ " ++ saved ++ "已保存到 " ++ path)) ;;;
  dret path.

(** The two downloads, each with the end of the name of its file and the
    label of its progress bar. *)
Definition downloads
  : list ((PyVal -> PyVal -> PyVal -> D string) * string * string) :=
  [(download_video, "_video_only.mp4", "下载视频 ");
   (download_audio, "_audio_only.mp3", "下载音频 ")].

(** [os.remove(path)]: the step is the removal that took place. *)
Definition os_remove (path : string) : D unit :=
  fun d =>
    match remove_refused md (List.length (steps d)) path with
    | Some e => Some (Raise e, d)
    | None => Some (Ok tt, add (Remove path) d)
    end.

(** [ffmpeg.output(video, audio, out_path, vcodec="copy", acodec="copy")
    .overwrite_output().run(...)]: [inr] is the [ffmpeg.Error] that the
    [except] clause of [merge] takes. *)
Definition run_ffmpeg (inputs : list string) (out_path : string)
  : D (unit + option string * string) :=
  fun d =>
    let d' := add (Ffmpeg inputs out_path merge_options) d in
    match ffmpeg_run md (List.length (steps d)) inputs out_path with
    | Merged => Some (Ok (inl tt), d')
    | FfmpegError stderr message => Some (Ok (inr (stderr, message)), d')
    | FfmpegRaises e => Some (Raise e, d')
    end.

Definition merge (name : PyVal) (av_path audio_path out_dir_path : string)
  : D unit :=
  liftM (os_makedirs w out_dir_path) ;;;
  safe_name <- dlift (sanitize_arg name) ;;
  let out_path := os_path_join out_dir_path (safe_name ++ ".mp4") in
  ran <- run_ffmpeg [av_path; audio_path] out_path ;;
  match ran with
  | inl _ =>
      liftM (print ("✅ 合并成功：" ++ out_path)) ;;;
      os_remove av_path ;;;
      os_remove audio_path
  | inr (stderr, message) =>
      let err :=
        match stderr with
        | Some b =>
            if String.eqb b "" then None else Some (utf8_ignore md b)
        | None => None
        end in
      liftM (print "❌ FFmpeg 合并失败：") ;;;
      match err with
      | Some t =>
          if String.eqb t "" then liftM (print message)
          else liftM (print t)
      | None => liftM (print message)
      end
  end.

(** [input(prompt)]. *)
Definition input (prompt : string) : D string :=
  liftM (print_noeol prompt) ;;;
  dlift (stdin_line md).

(** A call of a function of three parameters with the entries of a
    dictionary as keyword arguments: each parameter has its argument, and
    there is no other argument (the texts of the two errors are cut
    short). *)
Definition call_kwargs {A : Type} (fname : string) (p1 p2 p3 : string)
  (f : PyVal -> PyVal -> PyVal -> D A) (kwargs : list (string * PyVal))
  : D A :=
  match dict_lookup p1 kwargs, dict_lookup p2 kwargs, dict_lookup p3 kwargs with
  | Some a, Some b, Some c =>
      if (List.length kwargs =? 3)%nat then f a b c
      else draise (mkExn TypeError
                     (fname ++ "() got an unexpected keyword argument"))
  | _, _, _ =>
      draise (mkExn TypeError
                (fname ++ "() missing required positional arguments"))
  end.

(** The script of [main.py]. *)
Definition main (fuel : nat) : D unit :=
  infos <- liftM (login w fuel "data/login_info.json") ;;
  typed <- input "enter url: " ;;
  match extract_bv typed with
  | None =>
      liftM (print "invalid url, parse failed") ;;;
      liftM (exit 1)
  | Some bvid =>
      sessdata <- dlift (cached_value infos "SESSDATA") ;;
      bili_jct <- dlift (cached_value infos "bili_jct") ;;
      dede_user_id <- dlift (cached_value infos "DedeUserID") ;;
      bv_info <- liftM (get_bv_info w bvid sessdata bili_jct dede_user_id) ;;
      v_path <- call_kwargs "download_video" "bvid" "title" "video_url"
                  download_video (get_video_infos bv_info tt) ;;
      a_path <- call_kwargs "download_audio" "bvid" "title" "audio_url"
                  download_audio (get_audio_infos bv_info tt) ;;
      merge (title bv_info) v_path a_path "output"
  end.

End Downloads.

(** ** Notions and worlds for the downloads *)

(** The steps of the loop of a download over the chunks [cs]. *)
Definition chunk_steps (path : string) (cs : list string) : list Step :=
  flat_map (fun c =>
              if String.eqb c "" then []
              else [WriteChunk path c;
                    BarUpdate (Z.of_nat (String.length c))]) cs.

(** The two requests of a download. *)
Definition head_request (bvid url : PyVal) : Request :=
  mkRequest session url [("headers", download_headers bvid)].

Definition stream_request (bvid url : PyVal) : Request :=
  mkRequest session url
    [("headers", download_headers bvid); ("stream", PBool true)].

(** The file of a download. *)
Definition download_path (title suffix : string) : string :=
  "temp/" ++ _sanitize_filename title ++ suffix.

(** The steps of a download that goes to its end, the chunks of the body in
    the middle. *)
Definition download_steps (suffix label saved : string) (bvid : PyVal)
  (title : string) (url : PyVal) (bar_total : Z) (written : list Step)
  : list Step :=
  ([Did (EvMakedirs "temp");
    Head (head_request bvid url);
    Did (EvGet (stream_request bvid url));
    OpenWb (download_path title suffix);
    Bar (label ++ _sanitize_filename title) bar_total]
   ++ written
   ++ [CloseBar; CloseFile (download_path title suffix); CloseResponse])%list.

(** The files that the steps removed, in order. *)
Definition removed (l : list Step) : list string :=
  flat_map (fun x => match x with Remove p => [p] | _ => [] end) l.

(** [ffmpeg] merged the two inputs of a merge that started in [d]. *)
Definition merged (md : Media) (name : PyVal)
  (av_path audio_path out_dir_path : string) (d : Run) : Prop :=
  exists safe_name,
    sanitize_arg name = Ok safe_name
    /\ ffmpeg_run md (S (List.length (steps d))) [av_path; audio_path]
         (os_path_join out_dir_path (safe_name ++ ".mp4")) = Merged.

(** The number of times the steps run [ffmpeg]. *)
Definition ffmpeg_runs (l : list Step) : nat :=
  List.length
    (filter (fun x => match x with Ffmpeg _ _ _ => true | _ => false end) l).

(** The state of the whole program after [login] left [s'] and the prompt
    was printed. *)
Definition prompted (d : Run) (s' : State) : Run :=
  {| steps :=
       (steps d ++ map Did (trace s') ++ [Did (EvPrint "enter url: ")])%list;
     r_requests := n_requests s';
     r_clock := n_clock s' |}.

Definition not_slash (c : ascii) : bool := negb (Ascii.eqb c "/"%char).

(** The steps [l] touch no file: they open none, write to none, remove
    none. *)
Definition touches_no_file (l : list Step) : Prop :=
  forall x, In x l ->
    match x with
    | OpenWb _ | WriteChunk _ _ | Remove _ => False
    | _ => True
    end.

(** A body of five bytes in three chunks, of which one is empty; [ffmpeg]
    merges; the user types the address of a video. *)
Definition media_example : Media :=
  {| head_length := fun _ _ => Ok 5;
     transfer := fun _ _ => mkTransfer ["ab"; ""; "cde"] None;
     write_refused := fun _ _ => None;
     ffmpeg_run := fun _ _ _ => Merged;
     remove_refused := fun _ _ => None;
     utf8_ignore := fun b => b;
     stdin_line := Ok "https://www.bilibili.com/video/BV1xx411c7mD" |}.

(** The same, where [ffmpeg] fails and the user types no address. *)
Definition media_failing : Media :=
  {| head_length := fun _ _ => Ok 5;
     transfer := fun _ _ => mkTransfer ["ab"; ""; "cde"] None;
     write_refused := fun _ _ => None;
     ffmpeg_run := fun _ _ _ =>
       FfmpegError (Some "moov atom not found")
         "ffmpeg error (see stderr output for detail)";
     remove_refused := fun _ _ => None;
     utf8_ignore := fun b => b;
     stdin_line := Ok "hello" |}.

(** Every request is answered [200 OK]; every request is answered
    [404 Not Found]. *)
Definition world_ok : World := world_of (fun _ _ => Reply ok_page).

Definition world_not_found : World := world_of (fun _ _ => Reply not_found).

(* ===================================================================== *)
(** * More notions and worlds *)
(* ===================================================================== *)

(** The outcome [o] of a request is a response without HTTP error whose
    body is the JSON text of [js]. *)
Definition json_reply (o : Outcome) (js : PyVal) : Prop :=
  exists resp,
    o = Reply resp
    /\ http_error_msg resp = ""
    /\ json_loads (text resp) = Some js.

(** The key is not there, or its value is [None]. *)
Definition missing (v : option PyVal) : Prop :=
  v = None \/ v = Some PNone.

Definition aid_cid_request (bvid : PyVal) : Request :=
  mkRequest requests_Session (PStr view_url)
    [("params", PDict [("bvid", bvid)]);
     ("headers", PDict [("User-Agent", PStr "Mozilla/5.0")]);
     ("timeout", PInt 5)].

Definition playurl_request (aid bvid cid headers : PyVal) : Request :=
  mkRequest requests_Session (PStr playurl_url)
    [("headers", headers); ("params", playurl_params aid bvid cid);
     ("timeout", PInt 5)].

Definition aid_missing : CusException := AidRetrievalError "获取 aid 失败".

Definition cid_missing : CusException := CidRetrievalError "获取 cid 失败".

(** The metadata without [aid]. *)
Definition world_without_aid : World :=
  world_of (scripted [ok_json (dq "{'code':0,'data':{'cid':2}}")]).

(** The metadata whose data are [null]. *)
Definition world_null_data : World :=
  world_of (scripted [ok_json (dq "{'code':-400,'data':null}")]).

(** The page of a video whose manifest has no streams. *)
Definition bare_manifest_page : Response :=
  {| status_code := 200; reason := "OK"; resp_url := "";
     text :=
       "<html><script>window.__playinfo__="
       ++ dq "{'code':0,'data':{'accept_quality':[]}}"
       ++ "</script></html>" |}.

Definition world_bare_manifest : World :=
  world_of (scripted [Reply bare_manifest_page; Reply view_reply]).

(** The page of a video whose manifest lists no video stream. *)
Definition empty_list_page : Response :=
  {| status_code := 200; reason := "OK"; resp_url := "";
     text :=
       "<html><script>window.__playinfo__="
       ++ dq "{'data':{'dash':{'video':[],'audio':[{'baseUrl':'A1'}]}}}"
       ++ "</script></html>" |}.

Definition world_empty_list : World :=
  world_of (scripted [Reply empty_list_page; Reply view_reply]).

(** The state in which [get_bv_info] fetches the page. *)
Definition cookies_set (sessdata bili_jct dede_user_id : PyVal) (s : State)
  : State :=
  log (EvCookies (credential_cookies sessdata bili_jct dede_user_id)) s.

(** What the tiers come to is clean: no response with the status of an
    error, no exception of the classes that let the next tier try. *)
Definition clean (r : result Response) : Prop :=
  match r with
  | Ok resp => ~ 400 <= status_code resp < 600
  | Raise e => isinstance_any e fallback_classes = false
  end.

(** ** More notions for the login *)

(** The events of a round of polling that goes on. *)
Definition pending_round (key : PyVal) (interval : Z) (line : string)
  : list Event :=
  [EvGet (poll_request key); EvPrint line; EvSleep interval].

(** The events of the last round of polling: the request for the status
    and, after it, no pause, and no request but that of the confirmation. *)
Definition last_round (key : PyVal) (l : list Event) : Prop :=
  exists tail,
    l = EvGet (poll_request key) :: tail
    /\ (forall z, ~ In (EvSleep z) tail)
    /\ (requests_of tail = []
        \/ exists u, requests_of tail = [confirm_request u]).


(** The entry of a credential. *)
Definition credential_entry (value expires : PyVal) : PyVal :=
  PDict [("value", value); ("expires", expires)].




(** ** The text of a time *)





(** A date and a time of the calendar, to the second. *)
Definition valid_datetime (t : DateTime) : Prop :=
  1 <= year t <= 9999
  /\ 1 <= month t <= 12
  /\ 1 <= day t <= days_in_month (year t) (month t)
  /\ 0 <= hour t <= 23
  /\ 0 <= minute t <= 59
  /\ 0 <= second t <= 59
  /\ microsecond t = 0.



(* ===================================================================== *)
(** * Properties of the resilient fetch *)
(* ===================================================================== *)

Lemma http_error_msg_error_status (resp : Response) :
  400 <= status_code resp < 600 ->
  String.eqb (http_error_msg resp) "" = false.
Proof.
  intros H. unfold http_error_msg.
  destruct ((400 <=? status_code resp) && (status_code resp <? 500)) eqn:E4.
  - destruct (str_int (status_code resp)); reflexivity.
  - destruct ((500 <=? status_code resp) && (status_code resp <? 600)) eqn:E5.
    + destruct (str_int (status_code resp)); reflexivity.
    + exfalso.
      apply andb_false_iff in E4. apply andb_false_iff in E5.
      destruct E4 as [E4 | E4], E5 as [E5 | E5];
        first [apply Z.leb_gt in E4 | apply Z.ltb_ge in E4];
        first [apply Z.leb_gt in E5 | apply Z.ltb_ge in E5]; lia.
Qed.

(** One tier: the request, then the status of the response. *)
Lemma attempt_run (w : World) (sess : Session) (url : PyVal)
  (kwargs : list (string * PyVal)) (s : State) :
  (resp <- get w sess url kwargs ;; raise_for_status resp ;;; ret resp) s
  = Some (attempt_outcome w (n_requests s) (mkRequest sess url kwargs),
          after_get s (mkRequest sess url kwargs)).
Proof.
  unfold bind, get, raise_for_status, attempt_outcome, after_get.
  destruct (net w (n_requests s) (mkRequest sess url kwargs)) as [r | e];
    [ | reflexivity].
  destruct (String.eqb (http_error_msg r) ""); reflexivity.
Qed.

(** [_safe_get] is the fetch told tier by tier. *)
Lemma safe_get_by_tiers (w : World) (url : PyVal)
  (kwargs : list (string * PyVal)) (s : State) :
  _safe_get w url kwargs s = Some (fetch_by_tiers w url kwargs s).
Proof.
  unfold _safe_get, fetch_by_tiers, try_except.
  rewrite attempt_run. fold (tier1_request url kwargs).
  destruct (attempt_outcome w (n_requests s) (tier1_request url kwargs))
    as [r1 | e1]; [reflexivity | ].
  destruct (isinstance_any e1 fallback_classes); [ | reflexivity].
  rewrite attempt_run. fold (tier2_request url kwargs).
  cbn [n_requests after_get].
  destruct (attempt_outcome w (S (n_requests s)) (tier2_request url kwargs))
    as [r2 | e2]; [reflexivity | ].
  destruct (isinstance_any e2 fallback_classes); [ | reflexivity].
  rewrite attempt_run. fold (tier3_request url kwargs).
  cbn [n_requests after_get].
  destruct (attempt_outcome w (S (S (n_requests s))) (tier3_request url kwargs))
    as [r3 | e3]; [reflexivity | ].
  unfold isinstance_any. cbn [existsb]. rewrite orb_false_r.
  destruct (isinstance e3 Exception); reflexivity.
Qed.

Lemma append_assoc (a b c : string) : (a ++ b) ++ c = a ++ b ++ c.
Proof. induction a as [ | x a IH]; simpl; [reflexivity | now rewrite IH]. Qed.

(** The tier labels of the error that tells the three failures. *)
Lemma all_failed_msg_labels (e1 e2 e3 : exn) :
  Contains ("1) 普通 session.get → " ++ exc_str e1) (all_failed_msg e1 e2 e3)
  /\ Contains ("2) session.get verify=False → " ++ exc_str e2)
       (all_failed_msg e1 e2 e3)
  /\ Contains ("3) plain requests.get → " ++ exc_str e3)
       (all_failed_msg e1 e2 e3).
Proof.
  unfold all_failed_msg. repeat split.
  - exists ("三次尝试均失败:" ++ LF),
      (LF ++ "2) session.get verify=False → " ++ exc_str e2 ++ LF
       ++ "3) plain requests.get → " ++ exc_str e3).
    now rewrite !append_assoc.
  - exists ("三次尝试均失败:" ++ LF ++ "1) 普通 session.get → " ++ exc_str e1
            ++ LF),
      (LF ++ "3) plain requests.get → " ++ exc_str e3).
    now rewrite !append_assoc.
  - exists ("三次尝试均失败:" ++ LF ++ "1) 普通 session.get → " ++ exc_str e1
            ++ LF ++ "2) session.get verify=False → " ++ exc_str e2 ++ LF),
      EmptyString.
    rewrite !append_assoc.
    repeat (f_equal; try reflexivity).
    induction (exc_str e3) as [ | c r IH]; simpl; [reflexivity | now rewrite <- IH].
Qed.

(** C1 (as the code has it).  A response with an error status at tier 1
    makes [raise_for_status] raise an [HTTPError], which is a
    [RequestException]: like a TLS error, an exhausted retry or any other
    network error it makes the fetch go on to tier 2.  Only an exception
    that is none of [SSLError], [MaxRetryError], [RequestException] leaves
    the fetch at once, after the single request of tier 1. *)
Theorem safe_get_tier1_errors (w : World) (url : PyVal)
  (kwargs : list (string * PyVal)) (s : State) :
  let t1 := tier1_request url kwargs in
  let t2 := tier2_request url kwargs in
  let goes_on :=
    exists r s' more,
      _safe_get w url kwargs s = Some (r, s')
      /\ trace s' = (trace s ++ EvGet t1 :: EvGet t2 :: more)%list in
  (forall resp,
      net w (n_requests s) t1 = Reply resp ->
      400 <= status_code resp < 600 ->
      goes_on)
  /\ (forall e,
         net w (n_requests s) t1 = Fails e ->
         isinstance_any e fallback_classes = true ->
         goes_on)
  /\ (forall e,
         net w (n_requests s) t1 = Fails e ->
         isinstance_any e fallback_classes = false ->
         _safe_get w url kwargs s = Some (Raise e, after_get s t1)).
Proof.
  intros t1 t2 goes_on.
  assert (G : forall e1,
             attempt_outcome w (n_requests s) t1 = Raise e1 ->
             isinstance_any e1 fallback_classes = true -> goes_on).
  { intros e1 O1 F1. unfold goes_on.
    rewrite safe_get_by_tiers. unfold fetch_by_tiers.
    fold t1. fold t2. rewrite O1, F1.
    destruct (attempt_outcome w (S (n_requests s)) t2) as [r2 | e2].
    - eexists _, _, []. split; [reflexivity | ].
      cbn [trace after_get]. now rewrite <- app_assoc.
    - destruct (isinstance_any e2 fallback_classes).
      + destruct (attempt_outcome w (S (S (n_requests s)))
                    (tier3_request url kwargs)) as [r3 | e3];
          [ | destruct (isinstance e3 Exception)];
          (eexists _, _, [_]; split; [reflexivity | ];
           cbn [trace after_get]; now rewrite <- !app_assoc).
      + eexists _, _, []. split; [reflexivity | ].
        cbn [trace after_get]. now rewrite <- app_assoc. }
  repeat split.
  - intros resp N St.
    apply (G (mkExn HTTPError (http_error_msg resp))).
    + unfold attempt_outcome. rewrite N.
      now rewrite (http_error_msg_error_status resp St).
    + reflexivity.
  - intros e N F. apply (G e); [ | exact F].
    unfold attempt_outcome. now rewrite N.
  - intros e N F.
    rewrite safe_get_by_tiers. unfold fetch_by_tiers. fold t1.
    unfold attempt_outcome. now rewrite N, F.
Qed.

(** C1 (as stated, refuted).  Tier 1 gets a response, [404 Not
    Found]; the fetch does not raise: it makes the request of tier 2 and
    returns its response. *)
Lemma safe_get_http_error_reaches_tier2 :
  net (world_of net_404_then_200) 0
    (tier1_request page_url_example [("timeout", PInt 10)])
  = Reply not_found
  /\ status_code not_found = 404
  /\ _safe_get (world_of net_404_then_200) page_url_example
       [("timeout", PInt 10)] initial
     = Some (Ok ok_page,
             {| trace :=
                  [EvGet (tier1_request page_url_example
                            [("timeout", PInt 10)]);
                   EvGet (tier2_request page_url_example
                            [("timeout", PInt 10)])];
                n_requests := 2;
                n_clock := 0 |}).
Proof. repeat split. Qed.

(** The first part of [safe_get_tier1_errors] in the world where the first
    request is answered [404 Not Found]. *)
Lemma safe_get_tier1_errors_witness :
  exists r s' more,
    _safe_get (world_of net_404_then_200) page_url_example
      [("timeout", PInt 10)] initial = Some (r, s')
    /\ trace s'
       = (trace initial
          ++ EvGet (tier1_request page_url_example [("timeout", PInt 10)])
          :: EvGet (tier2_request page_url_example [("timeout", PInt 10)])
          :: more)%list.
Proof.
  apply (proj1 (safe_get_tier1_errors (world_of net_404_then_200)
                  page_url_example [("timeout", PInt 10)] initial)
           not_found).
  - reflexivity.
  - simpl. lia.
Defined.

(** C2.  The resilient fetch tries three tiers in order: the shared client
    [session], which carries the retry policy and checks certificates; the
    same client without the check; a new client with the headers of
    [session], no retry policy and no check.  The first tier that succeeds
    gives the result and no later tier is tried.  When the three tiers
    fail, the fetch raises one [RuntimeError] whose message holds the three
    failures, each behind the label of its tier. *)
Theorem safe_get_three_tiers (w : World) (url : PyVal)
  (kwargs : list (string * PyVal)) (s : State) :
  let t1 := tier1_request url kwargs in
  let t2 := tier2_request url kwargs in
  let t3 := tier3_request url kwargs in
  let o1 := attempt_outcome w (n_requests s) t1 in
  let o2 := attempt_outcome w (S (n_requests s)) t2 in
  let o3 := attempt_outcome w (S (S (n_requests s))) t3 in
  (* the three tiers *)
  (rq_session t1 = session /\ sess_retry session = Some retry
   /\ (dict_lookup "verify" kwargs = None -> rq_verify t1 = PBool true))
  /\ (rq_session t2 = session /\ rq_verify t2 = PBool false)
  /\ (sess_global (rq_session t3) = false
      /\ sess_headers (rq_session t3) = sess_headers session
      /\ sess_retry (rq_session t3) = None
      /\ rq_verify t3 = PBool false)
  /\ exists r s' made,
       _safe_get w url kwargs s = Some (r, s')
       /\ trace s' = (trace s ++ map EvGet made)%list
       (* in order *)
       /\ (made = [t1] \/ made = [t1; t2] \/ made = [t1; t2; t3])
       (* the first success wins *)
       /\ (forall resp, o1 = Ok resp -> r = Ok resp /\ made = [t1])
       /\ (forall e1 resp,
              o1 = Raise e1 -> isinstance_any e1 fallback_classes = true ->
              o2 = Ok resp ->
              r = Ok resp /\ made = [t1; t2])
       /\ (forall e1 e2 resp,
              o1 = Raise e1 -> isinstance_any e1 fallback_classes = true ->
              o2 = Raise e2 -> isinstance_any e2 fallback_classes = true ->
              o3 = Ok resp ->
              r = Ok resp /\ made = [t1; t2; t3])
       (* the three tiers fail *)
       /\ (forall e1 e2 e3,
              o1 = Raise e1 -> isinstance_any e1 fallback_classes = true ->
              o2 = Raise e2 -> isinstance_any e2 fallback_classes = true ->
              o3 = Raise e3 -> isinstance e3 Exception = true ->
              r = Raise (mkExn RuntimeError (all_failed_msg e1 e2 e3))
              /\ made = [t1; t2; t3]
              /\ Contains ("1) 普通 session.get → " ++ exc_str e1)
                   (all_failed_msg e1 e2 e3)
              /\ Contains ("2) session.get verify=False → " ++ exc_str e2)
                   (all_failed_msg e1 e2 e3)
              /\ Contains ("3) plain requests.get → " ++ exc_str e3)
                   (all_failed_msg e1 e2 e3)).
Proof.
  intros t1 t2 t3 o1 o2 o3.
  split; [ | split; [ | split]].
  - repeat split. intros V. unfold rq_verify, t1. cbn. now rewrite V.
  - split; reflexivity.
  - repeat split.
  - rewrite safe_get_by_tiers. unfold fetch_by_tiers.
    fold t1 t2 t3 o1 o2 o3.
    destruct o1 as [r1 | e1] eqn:E1.
    { exists (Ok r1), (after_get s t1), [t1].
      repeat split; try congruence; auto. }
    destruct (isinstance_any e1 fallback_classes) eqn:F1.
    2:{ exists (Raise e1), (after_get s t1), [t1].
        repeat split; try congruence; auto;
          intros; exfalso; congruence. }
    destruct o2 as [r2 | e2] eqn:E2.
    { exists (Ok r2), (after_get (after_get s t1) t2), [t1; t2].
      repeat split; try congruence; auto.
      cbn [trace after_get map]. now rewrite <- app_assoc. }
    destruct (isinstance_any e2 fallback_classes) eqn:F2.
    2:{ exists (Raise e2), (after_get (after_get s t1) t2), [t1; t2].
        repeat split; try congruence; auto;
          try (intros; exfalso; congruence).
        cbn [trace after_get map]. now rewrite <- app_assoc. }
    assert (T : trace (after_get (after_get (after_get s t1) t2) t3)
                = (trace s ++ map EvGet [t1; t2; t3])%list).
    { cbn [trace after_get map]. now rewrite <- !app_assoc. }
    destruct o3 as [r3 | e3] eqn:E3.
    { exists (Ok r3), (after_get (after_get (after_get s t1) t2) t3),
        [t1; t2; t3].
      repeat split; try congruence; auto. }
    destruct (isinstance e3 Exception) eqn:X3.
    + exists (Raise (mkExn RuntimeError (all_failed_msg e1 e2 e3))),
        (after_get (after_get (after_get s t1) t2) t3), [t1; t2; t3].
      split; [reflexivity | ]. split; [exact T | ].
      split; [auto | ].
      split; [intros; congruence | ].
      split; [intros; congruence | ].
      split; [intros; congruence | ].
      intros a1 a2 a3 A1 _ A2 _ A3 _.
      injection A1 as <-. injection A2 as <-. injection A3 as <-.
      split; [reflexivity | ]. split; [reflexivity | ].
      apply all_failed_msg_labels.
    + exists (Raise e3), (after_get (after_get (after_get s t1) t2) t3),
        [t1; t2; t3].
      repeat split; try congruence; auto;
        intros; exfalso; congruence.
Qed.

(** [safe_get_three_tiers] where no request gets a response: the message of
    the error holds the three failures. *)
Lemma safe_get_three_tiers_witness :
  exists r s' made,
    _safe_get (world_of net_down) page_url_example [("timeout", PInt 10)]
      initial = Some (r, s')
    /\ r = Raise (mkExn RuntimeError
                    (all_failed_msg tls_error refused refused))
    /\ made = [tier1_request page_url_example [("timeout", PInt 10)];
               tier2_request page_url_example [("timeout", PInt 10)];
               tier3_request page_url_example [("timeout", PInt 10)]]
    /\ trace s' = map EvGet made
    /\ Contains ("1) 普通 session.get → certificate verify failed")
         (all_failed_msg tls_error refused refused)
    /\ Contains ("2) session.get verify=False → connection refused")
         (all_failed_msg tls_error refused refused)
    /\ Contains ("3) plain requests.get → connection refused")
         (all_failed_msg tls_error refused refused).
Proof.
  destruct (safe_get_three_tiers (world_of net_down) page_url_example
              [("timeout", PInt 10)] initial)
    as (_ & _ & _ & r & s' & made & Run & Tr & _ & _ & _ & _ & Fail).
  destruct (Fail tls_error refused refused)
    as (R & Made & L1 & L2 & L3); try reflexivity.
  exists r, s', made. repeat split; assumption.
Defined.

(* ===================================================================== *)
(** * Properties of the resolution *)
(* ===================================================================== *)

Lemma bind_ok {A B : Type} (m : M A) (k : A -> M B) (s s' : State) (a : A) :
  m s = Some (Ok a, s') -> bind m k s = k a s'.
Proof. intros H. unfold bind. now rewrite H. Qed.

Lemma bind_raise {A B : Type} (m : M A) (k : A -> M B) (s s' : State)
  (e : exn) :
  m s = Some (Raise e, s') -> bind m k s = Some (Raise e, s').
Proof. intros H. unfold bind. now rewrite H. Qed.

Lemma try_except_ok {A : Type} (body : M A) (cs : list ExcClass)
  (h : exn -> M A) (s s' : State) (a : A) :
  body s = Some (Ok a, s') -> try_except body cs h s = Some (Ok a, s').
Proof. intros H. unfold try_except. now rewrite H. Qed.

(** The requests of a fetch are requests for its address. *)
Lemma safe_get_trace (w : World) (url : PyVal)
  (kwargs : list (string * PyVal)) (s s' : State) (r : result Response) :
  _safe_get w url kwargs s = Some (r, s') ->
  exists made,
    trace s' = (trace s ++ map EvGet made)%list
    /\ made <> []
    /\ Forall (fun rq => rq_url rq = url) made.
Proof.
  rewrite safe_get_by_tiers. unfold fetch_by_tiers. intros H.
  assert (T1 : Forall (fun rq => rq_url rq = url) [tier1_request url kwargs])
    by (repeat constructor).
  assert (T2 : Forall (fun rq => rq_url rq = url)
                 [tier1_request url kwargs; tier2_request url kwargs])
    by (repeat constructor).
  assert (T3 : Forall (fun rq => rq_url rq = url)
                 [tier1_request url kwargs; tier2_request url kwargs;
                  tier3_request url kwargs])
    by (repeat constructor).
  repeat match type of H with
         | context [match ?x with _ => _ end] => destruct x
         end;
    injection H as <- <-;
    [ exists [tier1_request url kwargs]
    | exists [tier1_request url kwargs; tier2_request url kwargs]
    | exists [tier1_request url kwargs; tier2_request url kwargs;
              tier3_request url kwargs]
    | exists [tier1_request url kwargs; tier2_request url kwargs;
              tier3_request url kwargs]
    | exists [tier1_request url kwargs; tier2_request url kwargs;
              tier3_request url kwargs]
    | exists [tier1_request url kwargs; tier2_request url kwargs]
    | exists [tier1_request url kwargs] ];
    (split; [cbn [trace after_get map]; now rewrite <- ?app_assoc | ]);
    (split; [discriminate | assumption]).
Qed.

Lemma search_playinfo_needs_marker (html : string) :
  contains "window.__playinfo__" html = false ->
  search_playinfo html = None.
Proof.
  induction html as [ | c r IH]; intros H.
  - reflexivity.
  - cbn [contains] in H. apply orb_false_iff in H as [H1 H2].
    cbn [search_playinfo]. unfold match_playinfo.
    unfold startswith in H1.
    destruct (strip_prefix "window.__playinfo__" (String c r));
      [discriminate | ].
    now apply IH.
Qed.

(** C9.  When the page is fetched and its body has no match of the pattern
    of the embedded manifest, the resolution raises the [RuntimeError] that
    says so in the state the fetch of the page left: it makes no other
    request, the requests it made are all for the address of the page, and
    none is for the address of the metadata. *)
Theorem get_bv_info_without_manifest (w : World) (bvid : string)
  (sessdata bili_jct dede_user_id : PyVal) (s s1 : State) (resp : Response) :
  _safe_get w (page_url bvid) [("timeout", PInt 10)]
    (log (EvCookies (credential_cookies sessdata bili_jct dede_user_id)) s)
  = Some (Ok resp, s1) ->
  search_playinfo (text resp) = None ->
  get_bv_info w bvid sessdata bili_jct dede_user_id s
  = Some (Raise (mkExn RuntimeError no_playinfo_msg), s1)
  /\ exists made,
       trace s1
       = (trace s
          ++ EvCookies (credential_cookies sessdata bili_jct dede_user_id)
          :: map EvGet made)%list
       /\ Forall (fun rq => rq_url rq = page_url bvid) made
       /\ Forall (fun rq => rq_url rq <> info_api bvid) made.
Proof.
  intros Page NoMatch. split.
  - unfold get_bv_info.
    erewrite bind_ok by reflexivity.
    erewrite bind_ok
      by (apply try_except_ok; erewrite bind_ok by exact Page; reflexivity).
    now rewrite NoMatch.
  - destruct (safe_get_trace _ _ _ _ _ _ Page) as (made & T & _ & U).
    exists made. split; [ | split].
    + rewrite T. cbn [trace log]. now rewrite <- app_assoc.
    + exact U.
    + eapply Forall_impl; [ | exact U].
      intros rq E. rewrite E. unfold page_url, info_api.
      intros X. injection X as X.
      discriminate X.
Qed.

(** [get_bv_info_without_manifest] on a page that has no manifest. *)
Lemma get_bv_info_without_manifest_witness :
  get_bv_info (world_of net_plain) "BV1xx411c7mD" (PStr "s") (PStr "j")
    (PStr "u") initial
  = Some (Raise (mkExn RuntimeError no_playinfo_msg),
          after_get
            (log (EvCookies
                    (credential_cookies (PStr "s") (PStr "j") (PStr "u")))
               initial)
            (tier1_request (page_url "BV1xx411c7mD") [("timeout", PInt 10)])).
Proof.
  apply (get_bv_info_without_manifest (world_of net_plain) "BV1xx411c7mD"
           (PStr "s") (PStr "j") (PStr "u") initial _ plain_page).
  - reflexivity.
  - reflexivity.
Defined.

(** C8.  When the body of the page holds a manifest that parses, whose dash
    section lists the video representations [video0 :: videos] and the
    audio representations [audio0 :: audios], and the metadata are fetched,
    the resolution returns the base address of [video0], the base address
    of [audio0] and the accepted qualities as the manifest lists them:
    always the first of each list, whatever the qualities are.  With one
    video of base address [V1], one audio of base address [A1] and the
    qualities [120, 80, 64] it returns [V1], [A1] and [120, 80, 64]. *)
Theorem get_bv_info_first_streams (w : World) (bvid : string)
  (sessdata bili_jct dede_user_id : PyVal) (s s1 s2 : State)
  (resp info_resp : Response) (group1 : string) (playinfo js : PyVal)
  (video0 audio0 : list (string * PyVal)) (videos audios : list PyVal)
  (qualities v_url a_url the_title : PyVal) :
  _safe_get w (page_url bvid) [("timeout", PInt 10)]
    (log (EvCookies (credential_cookies sessdata bili_jct dede_user_id)) s)
  = Some (Ok resp, s1) ->
  search_playinfo (text resp) = Some group1 ->
  json_loads group1 = Some playinfo ->
  manifest_lists playinfo (PDict video0 :: videos) (PDict audio0 :: audios)
    qualities ->
  dict_lookup "baseUrl" video0 = Some v_url ->
  dict_lookup "baseUrl" audio0 = Some a_url ->
  _safe_get w (info_api bvid) [("timeout", PInt 5)] s1
  = Some (Ok info_resp, s2) ->
  json_loads (text info_resp) = Some js ->
  title_of js = Ok the_title ->
  exists info,
    get_bv_info w bvid sessdata bili_jct dede_user_id s = Some (Ok info, s2)
    /\ video_url info = v_url
    /\ audio_url info = a_url
    /\ accept_quality info = qualities
    /\ title info = the_title.
Proof.
  intros Page Found Parsed (top & data & dash & -> & D & Da & V & A & Q)
    BV BA Info ParsedInfo Title.
  unfold get_bv_info.
  erewrite bind_ok by reflexivity.
  erewrite bind_ok
    by (apply try_except_ok; erewrite bind_ok by exact Page; reflexivity).
  rewrite Found.
  unfold json_loads_M. rewrite Parsed.
  erewrite bind_ok by reflexivity.
  unfold lift, bind, py_get, getitem0. rewrite D, Da, V, A, Q, BV, BA.
  unfold try_except. unfold info_api in Info. rewrite Info.
  unfold resp_json. rewrite ParsedInfo.
  unfold title_of, rbind, py_get in Title.
  unfold ret.
  destruct js as [ | | | | | | | d]; try discriminate Title.
  destruct (dict_lookup "data" d) as [x | ];
    rewrite Title; (eexists; split; [reflexivity | repeat split]).
Qed.

(** [get_bv_info_first_streams] on a page with one video [V1],
    one audio [A1], the qualities [120, 80, 64]. *)
Lemma get_bv_info_first_streams_witness :
  exists info s2,
    get_bv_info (world_of net_resolves) "BV1xx411c7mD" (PStr "s") (PStr "j")
      (PStr "u") initial = Some (Ok info, s2)
    /\ video_url info = PStr "V1"
    /\ audio_url info = PStr "A1"
    /\ accept_quality info = PList [PInt 120; PInt 80; PInt 64]
    /\ title info = PStr "T".
Proof.
  destruct (get_bv_info_first_streams (world_of net_resolves) "BV1xx411c7mD"
              (PStr "s") (PStr "j") (PStr "u") initial
              (after_get
                 (log (EvCookies
                         (credential_cookies (PStr "s") (PStr "j") (PStr "u")))
                    initial)
                 (tier1_request (page_url "BV1xx411c7mD")
                    [("timeout", PInt 10)]))
              (after_get
                 (after_get
                    (log (EvCookies
                            (credential_cookies (PStr "s") (PStr "j")
                               (PStr "u")))
                       initial)
                    (tier1_request (page_url "BV1xx411c7mD")
                       [("timeout", PInt 10)]))
                 (tier1_request (info_api "BV1xx411c7mD")
                    [("timeout", PInt 5)]))
              manifest_page view_reply
              (dq ("{'code':0,'data':{'accept_quality':[120,80,64],"
                   ++ "'dash':{'video':[{'id':80,'baseUrl':'V1'}],"
                   ++ "'audio':[{'id':30280,'baseUrl':'A1'}]}}}"))
              (PDict
                 [("code", PInt 0);
                  ("data",
                   PDict
                     [("accept_quality", PList [PInt 120; PInt 80; PInt 64]);
                      ("dash",
                       PDict
                         [("video",
                           PList [PDict [("id", PInt 80);
                                         ("baseUrl", PStr "V1")]]);
                          ("audio",
                           PList [PDict [("id", PInt 30280);
                                         ("baseUrl", PStr "A1")]])])])])
              (PDict [("code", PInt 0);
                      ("data", PDict [("aid", PInt 1); ("cid", PInt 2);
                                      ("title", PStr "T")])])
              [("id", PInt 80); ("baseUrl", PStr "V1")]
              [("id", PInt 30280); ("baseUrl", PStr "A1")]
              [] []
              (PList [PInt 120; PInt 80; PInt 64])
              (PStr "V1") (PStr "A1") (PStr "T"))
    as (info & Run & V & A & Q & T).
  - reflexivity.
  - vm_compute. reflexivity.
  - vm_compute. reflexivity.
  - eexists _, _, _. repeat split.
  - reflexivity.
  - reflexivity.
  - reflexivity.
  - vm_compute. reflexivity.
  - reflexivity.
  - exists info. eexists. repeat split; eassumption.
Defined.

(* ===================================================================== *)
(** * Properties of the QR login *)
(* ===================================================================== *)

(** Two states written differently are the same state. *)
Ltac same_state :=
  unfold log, after_get, after_pending;
  cbn [trace n_requests n_clock];
  rewrite <- ?app_assoc; cbn [app];
  reflexivity.

Lemma while_true_next {A : Type} (fuel : nat) (body : M (option A))
  (s s' : State) :
  body s = Some (Ok None, s') ->
  while_true (S fuel) body s = while_true fuel body s'.
Proof. intros H. cbn [while_true]. now rewrite H. Qed.

Lemma while_true_return {A : Type} (fuel : nat) (body : M (option A))
  (s s' : State) (a : A) :
  body s = Some (Ok (Some a), s') ->
  while_true (S fuel) body s = Some (Ok a, s').
Proof. intros H. cbn [while_true]. now rewrite H. Qed.

Lemma while_true_raise {A : Type} (fuel : nat) (body : M (option A))
  (s s' : State) (e : exn) :
  body s = Some (Raise e, s') ->
  while_true (S fuel) body s = Some (Raise e, s').
Proof. intros H. cbn [while_true]. now rewrite H. Qed.

(** A round of [poll_login] up to the test of the status. *)
Lemma poll_round_head (w : World) (key : PyVal) (interval timeout start : Z)
  (s : State) (status : PyVal) (d : list (string * PyVal)) :
  poll_reply (net w (n_requests s) (poll_request key)) status d ->
  exists js,
    poll_round w key interval timeout start s
    = (let elapsed := Z.quot (clock w (n_clock s) - start) 1000 in
       let s1 := {| trace := (trace s ++ [EvGet (poll_request key)])%list;
                    n_requests := S (n_requests s);
                    n_clock := S (n_clock s) |} in
       if py_eq_int status 86101 then
         poll_wait elapsed "未扫码" interval timeout s1
       else if py_eq_int status 86090 then
         poll_wait elapsed "已扫码，待确认" interval timeout s1
       else if py_eq_int status 86038 then
         Some (Ok (Some false), log (EvPrint (expired_line elapsed)) s1)
       else if py_eq_int status 0 then
         (login_url <- lift (getitem (PDict d) "url") ;;
          _ <- get w session login_url [("timeout", PInt 5)] ;;
          print (LF ++ "✅ 登录成功！[" ++ str_int elapsed ++ "s]" ++ LF) ;;;
          ret (Some true)) s1
       else
         Some (Raise (mkExn RuntimeError
                        ("未知扫码状态: " ++ py_str (PDict js))), s1)).
Proof.
  intros (resp & js & c & N & H & J & C & C0 & D & St).
  exists js.
  unfold poll_round, bind at 1, get.
  unfold poll_request in N. rewrite N.
  unfold bind at 1, raise_for_status. rewrite H. cbn [String.eqb].
  unfold ret at 1.
  unfold bind at 1, resp_json. rewrite J. unfold ret at 1.
  unfold bind at 1, lift at 1, getitem at 1. rewrite C. rewrite C0. cbn [negb].
  unfold bind at 1, lift at 1, getitem at 1. rewrite D.
  unfold bind at 1, lift at 1, getitem at 1. rewrite St.
  unfold bind at 1, time_time. cbn [n_clock trace n_requests].
  cbv zeta.
  destruct (py_eq_int status 86101); [reflexivity | ].
  destruct (py_eq_int status 86090); [reflexivity | ].
  destruct (py_eq_int status 86038); [reflexivity | ].
  destruct (py_eq_int status 0); reflexivity.
Qed.

Lemma pending_msg_cases (z : Z) (msg : string) :
  pending_msg z = Some msg ->
  (z = 86101 /\ msg = "未扫码") \/ (z = 86090 /\ msg = "已扫码，待确认").
Proof.
  unfold pending_msg.
  destruct (Z.eqb_spec z 86101); [intros [= <-]; now left | ].
  destruct (Z.eqb_spec z 86090); [intros [= <-]; now right | discriminate].
Qed.

(** Not scanned, or scanned and not confirmed, before the time is out: the
    round prints its line, sleeps, and the loop goes on. *)
Lemma poll_round_pending (w : World) (key : PyVal) (interval timeout start : Z)
  (s : State) (z : Z) (msg : string) (d : list (string * PyVal)) :
  poll_reply (net w (n_requests s) (poll_request key)) (PInt z) d ->
  pending_msg z = Some msg ->
  Z.quot (clock w (n_clock s) - start) 1000 < timeout ->
  0 <= interval ->
  poll_round w key interval timeout start s
  = Some (Ok None, after_pending w key interval start msg s).
Proof.
  intros R P E I.
  destruct (poll_round_head w key interval timeout start s _ _ R) as (js & ->).
  cbv zeta. unfold poll_wait, after_pending, progress_line.
  apply Z.leb_gt in E.
  assert (I' : (interval <? 0) = false) by now apply Z.ltb_ge.
  destruct (pending_msg_cases z msg P) as [[-> ->] | [-> ->]];
    cbn [py_eq_int Z.eqb Pos.eqb];
    unfold bind, print_noeol, emit, sleep; cbn [log trace n_requests n_clock];
    rewrite E, I'; unfold emit, ret; same_state.
Qed.

(** Not scanned, or scanned and not confirmed, when the time is out. *)
Lemma poll_round_timeout (w : World) (key : PyVal) (interval timeout start : Z)
  (s : State) (z : Z) (msg : string) (d : list (string * PyVal)) :
  poll_reply (net w (n_requests s) (poll_request key)) (PInt z) d ->
  pending_msg z = Some msg ->
  timeout <= Z.quot (clock w (n_clock s) - start) 1000 ->
  poll_round w key interval timeout start s
  = Some (Raise (mkExn TimeoutError "扫码登录超时"),
          {| trace :=
               (trace s
                ++ [EvGet (poll_request key);
                    EvPrint (progress_line
                               (Z.quot (clock w (n_clock s) - start) 1000)
                               msg)])%list;
             n_requests := S (n_requests s);
             n_clock := S (n_clock s) |}).
Proof.
  intros R P E.
  destruct (poll_round_head w key interval timeout start s _ _ R) as (js & ->).
  cbv zeta. unfold poll_wait, progress_line.
  apply Z.leb_le in E.
  destruct (pending_msg_cases z msg P) as [[-> ->] | [-> ->]];
    cbn [py_eq_int Z.eqb Pos.eqb];
    unfold bind, print_noeol, emit; cbn [log trace n_requests n_clock];
    rewrite E; unfold raise; same_state.
Qed.

(** The QR code expired: the round returns [False]. *)
Lemma poll_round_expired (w : World) (key : PyVal) (interval timeout start : Z)
  (s : State) (d : list (string * PyVal)) :
  poll_reply (net w (n_requests s) (poll_request key)) (PInt 86038) d ->
  poll_round w key interval timeout start s
  = Some (Ok (Some false),
          {| trace :=
               (trace s
                ++ [EvGet (poll_request key);
                    EvPrint (expired_line
                               (Z.quot (clock w (n_clock s) - start) 1000))])
               %list;
             n_requests := S (n_requests s);
             n_clock := S (n_clock s) |}).
Proof.
  intros R.
  destruct (poll_round_head w key interval timeout start s _ _ R) as (js & ->).
  cbv zeta. cbn [py_eq_int Z.eqb Pos.eqb]. same_state.
Qed.

(** Confirmed: the round follows the address of the confirmation and
    returns [True]. *)
Lemma poll_round_confirmed (w : World) (key : PyVal)
  (interval timeout start : Z) (s : State) (d : list (string * PyVal))
  (login_url : PyVal) (confirm : Response) :
  poll_reply (net w (n_requests s) (poll_request key)) (PInt 0) d ->
  dict_lookup "url" d = Some login_url ->
  net w (S (n_requests s)) (confirm_request login_url) = Reply confirm ->
  poll_round w key interval timeout start s
  = Some (Ok (Some true),
          {| trace :=
               (trace s
                ++ [EvGet (poll_request key);
                    EvGet (confirm_request login_url);
                    EvPrint (success_line
                               (Z.quot (clock w (n_clock s) - start) 1000))])
               %list;
             n_requests := S (S (n_requests s));
             n_clock := S (n_clock s) |}).
Proof.
  intros R U C.
  destruct (poll_round_head w key interval timeout start s _ _ R) as (js & ->).
  cbv zeta. cbn [py_eq_int Z.eqb Pos.eqb].
  unfold bind at 1, lift, getitem. rewrite U.
  unfold bind at 1, get. cbn [n_requests trace n_clock].
  unfold confirm_request in C. rewrite C.
  unfold bind, print, emit, ret, success_line. same_state.
Qed.

(** Any other status: the round raises a [RuntimeError]. *)
Lemma poll_round_unknown (w : World) (key : PyVal) (interval timeout start : Z)
  (s : State) (status : PyVal) (d : list (string * PyVal)) :
  poll_reply (net w (n_requests s) (poll_request key)) status d ->
  py_eq_int status 86101 = false ->
  py_eq_int status 86090 = false ->
  py_eq_int status 86038 = false ->
  py_eq_int status 0 = false ->
  exists text,
    poll_round w key interval timeout start s
    = Some (Raise (mkExn RuntimeError ("未知扫码状态: " ++ text)),
            {| trace := (trace s ++ [EvGet (poll_request key)])%list;
               n_requests := S (n_requests s);
               n_clock := S (n_clock s) |}).
Proof.
  intros R A B C D.
  destruct (poll_round_head w key interval timeout start s _ _ R) as (js & ->).
  cbv zeta. rewrite A, B, C, D. now eexists.
Qed.

Lemma length_append (a b : string) :
  String.length (a ++ b) = (String.length a + String.length b)%nat.
Proof. induction a as [ | c a IH]; simpl; [reflexivity | now rewrite IH]. Qed.

Lemma substring_skip (a t : string) (m k : nat) :
  substring (String.length a + m) k (a ++ t) = substring m k t.
Proof. induction a as [ | c a IH]; simpl; [reflexivity | exact IH]. Qed.

(** Whether [a ++ t] ends with [u], no longer than [t], is for [t] to say. *)
Lemma endswith_append (a t u : string) :
  (String.length u <= String.length t)%nat ->
  endswith (a ++ t) u = endswith t u.
Proof.
  intros L. unfold endswith. rewrite length_append.
  replace (String.length a + String.length t - String.length u)%nat
    with (String.length a + (String.length t - String.length u))%nat by lia.
  rewrite substring_skip.
  replace (String.length u <=? String.length a + String.length t)%nat
    with true by (symmetry; apply Nat.leb_le; lia).
  replace (String.length u <=? String.length t)%nat
    with true by (symmetry; apply Nat.leb_le; lia).
  reflexivity.
Qed.

Lemma progress_line_split (elapsed : Z) (msg : string) :
  progress_line elapsed msg
  = (CR ++ "[" ++ rjust 3 (str_int elapsed) ++ "s] ") ++ msg.
Proof. unfold progress_line. now rewrite !append_assoc. Qed.

Lemma shown_state_awaiting (elapsed : Z) :
  shown_state (EvPrint (progress_line elapsed "未扫码")) = Some AWAITING_SCAN.
Proof.
  unfold shown_state.
  replace (startswith (progress_line elapsed "未扫码") (LF ++ "⚠️ [ "))
    with false by reflexivity.
  replace (startswith (progress_line elapsed "未扫码") (LF ++ "✅ 登录成功！["))
    with false by reflexivity.
  rewrite progress_line_split, endswith_append by (simpl; lia).
  reflexivity.
Qed.

Lemma shown_state_scanned (elapsed : Z) :
  shown_state (EvPrint (progress_line elapsed "已扫码，待确认"))
  = Some SCANNED_PENDING_CONFIRM.
Proof.
  unfold shown_state.
  replace (startswith (progress_line elapsed "已扫码，待确认")
             (LF ++ "⚠️ [ "))
    with false by reflexivity.
  replace (startswith (progress_line elapsed "已扫码，待确认")
             (LF ++ "✅ 登录成功！["))
    with false by reflexivity.
  rewrite progress_line_split, !endswith_append by (simpl; lia).
  reflexivity.
Qed.

Lemma shown_state_expired (elapsed : Z) :
  shown_state (EvPrint (expired_line elapsed)) = Some EXPIRED.
Proof. reflexivity. Qed.

Lemma shown_state_confirmed (elapsed : Z) :
  shown_state (EvPrint (success_line elapsed)) = Some CONFIRMED.
Proof. reflexivity. Qed.

Lemma shown_states_app (a b : list Event) :
  shown_states (a ++ b) = (shown_states a ++ shown_states b)%list.
Proof. unfold shown_states. apply flat_map_app. Qed.

(** C5.  When the polling endpoint answers 86101, 86101, 86090 and 0, in
    this order, and the address of the confirmation answers, [poll_login]
    shows the states [AWAITING_SCAN], [AWAITING_SCAN],
    [SCANNED_PENDING_CONFIRM], [CONFIRMED], follows the address of the
    confirmation after the status 0 and returns [True].  A status that is
    none of 86101, 86090, 86038 and 0 makes the round that gets it, and so
    [poll_login], raise a [RuntimeError], the error of the login protocol
    ([login] ends the program on it). *)
Theorem poll_login_scripted (w : World) (key : PyVal) (fuel : nat) (s : State) :
  (forall (d1 d2 d3 d4 : list (string * PyVal)) (login_url : PyVal)
          (confirm : Response),
      let n := n_requests s in
      let c := S (n_clock s) in
      (4 <= fuel)%nat ->
      poll_reply (net w n (poll_request key)) (PInt 86101) d1 ->
      poll_reply (net w (1 + n) (poll_request key)) (PInt 86101) d2 ->
      poll_reply (net w (2 + n) (poll_request key)) (PInt 86090) d3 ->
      poll_reply (net w (3 + n) (poll_request key)) (PInt 0) d4 ->
      dict_lookup "url" d4 = Some login_url ->
      net w (4 + n)%nat (confirm_request login_url) = Reply confirm ->
      elapsed_between w (n_clock s) c < 180 ->
      elapsed_between w (n_clock s) (1 + c) < 180 ->
      elapsed_between w (n_clock s) (2 + c) < 180 ->
      exists s',
        poll_login w fuel key 2 180 s = Some (Ok true, s')
        /\ trace s'
           = (trace s
              ++ [EvGet (poll_request key);
                  EvPrint (progress_line
                             (elapsed_between w (n_clock s) c) "未扫码");
                  EvSleep 2;
                  EvGet (poll_request key);
                  EvPrint (progress_line
                             (elapsed_between w (n_clock s) (1 + c)) "未扫码");
                  EvSleep 2;
                  EvGet (poll_request key);
                  EvPrint (progress_line
                             (elapsed_between w (n_clock s) (2 + c))
                             "已扫码，待确认");
                  EvSleep 2;
                  EvGet (poll_request key);
                  EvGet (confirm_request login_url);
                  EvPrint (success_line
                             (elapsed_between w (n_clock s) (3 + c)))])%list
        /\ shown_states (trace s')
           = (shown_states (trace s)
              ++ [AWAITING_SCAN; AWAITING_SCAN; SCANNED_PENDING_CONFIRM;
                  CONFIRMED])%list)
  /\ (forall (status : PyVal) (d : list (string * PyVal))
             (interval timeout start : Z),
         poll_reply (net w (n_requests s) (poll_request key)) status d ->
         py_eq_int status 86101 = false ->
         py_eq_int status 86090 = false ->
         py_eq_int status 86038 = false ->
         py_eq_int status 0 = false ->
         exists e s',
           poll_round w key interval timeout start s = Some (Raise e, s')
           /\ while_true (S fuel) (poll_round w key interval timeout start) s
              = Some (Raise e, s')
           /\ exc_class e = RuntimeError
           /\ requests_of (trace s')
              = (requests_of (trace s) ++ [poll_request key])%list).
Proof.
  split.
  - intros d1 d2 d3 d4 login_url confirm n c F R1 R2 R3 R4 U C E1 E2 E3.
    destruct fuel as [ | [ | [ | [ | f]]]]; try lia.
    unfold poll_login, bind at 1, time_time.
    unfold elapsed_between in *.
    set (start := clock w (n_clock s)) in *.
    set (s0 := {| trace := trace s; n_requests := n_requests s;
                  n_clock := S (n_clock s) |}).
    erewrite while_true_next
      by (apply (poll_round_pending w key 2 180 start s0 86101 "未扫码" d1);
          [exact R1 | reflexivity | exact E1 | lia]).
    erewrite while_true_next
      by (apply (poll_round_pending w key 2 180 start _ 86101 "未扫码" d2);
          [exact R2 | reflexivity | exact E2 | lia]).
    erewrite while_true_next
      by (apply (poll_round_pending w key 2 180 start _ 86090
                   "已扫码，待确认" d3);
          [exact R3 | reflexivity | exact E3 | lia]).
    erewrite while_true_return
      by (apply (poll_round_confirmed w key 2 180 start _ d4 login_url
                   confirm); [exact R4 | exact U | exact C]).
    eexists. split; [reflexivity | ].
    assert (T : forall (A : Type) (x y : list A) (P : Prop),
               (x = y -> P) -> x = y -> x = y /\ P) by (intros; tauto).
    apply T.
    + intros ->. rewrite shown_states_app. f_equal.
      unfold shown_states. cbn [flat_map].
      rewrite !shown_state_awaiting, shown_state_scanned,
        shown_state_confirmed.
      reflexivity.
    + unfold after_pending, s0. cbn [trace n_requests n_clock].
      rewrite <- !app_assoc. reflexivity.
  - intros status d interval timeout start R A B C D.
    destruct (poll_round_unknown w key interval timeout start s status d
                R A B C D) as (txt & Run).
    eexists _, _. split; [exact Run | ].
    split; [now apply while_true_raise | ].
    split; [reflexivity | ].
    cbn [trace]. unfold requests_of. rewrite flat_map_app. reflexivity.
Qed.

(** ** What a program asks the network *)

Section Respects.

Variable w : World.

Variable n0 : nat.
Variable Q : Request -> Prop.

Lemma requests_of_app (a b : list Event) :
  requests_of (a ++ b) = (requests_of a ++ requests_of b)%list.
Proof. unfold requests_of. apply flat_map_app. Qed.

Lemma respects_same {A : Type} (m : M A) :
  (forall s, exists r, m s = Some (r, s)) -> respects n0 Q m.
Proof.
  intros H s r s' _ E. destruct (H s) as (r' & E').
  rewrite E' in E. injection E as <- <-.
  split; [lia | ]. exists []. split; [now rewrite app_nil_r | constructor].
Qed.

Lemma respects_ret {A : Type} (a : A) : respects n0 Q (ret a).
Proof. apply respects_same. intros s. now exists (Ok a). Qed.

Lemma respects_raise {A : Type} (e : exn) : respects n0 Q (@raise A e).
Proof. apply respects_same. intros s. now exists (Raise e). Qed.

Lemma respects_lift {A : Type} (r : result A) : respects n0 Q (lift r).
Proof. apply respects_same. intros s. now exists r. Qed.

Lemma respects_emit (e : Event) :
  (forall rq, e <> EvGet rq) -> respects n0 Q (emit e).
Proof.
  intros NotGet s r s' _ E. injection E as <- <-.
  split; [cbn; lia | ]. exists [e]. split; [reflexivity | ].
  destruct e as [rq | | | | | | ]; [now destruct (NotGet rq) | ..];
    cbn; constructor.
Qed.

Lemma respects_print (line : string) : respects n0 Q (print line).
Proof. apply respects_emit. discriminate. Qed.

Lemma respects_print_noeol (line : string) : respects n0 Q (print_noeol line).
Proof. apply respects_emit. discriminate. Qed.

Lemma respects_sleep (seconds : Z) : respects n0 Q (sleep seconds).
Proof.
  unfold sleep. destruct (seconds <? 0).
  - apply respects_raise.
  - apply respects_emit. discriminate.
Qed.

Lemma respects_time_time : respects n0 Q (time_time w).
Proof.
  intros s r s' _ E. injection E as <- <-.
  split; [cbn; lia | ]. exists []. split; [cbn; now rewrite app_nil_r | ].
  constructor.
Qed.

Lemma respects_get (sess : Session) (url : PyVal)
  (kwargs : list (string * PyVal)) :
  Q (mkRequest sess url kwargs) -> respects n0 Q (get w sess url kwargs).
Proof.
  intros H s r s' _ E. unfold get in E.
  destruct (net w (n_requests s) (mkRequest sess url kwargs));
    injection E as <- <-;
    (split; [cbn; lia | ]);
    exists [EvGet (mkRequest sess url kwargs)];
    (split; [reflexivity | ]); cbn; now constructor.
Qed.

Lemma respects_then {A : Type} (s s1 s' : State) (new : list Event)
  (m : M A) (r : result A) :
  (n0 <= n_requests s)%nat ->
  (n_requests s <= n_requests s1)%nat ->
  trace s1 = (trace s ++ new)%list ->
  Forall Q (requests_of new) ->
  respects n0 Q m ->
  m s1 = Some (r, s') ->
  (n_requests s <= n_requests s')%nat
  /\ exists new',
       trace s' = (trace s ++ new')%list /\ Forall Q (requests_of new').
Proof.
  intros N0 N T F R E.
  destruct (R s1 r s' ltac:(lia) E) as (N' & new2 & T2 & F2).
  split; [lia | ]. exists (new ++ new2)%list. split.
  - now rewrite T2, T, app_assoc.
  - rewrite requests_of_app. apply Forall_app. now split.
Qed.

(** [bind], when the value of the first program tells what the second may
    ask. *)
Lemma respects_bind_with {A B : Type} (P : A -> Prop) (m : M A)
  (k : A -> M B) :
  respects n0 Q m ->
  (forall s a s', (n0 <= n_requests s)%nat -> m s = Some (Ok a, s') -> P a) ->
  (forall a, P a -> respects n0 Q (k a)) ->
  respects n0 Q (bind m k).
Proof.
  intros Rm Pm Rk s r s' N0 E. unfold bind in E.
  destruct (m s) as [[[a | e] s1] | ] eqn:Em; [ | | discriminate].
  - destruct (Rm s (Ok a) s1 N0 Em) as (N & new & T & F).
    exact (respects_then s s1 s' new (k a) r N0 N T F
             (Rk a (Pm s a s1 N0 Em)) E).
  - injection E as <- <-. now apply (Rm s (Raise e) s1 N0).
Qed.

Lemma respects_bind {A B : Type} (m : M A) (k : A -> M B) :
  respects n0 Q m -> (forall a, respects n0 Q (k a)) ->
  respects n0 Q (bind m k).
Proof.
  intros Rm Rk. apply (respects_bind_with (fun _ => True)); auto.
Qed.

Lemma respects_try_except {A : Type} (body : M A) (cs : list ExcClass)
  (h : exn -> M A) :
  respects n0 Q body -> (forall e, respects n0 Q (h e)) ->
  respects n0 Q (try_except body cs h).
Proof.
  intros Rb Rh s r s' N0 E. unfold try_except in E.
  destruct (body s) as [[[a | e] s1] | ] eqn:Eb; [ | | discriminate].
  - injection E as <- <-. now apply (Rb s (Ok a) s1 N0).
  - destruct (Rb s (Raise e) s1 N0 Eb) as (N & new & T & F).
    destruct (isinstance_any e cs).
    + exact (respects_then s s1 s' new (h e) r N0 N T F (Rh e) E).
    + injection E as <- <-. split; [exact N | now exists new].
Qed.

Lemma respects_try_except2 {A : Type} (body : M A)
  (c1 : list ExcClass) (h1 : exn -> M A)
  (c2 : list ExcClass) (h2 : exn -> M A) :
  respects n0 Q body -> (forall e, respects n0 Q (h1 e)) ->
  (forall e, respects n0 Q (h2 e)) ->
  respects n0 Q (try_except2 body c1 h1 c2 h2).
Proof.
  intros Rb R1 R2 s r s' N0 E. unfold try_except2 in E.
  destruct (body s) as [[[a | e] s1] | ] eqn:Eb; [ | | discriminate].
  - injection E as <- <-. now apply (Rb s (Ok a) s1 N0).
  - destruct (Rb s (Raise e) s1 N0 Eb) as (N & new & T & F).
    destruct (isinstance_any e c1);
      [exact (respects_then s s1 s' new (h1 e) r N0 N T F (R1 e) E) | ].
    destruct (isinstance_any e c2);
      [exact (respects_then s s1 s' new (h2 e) r N0 N T F (R2 e) E) | ].
    injection E as <- <-. split; [exact N | now exists new].
Qed.

Lemma respects_while_true {A : Type} (fuel : nat) (body : M (option A)) :
  respects n0 Q body -> respects n0 Q (while_true fuel body).
Proof.
  intros Rb. induction fuel as [ | f IH]; intros s r s' N0 E.
  - discriminate.
  - cbn [while_true] in E.
    destruct (body s) as [[[[a | ] | e] s1] | ] eqn:Eb; [ | | | discriminate].
    + injection E as <- <-. now apply (Rb s (Ok (Some a)) s1 N0).
    + destruct (Rb s (Ok None) s1 N0 Eb) as (N & new & T & F).
      exact (respects_then s s1 s' new (while_true f body) r N0 N T F IH E).
    + injection E as <- <-. now apply (Rb s (Raise e) s1 N0).
Qed.

End Respects.

(** The steps that hold for every program built from the operations. *)
Ltac respects_step :=
  first
    [ apply respects_ret
    | apply respects_raise
    | apply respects_lift
    | apply respects_print
    | apply respects_print_noeol
    | apply respects_sleep
    | apply respects_time_time
    | apply respects_bind; [ | intros ? ]
    | match goal with
      | |- respects _ _ (if ?c then _ else _) => destruct c
      end ].

Lemma poll_login_respects (w : World) (n0 : nat) (Q : Request -> Prop)
  (fuel : nat) (key : PyVal) (interval timeout : Z) :
  (forall rq, poll_requests key rq -> Q rq) ->
  respects n0 Q (poll_login w fuel key interval timeout).
Proof.
  intros HQ. unfold poll_login.
  apply respects_bind; [apply respects_time_time | intros start].
  apply respects_while_true. unfold poll_round, poll_wait.
  apply respects_bind;
    [apply respects_get; apply HQ; now left | intros resp].
  apply respects_bind;
    [unfold raise_for_status; repeat respects_step | intros _].
  apply respects_bind;
    [unfold resp_json; destruct (json_loads (text resp));
     repeat respects_step | intros js].
  repeat respects_step.
  apply respects_get. apply HQ. right. now eexists.
Qed.

(** [poll_login_scripted] in the world where the endpoint answers 86101,
    86101, 86090 and 0. *)
Lemma poll_login_scripted_witness :
  exists s',
    poll_login world_scan 4 (PStr "K1") 2 180 initial = Some (Ok true, s')
    /\ trace s'
       = [EvGet (poll_request (PStr "K1"));
          EvPrint (progress_line 0 "未扫码");
          EvSleep 2;
          EvGet (poll_request (PStr "K1"));
          EvPrint (progress_line 0 "未扫码");
          EvSleep 2;
          EvGet (poll_request (PStr "K1"));
          EvPrint (progress_line 0 "已扫码，待确认");
          EvSleep 2;
          EvGet (poll_request (PStr "K1"));
          EvGet (confirm_request (PStr confirm_url));
          EvPrint (success_line 0)]
    /\ shown_states (trace s')
       = [AWAITING_SCAN; AWAITING_SCAN; SCANNED_PENDING_CONFIRM; CONFIRMED].
Proof.
  refine (proj1 (poll_login_scripted world_scan (PStr "K1") 4 initial)
            _ _ _ _ (PStr confirm_url)
            {| status_code := 200; reason := "OK"; resp_url := "";
               text := "" |}
            _ _ _ _ _ _ _ _ _ _).
  - lia.
  - do 3 eexists. repeat split; reflexivity.
  - do 3 eexists. repeat split; reflexivity.
  - do 3 eexists. repeat split; reflexivity.
  - do 3 eexists. repeat split; reflexivity.
  - reflexivity.
  - reflexivity.
  - reflexivity.
  - reflexivity.
  - reflexivity.
Defined.

(** ** The rounds of the loop of [login] *)

Lemma get_qr_login_ok (w : World) (s : State) (key url : PyVal) :
  generate_reply (net w (n_requests s) generate_request) key url ->
  get_qr_login w s = Some (Ok (key, url), after_get s generate_request).
Proof.
  intros (resp & js & c & data & N & H & J & C & C0 & D & K & U).
  unfold get_qr_login, bind at 1, get.
  unfold generate_request in N. rewrite N.
  unfold bind at 1, raise_for_status. rewrite H. cbn [String.eqb].
  unfold ret at 1.
  unfold bind at 1, resp_json. rewrite J. unfold ret at 1.
  unfold bind at 1, lift at 1, getitem at 1. rewrite C, C0. cbn [negb].
  unfold bind, lift, getitem. rewrite D, K, U. reflexivity.
Qed.

(** [get_qr_login] makes one request, whatever comes of it. *)
Lemma get_qr_login_state (w : World) (s s' : State)
  (r : result (PyVal * PyVal)) :
  get_qr_login w s = Some (r, s') -> s' = after_get s generate_request.
Proof.
  unfold get_qr_login, bind, get. fold generate_request.
  destruct (net w (n_requests s) generate_request) as [resp | e];
    [ | intros [= <- <-]; reflexivity].
  unfold raise_for_status.
  destruct (String.eqb (http_error_msg resp) "");
    [ | intros [= <- <-]; reflexivity].
  unfold ret at 1. unfold resp_json.
  destruct (json_loads (text resp)) as [js | ];
    [ | intros [= <- <-]; reflexivity].
  unfold ret at 1. unfold lift.
  destruct (getitem js "code") as [c | e]; [ | intros [= <- <-]; reflexivity].
  destruct (negb (py_eq_int c 0)); [intros [= <- <-]; reflexivity | ].
  destruct (getitem js "data") as [data | e];
    [ | intros [= <- <-]; reflexivity].
  destruct (getitem data "qrcode_key") as [k | e];
    [ | intros [= <- <-]; reflexivity].
  destruct (getitem data "url") as [u | e]; intros [= <- <-]; reflexivity.
Qed.

(** A key that [get_qr_login] returns is a key the endpoint gave. *)
Lemma get_qr_login_inv (w : World) (s s' : State) (key url : PyVal) :
  get_qr_login w s = Some (Ok (key, url), s') ->
  generate_reply (net w (n_requests s) generate_request) key url.
Proof.
  unfold get_qr_login, bind, get, raise_for_status, resp_json, lift, ret,
    raise, generate_reply.
  fold generate_request.
  intros H.
  destruct (net w (n_requests s) generate_request) as [resp | e];
    [ | discriminate].
  destruct (String.eqb_spec (http_error_msg resp) "") as [Hm | _];
    [ | discriminate].
  destruct (json_loads (text resp)) as [js | ] eqn:J; [ | discriminate].
  destruct js as [ | | | | | | | top]; try discriminate.
  cbn [getitem] in H.
  destruct (dict_lookup "code" top) as [c | ] eqn:C; [ | discriminate].
  destruct (py_eq_int c 0) eqn:C0; [ | discriminate]. cbn [negb] in H.
  destruct (dict_lookup "data" top) as [data | ] eqn:D; [ | discriminate].
  destruct data as [ | | | | | | | dd]; try discriminate.
  cbn [getitem] in H.
  destruct (dict_lookup "qrcode_key" dd) as [k | ] eqn:K; [ | discriminate].
  destruct (dict_lookup "url" dd) as [u | ] eqn:U; [ | discriminate].
  injection H as <- <- _.
  exists resp, top, c, dd. repeat split; assumption.
Qed.


Lemma login_round_eq (w : World) (fuel : nat) :
  login_round w fuel
  = (ku <- get_qr_login w ;; login_round_rest w fuel (fst ku) (snd ku)).
Proof. reflexivity. Qed.

Lemma login_round_polls (w : World) (fuel : nat) (s : State)
  (key url : PyVal) :
  generate_reply (net w (n_requests s) generate_request) key url ->
  login_round w fuel s
  = try_except2
      (ok <- poll_login w fuel key 2 180 ;;
       if ok : bool then ret (Some tt) else ret None)
      [TimeoutError]
      (fun _ => print (LF ++ "⏰ 扫码超时，重新获取..." ++ LF) ;;; ret None)
      [Exception]
      (fun e =>
         print (LF ++ "❌ 登录异常：" ++ exc_str e ++ "，程序退出。") ;;;
         exit 1)
      (qr_shown url s).
Proof.
  intros G. unfold login_round.
  rewrite (bind_ok _ _ _ _ _ (get_qr_login_ok w s key url G)).
  reflexivity.
Qed.


Lemma login_round_confirmed (w : World) (fuel : nat) (s s2 : State)
  (key url : PyVal) :
  generate_reply (net w (n_requests s) generate_request) key url ->
  poll_login w fuel key 2 180 (qr_shown url s) = Some (Ok true, s2) ->
  login_round w fuel s = Some (Ok (Some tt), s2).
Proof.
  intros G P. rewrite (login_round_polls w fuel s key url G).
  unfold try_except2. rewrite (bind_ok _ _ _ _ _ P). reflexivity.
Qed.

Lemma login_round_timeout (w : World) (fuel : nat) (s s2 : State)
  (key url : PyVal) (e : exn) :
  generate_reply (net w (n_requests s) generate_request) key url ->
  poll_login w fuel key 2 180 (qr_shown url s) = Some (Raise e, s2) ->
  isinstance e TimeoutError = true ->
  login_round w fuel s = Some (Ok None, log (EvPrint timeout_line) s2).
Proof.
  intros G P T. rewrite (login_round_polls w fuel s key url G).
  unfold try_except2. rewrite (bind_raise _ _ _ _ _ P).
  unfold isinstance_any at 1. cbn [existsb]. rewrite T. reflexivity.
Qed.

Lemma login_round_rest_respects (w : World) (n0 : nat) (fuel : nat)
  (key url : PyVal) (i : nat) :
  (n0 <= i)%nat ->
  generate_reply (net w i generate_request) key url ->
  respects n0 (login_requests w n0) (login_round_rest w fuel key url).
Proof.
  intros Hi G. unfold login_round_rest.
  apply respects_bind; [apply respects_print | intros _].
  apply respects_bind;
    [unfold show_qr_terminal; apply respects_emit; discriminate | intros _].
  apply respects_try_except2.
  - apply respects_bind.
    + apply poll_login_respects.
      intros rq [-> | (u & ->)].
      * right. left. now exists key, url, i.
      * right. right. now exists u.
    + intros [ | ]; apply respects_ret.
  - intros e. repeat respects_step.
  - intros e. unfold exit. repeat respects_step.
Qed.


(** A round of the loop of [login] starts with the request of a QR code. *)
Lemma login_round_starts (w : World) (fuel : nat) (s s' : State)
  (r : result (option unit)) :
  login_round w fuel s = Some (r, s') ->
  (S (n_requests s) <= n_requests s')%nat
  /\ exists more,
       trace s' = (trace s ++ EvGet generate_request :: more)%list
       /\ Forall (login_requests w (n_requests s)) (requests_of more).
Proof.
  rewrite login_round_eq. intros E. unfold bind in E.
  destruct (get_qr_login w s) as [[[[key url] | e] s1] | ] eqn:G;
    [ | | discriminate].
  - pose proof (get_qr_login_state w s s1 _ G) as ->.
    pose proof (get_qr_login_inv w s _ key url G) as GR.
    cbn [fst snd] in E.
    destruct (login_round_rest_respects w (n_requests s) fuel key url
                (n_requests s) (le_n _) GR
                (after_get s generate_request) r s'
                ltac:(cbn; lia) E) as (N1 & more & T1 & F1).
    split; [cbn in N1; lia | ].
    exists more. split; [ | exact F1].
    rewrite T1. cbn [trace after_get]. now rewrite <- app_assoc.
  - pose proof (get_qr_login_state w s s1 _ G) as ->.
    injection E as <- <-. split; [cbn; lia | ].
    exists []. split; [reflexivity | constructor].
Qed.







(** Rounds that time out leave the loop of [login] running. *)
Lemma timeouts_keep_the_loop_running (w : World) (fuel n : nat)
  (s s' : State) :
  rounds_time_out w fuel n s s' ->
  (forall f,
      while_true (n + f) (login_round w fuel) s
      = while_true f (login_round w fuel) s')
  /\ while_true n (login_round w fuel) s = None
  /\ (forall r s'',
         login_round w fuel s' = Some (r, s'') ->
         exists more,
           trace s'' = (trace s' ++ EvGet generate_request :: more)%list).
Proof.
  intros H.
  assert (Loop : forall f,
             while_true (n + f) (login_round w fuel) s
             = while_true f (login_round w fuel) s').
  { induction H as [s | n s s2 s' key url e G P T _ IH]; intros f.
    - reflexivity.
    - cbn [Nat.add].
      rewrite (while_true_next _ _ _ _
                 (login_round_timeout w fuel s s2 key url e G P T)).
      apply IH. }
  split; [exact Loop | ]. split.
  - specialize (Loop 0%nat). rewrite Nat.add_0_r in Loop.
    rewrite Loop. reflexivity.
  - intros r s'' R.
    destruct (login_round_starts w fuel s' s'' r R) as (_ & more & T & _).
    now exists more.
Qed.



Lemma world_idle_round (fuel : nat) (s : State) :
  exists s2,
    poll_login world_idle (S fuel) (PStr "K") 2 180
      (qr_shown (scan_url "K") s)
    = Some (Raise (mkExn TimeoutError "扫码登录超时"), s2).
Proof.
  eexists. unfold poll_login, bind at 1, time_time.
  apply while_true_raise.
  eapply (poll_round_timeout world_idle (PStr "K") 2 180 _ _ 86101 "未扫码").
  - do 3 eexists. repeat split; reflexivity.
  - reflexivity.
  - cbn [n_clock qr_shown log after_get clock world_idle world_at].
    rewrite Nat2Z.inj_succ.
    replace (180000 * Z.succ (Z.of_nat (n_clock s))
             - 180000 * Z.of_nat (n_clock s)) with 180000 by lia.
    discriminate.
Qed.

Lemma world_idle_rounds (fuel n : nat) (s : State) :
  exists s', rounds_time_out world_idle (S fuel) n s s'.
Proof.
  revert s. induction n as [ | n IH]; intros s.
  - exists s. constructor.
  - destruct (world_idle_round fuel s) as (s2 & P).
    destruct (IH (log (EvPrint timeout_line) s2)) as (s' & R).
    exists s'.
    apply (rounds_time_out_S world_idle (S fuel) n s s2 s' (PStr "K")
             (scan_url "K") (mkExn TimeoutError "扫码登录超时"));
      [ | exact P | reflexivity | exact R].
    do 4 eexists. repeat split; reflexivity.
Qed.

(** Where nobody ever scans, [login] never gives up: whatever the fuel, its
    loop is still running when the fuel is spent. *)
Lemma login_never_gives_up (fuel : nat) (s : State) :
  login_loop world_idle fuel s = None.
Proof.
  unfold login_loop. destruct fuel as [ | fuel]; [reflexivity | ].
  destruct (world_idle_rounds fuel (S fuel) s) as (s' & R).
  exact (proj1 (proj2 (timeouts_keep_the_loop_running
                         world_idle (S fuel) (S fuel) s s' R))).
Qed.


(* ===================================================================== *)
(** * Properties of the credential file *)
(* ===================================================================== *)

(** C3.  When the file is not there, [parse_login_info] returns [None] and
    raises nothing.  When the file is there and is no JSON, it raises the
    error of the parser, [json.JSONDecodeError] (what the specification
    calls [CredentialFileError]); when the file cannot be read, it raises
    the error of the reading.  It returns [None] for neither, and [login]
    lets the error of the parser through to its caller. *)
Theorem parse_login_info_absent_or_error (w : World) (file_path : string)
  (s : State) :
  (forall e,
      file_read w file_path = Raise e ->
      isinstance e FileNotFoundError = true ->
      parse_login_info w file_path s
      = Some (Ok PNone, log (EvPrint (no_file_line file_path)) s))
  /\ (forall txt,
         file_read w file_path = Ok txt ->
         json_loads txt = None ->
         parse_login_info w file_path s
         = Some (Raise (mkExn JSONDecodeError json_error_text), s)
         /\ forall fuel,
              makedirs w "data" = None ->
              login w fuel file_path s
              = Some (Raise (mkExn JSONDecodeError json_error_text),
                      log (EvMakedirs "data") s))
  /\ (forall e,
         file_read w file_path = Raise e ->
         isinstance e FileNotFoundError = false ->
         parse_login_info w file_path s = Some (Raise e, s)).
Proof.
  assert (Bad : forall txt s0,
             file_read w file_path = Ok txt ->
             json_loads txt = None ->
             parse_login_info w file_path s0
             = Some (Raise (mkExn JSONDecodeError json_error_text), s0)).
  { intros txt s0 R J. unfold parse_login_info, try_except.
    rewrite R. unfold json_loads_M. rewrite J. reflexivity. }
  split; [ | split].
  - intros e R F. unfold parse_login_info, try_except. rewrite R.
    unfold raise, isinstance_any. cbn [existsb]. rewrite F. reflexivity.
  - intros txt R J. split; [exact (Bad txt s R J) | ].
    intros fuel Mk. unfold login, os_makedirs.
    unfold bind at 1. unfold bind at 1. unfold emit. rewrite Mk.
    unfold ret at 1.
    now rewrite (bind_raise _ _ _ _ _ (Bad txt _ R J)).
  - intros e R F. unfold parse_login_info, try_except. rewrite R.
    unfold raise, isinstance_any. cbn [existsb]. rewrite F. reflexivity.
Qed.

(** [parse_login_info_absent_or_error] on a file that is not there and on a
    file that is no JSON. *)
Lemma parse_login_info_absent_or_error_witness :
  parse_login_info (world_of net_plain) login_file initial
  = Some (Ok PNone, log (EvPrint (no_file_line login_file)) initial)
  /\ parse_login_info (world_with_file broken_file noon_2025_06_01)
       login_file initial
     = Some (Raise (mkExn JSONDecodeError json_error_text), initial).
Proof.
  split.
  - apply (proj1 (parse_login_info_absent_or_error (world_of net_plain)
                    login_file initial)
             (mkExn FileNotFoundError "No such file")); reflexivity.
  - apply (proj1 (proj2 (parse_login_info_absent_or_error
                           (world_with_file broken_file noon_2025_06_01)
                           login_file initial))
             broken_file eq_refl eq_refl).
Defined.

(** ** The check of the expiries *)

Lemma all_unexpired_step (w : World) (temp_info : PyVal) (now : DateTime)
  (name : string) (more : list string) (expiry : option DateTime) :
  field_expiry w temp_info name expiry ->
  all_unexpired w temp_info now (name :: more)
  = match expiry with
    | None => all_unexpired w temp_info now more
    | Some t =>
        if dt_gt t now then all_unexpired w temp_info now more else Ok false
    end.
Proof.
  intros (entry & value & G & _ & E). cbn [all_unexpired]. unfold rbind.
  rewrite G. cbn [getitem].
  destruct expiry as [t | ].
  - destruct E as (str & L & P). rewrite L. cbn [is_none].
    unfold parse_utc. rewrite P. reflexivity.
  - rewrite E. reflexivity.
Qed.

Lemma usableb_spec (expiries : list (option DateTime)) (now : DateTime) :
  usableb expiries now = true <-> usable expiries now.
Proof.
  unfold usableb, usable. rewrite forallb_forall. split.
  - intros H t I. exact (H (Some t) I).
  - intros H [t | ] I; [exact (H t I) | reflexivity].
Qed.

Lemma field_expiry_value (w : World) (temp_info : PyVal) (name : string)
  (expiry : option DateTime) :
  field_expiry w temp_info name expiry ->
  truthy temp_info = true
  /\ exists value, cached_value temp_info name = Ok value.
Proof.
  intros (entry & value & G & V & _). split.
  - destruct temp_info as [ | | | | | | | d]; try discriminate G.
    destruct d; [discriminate G | reflexivity].
  - exists value. unfold cached_value, rbind. rewrite G. cbn [getitem].
    now rewrite V.
Qed.

(** C4.  For credentials whose three fields have an expiry that is absent
    or reads as a time, the check of [login] says yes exactly when every
    expiry that is there is after [now]; an absent expiry never makes it
    say no.  [login] loads the credentials of the file when the check says
    yes, and goes on to the QR login, raising nothing, when it says no. *)
Theorem cached_credentials_usable_iff (w : World) (temp_info : PyVal)
  (e1 e2 e3 : option DateTime) :
  field_expiry w temp_info "SESSDATA" e1 ->
  field_expiry w temp_info "bili_jct" e2 ->
  field_expiry w temp_info "DedeUserID" e3 ->
  (forall now,
      exists b,
        all_unexpired w temp_info now credential_names = Ok b
        /\ (b = true <-> usable [e1; e2; e3] now))
  /\ (forall s,
         usable [e1; e2; e3] (utc_now w) ->
         exists s',
           cache_loaded temp_info s = Some s'
           /\ login_cached w temp_info s = Some (Ok (Some temp_info), s'))
  /\ (forall s,
         ~ usable [e1; e2; e3] (utc_now w) ->
         login_cached w temp_info s = Some (Ok None, s)).
Proof.
  intros F1 F2 F3.
  assert (Check : forall now,
             all_unexpired w temp_info now credential_names
             = Ok (usableb [e1; e2; e3] now)).
  { intros now. unfold credential_names.
    rewrite (all_unexpired_step w temp_info now _ _ e1 F1).
    rewrite (all_unexpired_step w temp_info now _ _ e2 F2).
    rewrite (all_unexpired_step w temp_info now _ _ e3 F3).
    cbn [all_unexpired usableb forallb].
    destruct e1 as [t1 | ], e2 as [t2 | ], e3 as [t3 | ];
      repeat match goal with
             | |- context [dt_gt ?t now] => destruct (dt_gt t now)
             end; reflexivity. }
  destruct (field_expiry_value w temp_info _ _ F1) as (Tr & v1 & V1).
  destruct (field_expiry_value w temp_info _ _ F2) as (_ & v2 & V2).
  destruct (field_expiry_value w temp_info _ _ F3) as (_ & v3 & V3).
  split; [ | split].
  - intros now. exists (usableb [e1; e2; e3] now).
    split; [apply Check | apply usableb_spec].
  - intros s U. apply usableb_spec in U.
    unfold cache_loaded, login_cached. rewrite Tr.
    eexists. split; [rewrite V1, V2, V3; reflexivity | ].
    unfold try_except, bind at 1, lift at 1. rewrite Check, U.
    unfold bind, lift. rewrite V1, V2, V3. reflexivity.
  - intros s U.
    assert (B : usableb [e1; e2; e3] (utc_now w) = false).
    { destruct (usableb [e1; e2; e3] (utc_now w)) eqn:B; [ | reflexivity].
      destruct U. now apply usableb_spec. }
    unfold login_cached. rewrite Tr.
    unfold try_except, bind at 1, lift at 1. rewrite Check, B. reflexivity.
Qed.

(** [cached_credentials_usable_iff] on the file of a login, before its
    credentials expire. *)
Lemma cached_credentials_usable_iff_witness :
  exists s',
    cache_loaded
      (PDict
         [("SESSDATA",
           PDict [("value", PStr "a");
                  ("expires", PStr "2025-12-01 08:00:00 UTC")]);
          ("bili_jct",
           PDict [("value", PStr "b");
                  ("expires", PStr "2025-12-01 08:00:00 UTC")]);
          ("DedeUserID", PDict [("value", PStr "c"); ("expires", PNone)])])
      initial = Some s'
    /\ login_cached (world_with_file good_file noon_2025_06_01)
         (PDict
            [("SESSDATA",
              PDict [("value", PStr "a");
                     ("expires", PStr "2025-12-01 08:00:00 UTC")]);
             ("bili_jct",
              PDict [("value", PStr "b");
                     ("expires", PStr "2025-12-01 08:00:00 UTC")]);
             ("DedeUserID", PDict [("value", PStr "c"); ("expires", PNone)])])
         initial
       = Some (Ok (Some
                     (PDict
                        [("SESSDATA",
                          PDict [("value", PStr "a");
                                 ("expires", PStr "2025-12-01 08:00:00 UTC")]);
                         ("bili_jct",
                          PDict [("value", PStr "b");
                                 ("expires", PStr "2025-12-01 08:00:00 UTC")]);
                         ("DedeUserID",
                          PDict [("value", PStr "c"); ("expires", PNone)])])),
               s').
Proof.
  refine (proj1 (proj2 (cached_credentials_usable_iff
                          (world_with_file good_file noon_2025_06_01) _
                          (Some (mkDateTime 2025 12 1 8 0 0 0))
                          (Some (mkDateTime 2025 12 1 8 0 0 0))
                          None _ _ _)) initial _).
  - do 2 eexists. split; [reflexivity | ]. split; [reflexivity | ].
    eexists. split; reflexivity.
  - do 2 eexists. split; [reflexivity | ]. split; [reflexivity | ].
    eexists. split; reflexivity.
  - do 2 eexists. split; [reflexivity | ]. split; reflexivity.
  - apply usableb_spec. reflexivity.
Defined.

(** ** A credential file that is JSON and no credentials *)






Lemma login_after_cache (w : World) (fuel : nat) (file_path : string)
  (s s1 s2 : State) (temp_info : PyVal) :
  makedirs w "data" = None ->
  parse_login_info w file_path (log (EvMakedirs "data") s)
  = Some (Ok temp_info, s1) ->
  login_cached w temp_info s1 = Some (Ok None, s2) ->
  login w fuel file_path s = qr_login w fuel file_path s2.
Proof.
  intros Mk P C. unfold login, os_makedirs.
  unfold bind at 1. unfold bind at 1. unfold emit. rewrite Mk.
  unfold ret at 1.
  rewrite (bind_ok _ _ _ _ _ P). rewrite (bind_ok _ _ _ _ _ C).
  reflexivity.
Qed.


(** Without a file [login] goes on with the QR login. *)
Lemma login_without_file (w : World) (fuel : nat) (file_path : string)
  (s : State) (e : exn) :
  makedirs w "data" = None ->
  file_read w file_path = Raise e ->
  isinstance e FileNotFoundError = true ->
  login w fuel file_path s
  = qr_login w fuel file_path
      (log (EvPrint (no_file_line file_path)) (log (EvMakedirs "data") s)).
Proof.
  intros Mk R F.
  apply (login_after_cache w fuel file_path s
           (log (EvPrint (no_file_line file_path)) (log (EvMakedirs "data") s))
           _ PNone Mk); [ | reflexivity].
  unfold parse_login_info, try_except. rewrite R.
  unfold raise, isinstance_any. cbn [existsb]. rewrite F. reflexivity.
Qed.

(** With expired credentials [login] goes on with the QR login. *)
Lemma login_with_expired_cache (w : World) (fuel : nat) (file_path : string)
  (s : State) (txt : string) (temp_info : PyVal) :
  makedirs w "data" = None ->
  file_read w file_path = Ok txt ->
  json_loads txt = Some temp_info ->
  all_unexpired w temp_info (utc_now w) credential_names = Ok false ->
  login w fuel file_path s
  = qr_login w fuel file_path (log (EvMakedirs "data") s).
Proof.
  intros Mk R J A.
  apply (login_after_cache w fuel file_path s (log (EvMakedirs "data") s) _
           temp_info Mk).
  - unfold parse_login_info, try_except. rewrite R.
    unfold json_loads_M. rewrite J. reflexivity.
  - unfold login_cached. destruct (truthy temp_info); [ | reflexivity].
    unfold try_except, bind at 1, lift at 1. rewrite A. reflexivity.
Qed.


(* ===================================================================== *)
(** * Properties of [extract_bv] *)
(* ===================================================================== *)

Lemma strip_prefix_spec (p s r : string) :
  strip_prefix p s = Some r <-> s = p ++ r.
Proof.
  revert s. induction p as [ | a p IH]; intros s; simpl.
  - split; [now intros [= ->] | now intros ->].
  - destruct s as [ | b s].
    + split; discriminate.
    + destruct (Ascii.eqb_spec a b) as [-> | N].
      * rewrite IH. split; [now intros -> | now intros [= ->]].
      * split; [discriminate | intros [= E _]; now elim N].
Qed.

Lemma append_empty (s : string) : s ++ "" = s.
Proof. induction s; simpl; [reflexivity | now f_equal]. Qed.

Lemma span_alnum_spec (s : string) :
  s = fst (span_alnum s) ++ snd (span_alnum s)
  /\ string_forall is_alnum (fst (span_alnum s)) = true
  /\ run_ends (snd (span_alnum s)).
Proof.
  induction s as [ | c s (E & A & R)]; simpl.
  - now repeat split.
  - destruct (is_alnum c) eqn:C.
    + destruct (span_alnum s) as [a t]. simpl in *.
      repeat split; [now rewrite <- E | now rewrite C | exact R].
    + simpl. now repeat split.
Qed.

(** A run of the class at the head of [s] is part of the longest one. *)
Lemma span_alnum_append (a r : string) :
  string_forall is_alnum a = true ->
  span_alnum (a ++ r) = (a ++ fst (span_alnum r), snd (span_alnum r)).
Proof.
  induction a as [ | c a IH]; simpl.
  - intros _. now destruct (span_alnum r).
  - intros [C A]%andb_true_iff. rewrite C, (IH A). reflexivity.
Qed.

Lemma match_bv_some (s g : string) :
  match_bv s = Some g ->
  exists run post,
    s = g ++ post /\ g = "BV" ++ run
    /\ (10 <= String.length run)%nat
    /\ string_forall is_alnum run = true
    /\ run_ends post.
Proof.
  unfold match_bv. destruct (strip_prefix "BV" s) as [r | ] eqn:P; [ | discriminate].
  apply strip_prefix_spec in P.
  destruct (span_alnum_spec r) as (E & A & R).
  destruct (10 <=? String.length (fst (span_alnum r)))%nat eqn:L; [ | discriminate].
  intros [= <-]. exists (fst (span_alnum r)), (snd (span_alnum r)).
  apply Nat.leb_le in L.
  repeat split; try assumption.
  rewrite P. cbn [append]. now rewrite <- E.
Qed.

Lemma match_bv_none (s : string) : match_bv s = None <-> ~ bv_at s.
Proof.
  split.
  - intros N (run & rest & -> & L & A). unfold match_bv in N.
    assert (P : strip_prefix "BV" ("BV" ++ run ++ rest) = Some (run ++ rest))
      by now apply strip_prefix_spec.
    rewrite P, (span_alnum_append run rest A) in N. cbn [fst] in N.
    rewrite length_append in N.
    destruct (Nat.leb_spec 10
                (String.length run + String.length (fst (span_alnum rest))));
      [discriminate | lia].
  - intros N. destruct (match_bv s) as [g | ] eqn:E; [ | reflexivity].
    elim N. destruct (match_bv_some s g E) as (run & post & -> & -> & L & A & _).
    exists run, post. rewrite append_assoc. now repeat split.
Qed.

Lemma extract_bv_found (url b : string) :
  extract_bv url = Some b ->
  exists pre post,
    url = pre ++ b ++ post
    /\ match_bv (b ++ post) = Some b
    /\ forall p1 p2,
         pre = p1 ++ p2 -> p2 <> "" -> match_bv (p2 ++ b ++ post) = None.
Proof.
  induction url as [ | c url IH].
  - simpl. discriminate.
  - cbn [extract_bv]. destruct (match_bv (String c url)) as [g | ] eqn:E.
    + intros [= ->].
      destruct (match_bv_some _ _ E) as (run & post & Eq & _).
      exists "", post. cbn [append].
      split; [exact Eq | split; [now rewrite <- Eq | ]].
      intros p1 p2 H. destruct p1; [simpl in H; now subst | discriminate].
    + intros F. destruct (IH F) as (pre & post & -> & Mb & Left).
      exists (String c pre), post. repeat split; [exact Mb | ].
      intros [ | x p1] p2 H N.
      * simpl in H. subst p2. exact E.
      * injection H as _ H. now apply (Left p1 p2).
Qed.

(** X1: when [extract_bv] finds an identifier, it stands in the text: it is
    [BV] and ten letters or digits of ASCII or more, as many as there are in
    a row; and no identifier starts before it. *)
Theorem extract_bv_is_leftmost_longest (url b : string) :
  extract_bv url = Some b ->
  exists pre run post,
    url = pre ++ b ++ post
    /\ b = "BV" ++ run
    /\ (10 <= String.length run)%nat
    /\ string_forall is_alnum run = true
    /\ run_ends post
    /\ forall p1 p2,
         pre = p1 ++ p2 -> p2 <> "" -> ~ bv_at (p2 ++ b ++ post).
Proof.
  intros F. destruct (extract_bv_found url b F) as (pre & post & E & Mb & Left).
  destruct (match_bv_some _ _ Mb) as (run & post' & Eq & Eb & L & A & R).
  assert (post' = post) as ->.
  { clear - Eq. induction b as [ | c b IH]; simpl in Eq; [easy | ].
    injection Eq as Eq. now apply IH. }
  exists pre, run, post. repeat split; try assumption.
  intros p1 p2 H N. apply match_bv_none. now apply (Left p1 p2).
Qed.

Lemma extract_bv_is_leftmost_longest_witness :
  exists pre run post,
    "https://www.bilibili.com/video/BV1xx411c7mD?p=1"
    = pre ++ "BV1xx411c7mD" ++ post
    /\ "BV1xx411c7mD" = "BV" ++ run
    /\ (10 <= String.length run)%nat
    /\ string_forall is_alnum run = true
    /\ run_ends post
    /\ forall p1 p2,
         pre = p1 ++ p2 -> p2 <> "" ->
         ~ bv_at (p2 ++ "BV1xx411c7mD" ++ post).
Proof.
  exact (extract_bv_is_leftmost_longest
           "https://www.bilibili.com/video/BV1xx411c7mD?p=1" "BV1xx411c7mD"
           eq_refl).
Defined.

(** X2: [extract_bv] gives [None] exactly when no identifier stands
    anywhere in the text. *)
Theorem extract_bv_none_iff (url : string) :
  extract_bv url = None <-> forall a b, url = a ++ b -> ~ bv_at b.
Proof.
  induction url as [ | c url IH].
  - cbn [extract_bv]. split.
    + intros _ a b E. destruct a; [ | discriminate]. simpl in E. subst b.
      now apply match_bv_none.
    + reflexivity.
  - cbn [extract_bv]. destruct (match_bv (String c url)) as [g | ] eqn:E.
    + split; [discriminate | ]. intros H. exfalso.
      apply (H "" (String c url) eq_refl).
      destruct (match_bv_some _ _ E) as (run & post & Eq & -> & L & A & _).
      exists run, post. rewrite Eq, append_assoc. now repeat split.
    + rewrite IH. split.
      * intros H [ | x a] b Eq.
        -- simpl in Eq. subst b. now apply match_bv_none.
        -- injection Eq as _ Eq. now apply (H a b).
      * intros H a b Eq. apply (H (String c a) b). simpl. now rewrite Eq.
Qed.

(** X3: an identifier that [extract_bv] found is found again in itself: to
    extract twice is to extract once. *)
Theorem extract_bv_idempotent (url b : string) :
  extract_bv url = Some b -> extract_bv b = Some b.
Proof.
  intros F. destruct (extract_bv_found url b F) as (pre & post & _ & Mb & _).
  destruct (match_bv_some _ _ Mb) as (run & post' & _ & -> & L & A & _).
  assert (M : match_bv ("BV" ++ run) = Some ("BV" ++ run)).
  { unfold match_bv.
    assert (P : strip_prefix "BV" ("BV" ++ run) = Some run)
      by now apply strip_prefix_spec.
    rewrite P. pose proof (span_alnum_append run "" A) as Sp.
    cbn [span_alnum fst snd] in Sp. rewrite append_empty in Sp.
    rewrite Sp. cbn [fst]. apply Nat.leb_le in L. now rewrite L. }
  change (extract_bv ("BV" ++ run))
    with (match match_bv ("BV" ++ run) with
          | Some g => Some g
          | None => extract_bv (String "V" run)
          end).
  now rewrite M.
Qed.

Lemma extract_bv_idempotent_witness :
  extract_bv "BV1xx411c7mD" = Some "BV1xx411c7mD".
Proof.
  exact (extract_bv_idempotent
           "https://www.bilibili.com/video/BV1xx411c7mD?p=1" "BV1xx411c7mD"
           eq_refl).
Defined.

(* ===================================================================== *)
(** * Properties of [_sanitize_filename] *)
(* ===================================================================== *)

Lemma underscore_legal : is_illegal "_"%char = false.
Proof. reflexivity. Qed.

Lemma sanitize_append (a b : string) :
  _sanitize_filename (a ++ b) = _sanitize_filename a ++ _sanitize_filename b.
Proof. induction a as [ | c a IH]; simpl; [reflexivity | now rewrite IH]. Qed.

Lemma sanitize_legal (name : string) :
  string_forall legal (_sanitize_filename name) = true.
Proof.
  induction name as [ | c name IH]; simpl; [reflexivity | ].
  rewrite IH, andb_true_r. unfold legal.
  destruct (is_illegal c) eqn:C; [reflexivity | now rewrite C].
Qed.

Lemma sanitize_fixes (name : string) :
  string_forall legal name = true -> _sanitize_filename name = name.
Proof.
  induction name as [ | c name IH]; simpl; [reflexivity | ].
  unfold legal at 1. intros [C A]%andb_true_iff.
  apply negb_true_iff in C. now rewrite C, (IH A).
Qed.

(** X4: [_sanitize_filename] keeps the length of the name and every
    character of it but the nine it names, which become underscores; what
    it returns holds none of the nine. *)
Theorem sanitize_filename_pointwise (name : string) :
  String.length (_sanitize_filename name) = String.length name
  /\ string_forall legal (_sanitize_filename name) = true
  /\ forall i c,
       String.get i name = Some c ->
       String.get i (_sanitize_filename name)
       = Some (if is_illegal c then "_"%char else c).
Proof.
  split; [ | split; [apply sanitize_legal | ]].
  - induction name as [ | c name IH]; simpl; [reflexivity | now rewrite IH].
  - induction name as [ | x name IH]; intros i c; simpl.
    + discriminate.
    + destruct i as [ | i]; [now intros [= ->] | apply IH].
Qed.

(** X5: [_sanitize_filename] changes a name exactly when the name holds one
    of the nine characters, and to clean twice is to clean once. *)
Theorem sanitize_filename_idempotent (name : string) :
  _sanitize_filename (_sanitize_filename name) = _sanitize_filename name
  /\ (_sanitize_filename name = name <-> string_forall legal name = true).
Proof.
  split.
  - apply sanitize_fixes, sanitize_legal.
  - split; [ | apply sanitize_fixes].
    intros E. rewrite <- E. apply sanitize_legal.
Qed.

(* ===================================================================== *)
(** * Properties of the identifiers of a video *)
(* ===================================================================== *)

(** A request answered with JSON, then what the program does with it. *)
Lemma get_json (w : World) (sess : Session) (url : PyVal)
  (kwargs : list (string * PyVal)) (s : State) (js : PyVal) {A : Type}
  (k : PyVal -> M A) :
  json_reply (net w (n_requests s) (mkRequest sess url kwargs)) js ->
  (resp <- get w sess url kwargs ;;
   raise_for_status resp ;;;
   v <- resp_json resp ;;
   k v) s
  = k js (after_get s (mkRequest sess url kwargs)).
Proof.
  intros (resp & N & H & J).
  unfold bind at 1. unfold get. rewrite N.
  unfold bind at 1. unfold raise_for_status. rewrite H. cbn [String.eqb ret].
  unfold bind at 1. unfold resp_json. rewrite J. reflexivity.
Qed.

(** A request not answered with JSON: the exception, after the request. *)
Lemma get_json_fails (w : World) (sess : Session) (url : PyVal)
  (kwargs : list (string * PyVal)) (s : State) {A : Type}
  (k : PyVal -> M A) :
  (forall js, ~ json_reply (net w (n_requests s) (mkRequest sess url kwargs))
                  js) ->
  exists e,
    (resp <- get w sess url kwargs ;;
     raise_for_status resp ;;;
     v <- resp_json resp ;;
     k v) s
    = Some (Raise e, after_get s (mkRequest sess url kwargs)).
Proof.
  intros N. unfold bind at 1. unfold get.
  destruct (net w (n_requests s) (mkRequest sess url kwargs)) as [resp | e]
    eqn:O; [ | now exists e].
  unfold bind at 1. unfold raise_for_status.
  destruct (String.eqb_spec (http_error_msg resp) "") as [H | H];
    [ | now eexists].
  cbn [ret]. unfold bind at 1. unfold resp_json.
  destruct (json_loads (text resp)) as [js | ] eqn:J; [ | now eexists].
  elim (N js). now exists resp.
Qed.

Lemma json_reply_dec (o : Outcome) :
  (exists js, json_reply o js) \/ (forall js, ~ json_reply o js).
Proof.
  destruct o as [resp | e].
  - destruct (String.eqb_spec (http_error_msg resp) "") as [H | H].
    + destruct (json_loads (text resp)) as [js | ] eqn:J.
      * left. exists js, resp. now repeat split.
      * right. intros js (r & [= <-] & _ & J'). congruence.
    + right. intros js (r & [= <-] & H' & _). contradiction.
  - right. intros js (r & [=] & _).
Qed.

(** X6: when the metadata are an object, [get_aid_cid] looks for [aid]
    first: without it the error is that of [aid], whatever [cid] is; with
    it and without [cid] the error is that of [cid]; with both it returns
    them as they are.  In each case it made one request, outside the
    session. *)
Theorem get_aid_cid_checks_aid_first (w : World) (bvid : PyVal) (s : State)
  (js : PyVal) (data : list (string * PyVal)) :
  json_reply (net w (n_requests s) (aid_cid_request bvid)) js ->
  py_get js "data" (PDict []) = Ok (PDict data) ->
  let s' := after_get s (aid_cid_request bvid) in
  rq_session (aid_cid_request bvid) = requests_Session
  /\ (missing (dict_lookup "aid" data) ->
      get_aid_cid w bvid s = Some (Ok (Failed aid_missing), s'))
  /\ (forall aid,
         dict_lookup "aid" data = Some aid -> is_none aid = false ->
         missing (dict_lookup "cid" data) ->
         get_aid_cid w bvid s = Some (Ok (Failed cid_missing), s'))
  /\ (forall aid cid,
         dict_lookup "aid" data = Some aid -> is_none aid = false ->
         dict_lookup "cid" data = Some cid -> is_none cid = false ->
         get_aid_cid w bvid s = Some (Ok (Returned (aid, cid)), s')).
Proof.
  intros R Da s'. split; [reflexivity | ].
  assert (E : get_aid_cid w bvid s
              = (data0 <- lift (py_get js "data" (PDict [])) ;;
                 aid <- lift (py_get data0 "aid" PNone) ;;
                 cid <- lift (py_get data0 "cid" PNone) ;;
                 if is_none aid then ret (Failed aid_missing)
                 else if is_none cid then ret (Failed cid_missing)
                 else ret (Returned (aid, cid))) s').
  { unfold get_aid_cid, requests_get. now rewrite (get_json _ _ _ _ _ js). }
  rewrite E, Da. unfold bind, lift, py_get, ret. clear E.
  split; [ | split].
  - intros [-> | ->]; now destruct (dict_lookup "cid" data).
  - intros aid A N [C | C]; rewrite A, C; cbn; now rewrite N.
  - intros aid cid A N C N'. rewrite A, C. cbn. now rewrite N, N'.
Qed.

Lemma get_aid_cid_checks_aid_first_witness :
  get_aid_cid world_without_aid (PStr "BV1xx411c7mD") initial
  = Some (Ok (Failed aid_missing),
          after_get initial (aid_cid_request (PStr "BV1xx411c7mD"))).
Proof.
  refine (proj1 (proj2 (get_aid_cid_checks_aid_first world_without_aid
                          (PStr "BV1xx411c7mD") initial
                          (PDict [("code", PInt 0);
                                  ("data", PDict [("cid", PInt 2)])])
                          [("cid", PInt 2)] _ eq_refl)) _).
  - eexists. repeat split.
  - now left.
Defined.

(** X7: when the metadata are there and are no object (they are [null],
    say), or when the body is no object, [get_aid_cid] raises an
    [AttributeError], not the error of [cus_exceptions]. *)
Theorem get_aid_cid_data_no_object (w : World) (bvid : PyVal) (s : State)
  (js : PyVal) :
  json_reply (net w (n_requests s) (aid_cid_request bvid)) js ->
  (forall data, py_get js "data" (PDict []) <> Ok (PDict data)) ->
  exists e,
    get_aid_cid w bvid s
    = Some (Raise e, after_get s (aid_cid_request bvid))
    /\ exc_class e = AttributeError.
Proof.
  intros R N.
  unfold get_aid_cid, requests_get. rewrite (get_json _ _ _ _ _ js _ R).
  unfold bind at 1. unfold lift at 1.
  destruct (py_get js "data" (PDict [])) as [v | e] eqn:Da.
  - destruct v as [ | b | n | m x | c | t | l | d];
      try (eexists; split; reflexivity).
    now elim (N d).
  - exists e. split; [reflexivity | ].
    unfold py_get in Da.
    destruct js as [ | b | n | m x | c | t | l | d];
      try (injection Da as <-; reflexivity).
    now destruct (dict_lookup "data" d).
Qed.

Lemma get_aid_cid_data_no_object_witness :
  exists e,
    get_aid_cid world_null_data (PStr "BV1xx411c7mD") initial
    = Some (Raise e,
            after_get initial (aid_cid_request (PStr "BV1xx411c7mD")))
    /\ exc_class e = AttributeError.
Proof.
  apply (get_aid_cid_data_no_object world_null_data (PStr "BV1xx411c7mD")
           initial (PDict [("code", PInt (-400)); ("data", PNone)])).
  - eexists. repeat split.
  - intros data. discriminate.
Defined.

Lemma get_aid_cid_state (w : World) (bvid : PyVal) (s : State) :
  exists r,
    get_aid_cid w bvid s = Some (r, after_get s (aid_cid_request bvid))
    /\ forall aid cid,
         r = Ok (Returned (aid, cid)) ->
         is_none aid = false /\ is_none cid = false.
Proof.
  destruct (json_reply_dec (net w (n_requests s) (aid_cid_request bvid)))
    as [(js & R) | N].
  - unfold get_aid_cid, requests_get. rewrite (get_json _ _ _ _ _ js _ R).
    unfold bind, lift, ret.
    destruct (py_get js "data" (PDict [])) as [d | e];
      [ | eexists; split; [reflexivity | discriminate]].
    destruct (py_get d "aid" PNone) as [a | e];
      [ | eexists; split; [reflexivity | discriminate]].
    destruct (py_get d "cid" PNone) as [c | e];
      [ | eexists; split; [reflexivity | discriminate]].
    destruct (is_none a) eqn:Na;
      [eexists; split; [reflexivity | discriminate] | ].
    destruct (is_none c) eqn:Nc;
      [eexists; split; [reflexivity | discriminate] | ].
    eexists; split; [reflexivity | ]. now intros aid cid [= <- <-].
  - unfold get_aid_cid, requests_get.
    destruct (get_json_fails w requests_Session (PStr view_url)
                [("params", PDict [("bvid", bvid)]);
                 ("headers", PDict [("User-Agent", PStr "Mozilla/5.0")]);
                 ("timeout", PInt 5)] s
                (fun js =>
                   data <- lift (py_get js "data" (PDict [])) ;;
                   aid <- lift (py_get data "aid" PNone) ;;
                   cid <- lift (py_get data "cid" PNone) ;;
                   if is_none aid
                   then ret (Failed (AidRetrievalError "获取 aid 失败"))
                   else if is_none cid
                   then ret (Failed (CidRetrievalError "获取 cid 失败"))
                   else ret (Returned (aid, cid))) N) as (e & E).
    exists (Raise e). split; [exact E | discriminate].
Qed.

(** X8: whatever happens, [_get_quality_list] makes one request or two,
    none of them through the session, so that none carries its cookies: the
    one of [get_aid_cid] and, only when that gave both identifiers, the
    one for the qualities, with the headers it was given.  Without the two
    identifiers it never returns a list. *)
Theorem get_quality_list_requests (w : World)
  (bvid sessdata bili_jct dede_user_id headers : PyVal) (s : State) :
  exists r s',
    _get_quality_list w bvid sessdata bili_jct dede_user_id headers s
    = Some (r, s')
    /\ ((trace s' = (trace s ++ [EvGet (aid_cid_request bvid)])%list
         /\ forall q, r <> Ok (Returned q))
        \/ exists aid cid,
             is_none aid = false /\ is_none cid = false
             /\ trace s'
                = (trace s
                   ++ [EvGet (aid_cid_request bvid);
                       EvGet (playurl_request aid bvid cid headers)])%list
             /\ rq_session (playurl_request aid bvid cid headers)
                = requests_Session).
Proof.
  destruct (get_aid_cid_state w bvid s) as (r & E & Ids).
  unfold _get_quality_list. unfold bind at 1. rewrite E.
  destruct r as [[[aid cid] | e] | e].
  - destruct (Ids aid cid eq_refl) as [Na Nc].
    set (s1 := after_get s (aid_cid_request bvid)).
    destruct (json_reply_dec
                (net w (n_requests s1) (playurl_request aid bvid cid headers)))
      as [(js & R) | N].
    + unfold requests_get. rewrite (get_json _ _ _ _ _ js _ R).
      match goal with
      | |- exists r s', ?m ?st = _ /\ _ =>
          assert (X : exists r, m st = Some (r, st))
      end.
      { unfold bind, lift, ret.
        destruct (py_get js "data" (PDict [])) as [d | e]; [ | now eexists].
        destruct (py_get d "accept_quality" (PList [])) as [q | e];
          now eexists. }
      destruct X as (r & X). exists r. eexists. split; [exact X | ].
      right. exists aid, cid. repeat split; try assumption.
      cbn [after_get trace]. subst s1. cbn [after_get trace].
      now rewrite <- app_assoc.
    + unfold requests_get.
      destruct (get_json_fails w requests_Session (PStr playurl_url)
                  [("headers", headers);
                   ("params", playurl_params aid bvid cid);
                   ("timeout", PInt 5)] s1
                  (fun js =>
                     data <- lift (py_get js "data" (PDict [])) ;;
                     qualities <- lift (py_get data "accept_quality"
                                          (PList [])) ;;
                     ret (Returned qualities)) N) as (e & X).
      exists (Raise e). eexists. split; [exact X | ].
      right. exists aid, cid. repeat split; try assumption.
      cbn [after_get trace]. subst s1. cbn [after_get trace].
      now rewrite <- app_assoc.
  - do 2 eexists. split; [reflexivity | ]. left. split; [reflexivity | ].
    discriminate.
  - do 2 eexists. split; [reflexivity | ]. left. split; [reflexivity | ].
    discriminate.
Qed.

(* ===================================================================== *)
(** * More properties of the resilient fetch and of the resolution *)
(* ===================================================================== *)

Lemma attempt_outcome_ok (w : World) (n : nat) (rq : Request)
  (resp : Response) :
  attempt_outcome w n rq = Ok resp -> ~ 400 <= status_code resp < 600.
Proof.
  unfold attempt_outcome. destruct (net w n rq) as [r | e]; [ | discriminate].
  destruct (String.eqb (http_error_msg r) "") eqn:H; [ | discriminate].
  intros [= ->] R. apply http_error_msg_error_status in R. congruence.
Qed.

(** The classes of the outer [except] clauses are classes of [Exception]. *)
Lemma fallback_is_exception (e : exn) :
  isinstance e Exception = false ->
  isinstance_any e fallback_classes = false.
Proof.
  destruct e as [c m]. unfold isinstance_any, isinstance. cbn [exc_class].
  destruct c; vm_compute; congruence.
Qed.

Lemma fetch_by_tiers_clean (w : World) (url : PyVal)
  (kwargs : list (string * PyVal)) (s : State) :
  clean (fst (fetch_by_tiers w url kwargs s)).
Proof.
  unfold fetch_by_tiers.
  destruct (attempt_outcome w (n_requests s) (tier1_request url kwargs))
    as [r1 | e1] eqn:O1; [now apply attempt_outcome_ok in O1 | ].
  destruct (isinstance_any e1 fallback_classes) eqn:F1; [ | exact F1].
  destruct (attempt_outcome w (S (n_requests s)) (tier2_request url kwargs))
    as [r2 | e2] eqn:O2; [now apply attempt_outcome_ok in O2 | ].
  destruct (isinstance_any e2 fallback_classes) eqn:F2; [ | exact F2].
  destruct (attempt_outcome w (S (S (n_requests s)))
              (tier3_request url kwargs)) as [r3 | e3] eqn:O3;
    [now apply attempt_outcome_ok in O3 | ].
  destruct (isinstance e3 Exception) eqn:F3;
    [reflexivity | now apply fallback_is_exception].
Qed.

(** X9: [_safe_get] always comes to an end, and cleanly: a response it
    returns never has the status of an error (400 to 599), and an exception
    that leaves it is never one of the classes its [except] clauses name
    ([SSLError], [MaxRetryError], [RequestException]). *)
Theorem safe_get_result_is_clean (w : World) (url : PyVal)
  (kwargs : list (string * PyVal)) (s : State) :
  exists r s',
    _safe_get w url kwargs s = Some (r, s')
    /\ match r with
       | Ok resp => ~ 400 <= status_code resp < 600
       | Raise e => isinstance_any e fallback_classes = false
       end.
Proof.
  exists (fst (fetch_by_tiers w url kwargs s)),
         (snd (fetch_by_tiers w url kwargs s)).
  split.
  - rewrite safe_get_by_tiers. now destruct (fetch_by_tiers w url kwargs s).
  - apply fetch_by_tiers_clean.
Qed.

Lemma safe_get_raises_no_request_exception (w : World) (url : PyVal)
  (kwargs : list (string * PyVal)) (s s' : State) (e : exn) :
  _safe_get w url kwargs s = Some (Raise e, s') ->
  isinstance_any e [RequestException] = false.
Proof.
  rewrite safe_get_by_tiers. intros E.
  pose proof (fetch_by_tiers_clean w url kwargs s) as C.
  injection E as E. rewrite E in C. cbn [fst clean] in C.
  unfold isinstance_any, fallback_classes in *. cbn [existsb] in *.
  apply orb_false_iff in C as [_ C]. apply orb_false_iff in C as [_ C].
  exact C.
Qed.

(** X10: an exception that leaves the fetch of the page leaves
    [get_bv_info] as it is, in the state the fetch left: it is no
    [RequestException], so the [except] clause around the fetch never runs
    and its message is never made. *)
Theorem get_bv_info_page_error_unwrapped (w : World) (bvid : string)
  (sessdata bili_jct dede_user_id : PyVal) (s s1 : State) (e : exn) :
  _safe_get w (page_url bvid) [("timeout", PInt 10)]
    (cookies_set sessdata bili_jct dede_user_id s)
  = Some (Raise e, s1) ->
  isinstance e RequestException = false
  /\ get_bv_info w bvid sessdata bili_jct dede_user_id s
     = Some (Raise e, s1).
Proof.
  intros Page.
  pose proof (safe_get_raises_no_request_exception _ _ _ _ _ _ Page) as N.
  split.
  - unfold isinstance_any in N. cbn [existsb] in N.
    now rewrite orb_false_r in N.
  - unfold get_bv_info.
    erewrite bind_ok by reflexivity.
    unfold bind at 1. unfold try_except.
    unfold cookies_set, credential_cookies, page_url in Page.
    unfold bind at 1. rewrite Page. now rewrite N.
Qed.

Lemma get_bv_info_page_error_unwrapped_witness :
  exists s1,
    get_bv_info (world_of net_down) "BV1xx411c7mD" (PStr "s") (PStr "j")
      (PStr "u") initial
    = Some (Raise (mkExn RuntimeError
                     (all_failed_msg tls_error refused refused)), s1).
Proof.
  eexists.
  refine (proj2 (get_bv_info_page_error_unwrapped (world_of net_down)
                   "BV1xx411c7mD" (PStr "s") (PStr "j") (PStr "u")
                   initial _ _ _)).
  vm_compute. reflexivity.
Defined.

(** What is left of [get_bv_info] once the manifest is read. *)
Lemma get_bv_info_after_manifest (w : World) (bvid : string)
  (sessdata bili_jct dede_user_id : PyVal) (s s1 : State) (resp : Response)
  (group1 : string) (playinfo : PyVal) :
  _safe_get w (page_url bvid) [("timeout", PInt 10)]
    (cookies_set sessdata bili_jct dede_user_id s)
  = Some (Ok resp, s1) ->
  search_playinfo (text resp) = Some group1 ->
  json_loads group1 = Some playinfo ->
  get_bv_info w bvid sessdata bili_jct dede_user_id s
  = (data <- lift (py_get playinfo "data" (PDict [])) ;;
     dash <- lift (py_get data "dash" (PDict [])) ;;
     videos <- lift (py_get dash "video" (PList [PDict []])) ;;
     video0 <- lift (getitem0 videos) ;;
     video_url <- lift (py_get video0 "baseUrl" PNone) ;;
     audios <- lift (py_get dash "audio" (PList [PDict []])) ;;
     audio0 <- lift (getitem0 audios) ;;
     audio_url <- lift (py_get audio0 "baseUrl" PNone) ;;
     data' <- lift (py_get playinfo "data" (PDict [])) ;;
     qualities <- lift (py_get data' "accept_quality" (PList [])) ;;
     title <- try_except
                (info_resp <- _safe_get w (info_api bvid)
                                [("timeout", PInt 5)] ;;
                 js <- resp_json info_resp ;;
                 d <- lift (py_get js "data" (PDict [])) ;;
                 lift (py_get d "title" (PStr "")))
                [RequestException]
                (fun e =>
                   raise (mkExn RuntimeError
                            ("无法获取视频信息: " ++ exc_str e))) ;;
     ret {| title := title;
            video_url := video_url;
            audio_url := audio_url;
            accept_quality := qualities;
            get_video_infos := fun _ =>
              [("bvid", PStr bvid); ("title", title);
               ("video_url", video_url)];
            get_audio_infos := fun _ =>
              [("bvid", PStr bvid); ("title", title);
               ("audio_url", audio_url)] |}) s1.
Proof.
  intros Page Found Parsed.
  unfold get_bv_info.
  erewrite bind_ok by reflexivity.
  erewrite bind_ok
    by (apply try_except_ok; erewrite bind_ok by exact Page; reflexivity).
  rewrite Found. unfold json_loads_M. rewrite Parsed.
  erewrite bind_ok by reflexivity. reflexivity.
Qed.

(** X11: a manifest without the section of the streams (no data, or data
    without [dash]) is no error: [get_bv_info] returns [None] for both
    addresses, and its closures hand [None] to the downloads. *)
Theorem get_bv_info_without_streams (w : World) (bvid : string)
  (sessdata bili_jct dede_user_id : PyVal) (s s1 s2 : State)
  (resp info_resp : Response) (group1 : string)
  (top : list (string * PyVal)) (js the_title : PyVal) :
  _safe_get w (page_url bvid) [("timeout", PInt 10)]
    (cookies_set sessdata bili_jct dede_user_id s)
  = Some (Ok resp, s1) ->
  search_playinfo (text resp) = Some group1 ->
  json_loads group1 = Some (PDict top) ->
  (dict_lookup "data" top = None
   \/ exists data,
        dict_lookup "data" top = Some (PDict data)
        /\ dict_lookup "dash" data = None) ->
  _safe_get w (info_api bvid) [("timeout", PInt 5)] s1
  = Some (Ok info_resp, s2) ->
  json_loads (text info_resp) = Some js ->
  title_of js = Ok the_title ->
  exists info,
    get_bv_info w bvid sessdata bili_jct dede_user_id s = Some (Ok info, s2)
    /\ video_url info = PNone
    /\ audio_url info = PNone
    /\ get_video_infos info tt
       = [("bvid", PStr bvid); ("title", the_title); ("video_url", PNone)]
    /\ get_audio_infos info tt
       = [("bvid", PStr bvid); ("title", the_title); ("audio_url", PNone)].
Proof.
  intros Page Found Parsed NoDash Info ParsedInfo Title.
  rewrite (get_bv_info_after_manifest _ _ _ _ _ _ _ _ _ _ Page Found Parsed).
  match goal with
  | |- context [try_except ?b ?c ?h] =>
      remember (try_except b c h) as fetch_title eqn:F
  end.
  assert (T : fetch_title s1 = Some (Ok the_title, s2)).
  { subst fetch_title.
    apply try_except_ok. erewrite bind_ok by exact Info.
    unfold resp_json. rewrite ParsedInfo. erewrite bind_ok by reflexivity.
    unfold title_of, rbind in Title. unfold bind, lift.
    destruct (py_get js "data" (PDict [])); [ | discriminate].
    now rewrite Title. }
  clear F. unfold bind, lift, py_get.
  destruct NoDash as [D | (data & D & Da)].
  - rewrite D. cbn. rewrite T.
    eexists. split; [reflexivity | now repeat split].
  - rewrite D, Da. cbn.
    destruct (dict_lookup "accept_quality" data); rewrite T;
      (eexists; split; [reflexivity | now repeat split]).
Qed.

Lemma get_bv_info_without_streams_witness :
  exists info s2,
    get_bv_info world_bare_manifest "BV1xx411c7mD" (PStr "s") (PStr "j")
      (PStr "u") initial = Some (Ok info, s2)
    /\ video_url info = PNone
    /\ audio_url info = PNone.
Proof.
  destruct (get_bv_info_without_streams world_bare_manifest "BV1xx411c7mD"
              (PStr "s") (PStr "j") (PStr "u") initial
              (after_get
                 (cookies_set (PStr "s") (PStr "j") (PStr "u") initial)
                 (tier1_request (page_url "BV1xx411c7mD")
                    [("timeout", PInt 10)]))
              (after_get
                 (after_get
                    (cookies_set (PStr "s") (PStr "j") (PStr "u") initial)
                    (tier1_request (page_url "BV1xx411c7mD")
                       [("timeout", PInt 10)]))
                 (tier1_request (info_api "BV1xx411c7mD")
                    [("timeout", PInt 5)]))
              bare_manifest_page view_reply
              (dq "{'code':0,'data':{'accept_quality':[]}}")
              [("code", PInt 0);
               ("data", PDict [("accept_quality", PList [])])]
              (PDict [("code", PInt 0);
                      ("data", PDict [("aid", PInt 1); ("cid", PInt 2);
                                      ("title", PStr "T")])])
              (PStr "T"))
    as (info & E & V & A & _).
  - vm_compute. reflexivity.
  - vm_compute. reflexivity.
  - vm_compute. reflexivity.
  - right. eexists. split; reflexivity.
  - vm_compute. reflexivity.
  - vm_compute. reflexivity.
  - reflexivity.
  - exists info. eexists. split; [exact E | now split].
Defined.

(** X12: a manifest whose section of the streams lists no video, or a
    video and no audio, makes [get_bv_info] raise an [IndexError] in the
    state the fetch of the page left: the metadata are not asked for. *)
Theorem get_bv_info_empty_stream_list (w : World) (bvid : string)
  (sessdata bili_jct dede_user_id : PyVal) (s s1 : State)
  (resp : Response) (group1 : string)
  (top data dash : list (string * PyVal)) :
  _safe_get w (page_url bvid) [("timeout", PInt 10)]
    (cookies_set sessdata bili_jct dede_user_id s)
  = Some (Ok resp, s1) ->
  search_playinfo (text resp) = Some group1 ->
  json_loads group1 = Some (PDict top) ->
  dict_lookup "data" top = Some (PDict data) ->
  dict_lookup "dash" data = Some (PDict dash) ->
  (dict_lookup "video" dash = Some (PList [])
   \/ (exists video0 videos,
          dict_lookup "video" dash = Some (PList (PDict video0 :: videos)))
      /\ dict_lookup "audio" dash = Some (PList [])) ->
  get_bv_info w bvid sessdata bili_jct dede_user_id s
  = Some (Raise (mkExn IndexError "list index out of range"), s1).
Proof.
  intros Page Found Parsed D Da Empty.
  rewrite (get_bv_info_after_manifest _ _ _ _ _ _ _ _ _ _ Page Found Parsed).
  unfold bind at 1. unfold lift at 1. unfold py_get at 1. rewrite D.
  unfold bind at 1. unfold lift at 1. unfold py_get at 1. rewrite Da.
  destruct Empty as [V | [(video0 & videos & V) A]].
  - unfold bind at 1. unfold lift at 1. unfold py_get at 1. rewrite V.
    reflexivity.
  - unfold bind at 1. unfold lift at 1. unfold py_get at 1. rewrite V.
    unfold bind at 1. unfold lift at 1. cbn [getitem0].
    unfold bind at 1. unfold lift at 1. unfold py_get at 1.
    destruct (dict_lookup "baseUrl" video0);
      unfold bind at 1; unfold lift at 1; unfold py_get at 1; rewrite A;
      reflexivity.
Qed.

Lemma get_bv_info_empty_stream_list_witness :
  get_bv_info world_empty_list "BV1xx411c7mD" (PStr "s") (PStr "j")
    (PStr "u") initial
  = Some (Raise (mkExn IndexError "list index out of range"),
          after_get (cookies_set (PStr "s") (PStr "j") (PStr "u") initial)
            (tier1_request (page_url "BV1xx411c7mD")
               [("timeout", PInt 10)])).
Proof.
  apply (get_bv_info_empty_stream_list world_empty_list "BV1xx411c7mD"
           (PStr "s") (PStr "j") (PStr "u") initial _ empty_list_page
           (dq "{'data':{'dash':{'video':[],'audio':[{'baseUrl':'A1'}]}}}")
           [("data",
             PDict [("dash",
                     PDict [("video", PList []);
                            ("audio",
                             PList [PDict [("baseUrl", PStr "A1")]])])])]
           [("dash",
             PDict [("video", PList []);
                    ("audio", PList [PDict [("baseUrl", PStr "A1")]])])]
           [("video", PList []);
            ("audio", PList [PDict [("baseUrl", PStr "A1")]])]).
  - vm_compute. reflexivity.
  - vm_compute. reflexivity.
  - vm_compute. reflexivity.
  - reflexivity.
  - reflexivity.
  - now left.
Defined.

(* ===================================================================== *)
(** * More properties of the QR login *)
(* ===================================================================== *)




Lemma last_round_intro (key : PyVal) (tail : list Event) :
  (forall z, ~ In (EvSleep z) tail) ->
  (requests_of tail = [] \/ exists u, requests_of tail = [confirm_request u]) ->
  last_round key (EvGet (poll_request key) :: tail).
Proof. intros A B. now exists tail. Qed.

(** The case analysis of a program on what it asks first. *)
Ltac innermost_case :=
  match goal with
  | |- context [match ?x with _ => _ end] =>
      lazymatch x with
      | context [match _ with _ => _ end] => fail
      | _ => destruct x eqn:?
      end
  end.

Lemma poll_round_shape (w : World) (key : PyVal) (interval timeout start : Z)
  (s s' : State) (r : result (option bool)) :
  poll_round w key interval timeout start s = Some (r, s') ->
  (r = Ok None
   /\ exists line,
        trace s' = (trace s ++ pending_round key interval line)%list)
  \/ (r <> Ok None
      /\ exists last,
           trace s' = (trace s ++ last)%list /\ last_round key last).
Proof.
  unfold poll_round, poll_wait, bind, get, raise_for_status, resp_json, lift,
    time_time, print, print_noeol, sleep, emit, ret, raise, log.
  cbn [trace n_requests n_clock].
  repeat (innermost_case; cbv beta; cbn [trace n_requests n_clock]).
  all: intros [= <- <-]; cbn [trace].
  all: try (left; split; [reflexivity | ];
            eexists; unfold pending_round; rewrite <- ?app_assoc; reflexivity).
  all: right; (split; [discriminate | ]).
  all: eexists; (split; [rewrite <- ?app_assoc; cbn [app]; reflexivity | ]).
  all: apply last_round_intro; cbn.
  all: try (intros z H; intuition discriminate).
  all: try (now left).
  all: try (right; eexists; reflexivity).
Qed.

Lemma poll_loop_shape (w : World) (key : PyVal) (interval timeout start : Z)
  (fuel : nat) :
  forall s r s',
    while_true fuel (poll_round w key interval timeout start) s
    = Some (r, s') ->
    exists lines last,
      trace s'
      = (trace s ++ flat_map (pending_round key interval) lines ++ last)%list
      /\ last_round key last.
Proof.
  induction fuel as [ | fuel IH]; intros s r s'; cbn [while_true].
  - discriminate.
  - destruct (poll_round w key interval timeout start s)
      as [[[[a | ] | e] s1] | ] eqn:E; [ | | | discriminate].
    + intros [= <- <-].
      destruct (poll_round_shape _ _ _ _ _ _ _ _ E)
        as [[X _] | (_ & last & T & L)]; [discriminate X | ].
      now exists [], last.
    + intros W.
      destruct (poll_round_shape _ _ _ _ _ _ _ _ E)
        as [(_ & line & T) | [X _]]; [ | now elim X].
      destruct (IH _ _ _ W) as (lines & last & T' & L).
      exists (line :: lines), last. split; [ | exact L].
      rewrite T', T. cbn [flat_map]. now rewrite <- !app_assoc.
    + intros [= <- <-].
      destruct (poll_round_shape _ _ _ _ _ _ _ _ E)
        as [[X _] | (_ & last & T & L)]; [discriminate X | ].
      now exists [], last.
Qed.

(** X15: whatever [poll_login] comes to, what it did is a row of rounds
    that each ask for the status, print a line and pause for the interval,
    and a last round that asks for the status and does not pause: two
    requests for the status are always a pause apart, and nothing is asked
    but the status of the key and, in the last round, the confirmation. *)
Theorem poll_login_pauses_between_polls (w : World) (fuel : nat)
  (key : PyVal) (interval timeout : Z) (s s' : State) (r : result bool) :
  poll_login w fuel key interval timeout s = Some (r, s') ->
  exists lines last,
    trace s'
    = (trace s ++ flat_map (pending_round key interval) lines ++ last)%list
    /\ last_round key last.
Proof.
  unfold poll_login, bind, time_time. intros W.
  apply poll_loop_shape in W. exact W.
Qed.

Lemma poll_login_pauses_between_polls_witness :
  exists r s' lines last,
    poll_login world_scan 4 (PStr "K1") 2 180 initial = Some (r, s')
    /\ trace s'
       = (flat_map (pending_round (PStr "K1") 2) lines ++ last)%list
    /\ last_round (PStr "K1") last.
Proof.
  assert (E : exists r s',
             poll_login world_scan 4 (PStr "K1") 2 180 initial
             = Some (r, s')) by (vm_compute; eauto).
  destruct E as (r & s' & E). exists r, s'.
  destruct (poll_login_pauses_between_polls _ _ _ _ _ _ _ _ E)
    as (lines & last & T & L).
  exists lines, last. now repeat split.
Defined.

(** X16: [poll_login] looks at the time-out only after a poll, and only
    when the status is one that lets it go on.  So it always polls once:
    even when the time allowed is over at the first poll (a time-out of
    zero, say), a status that goes on raises the [TimeoutError] after one
    request and no pause, while the status of an expired QR code still
    returns [False]. *)
Theorem poll_login_polls_before_timing_out (w : World) (fuel : nat)
  (key : PyVal) (interval timeout : Z) (s : State) :
  (forall z msg d,
      poll_reply (net w (n_requests s) (poll_request key)) (PInt z) d ->
      pending_msg z = Some msg ->
      timeout <= elapsed_between w (n_clock s) (S (n_clock s)) ->
      poll_login w (S fuel) key interval timeout s
      = Some (Raise (mkExn TimeoutError "扫码登录超时"),
              {| trace :=
                   (trace s
                    ++ [EvGet (poll_request key);
                        EvPrint (progress_line
                                   (elapsed_between w (n_clock s)
                                      (S (n_clock s))) msg)])%list;
                 n_requests := S (n_requests s);
                 n_clock := S (S (n_clock s)) |}))
  /\ (forall d,
         poll_reply (net w (n_requests s) (poll_request key)) (PInt 86038) d ->
         poll_login w (S fuel) key interval timeout s
         = Some (Ok false,
                 {| trace :=
                      (trace s
                       ++ [EvGet (poll_request key);
                           EvPrint (expired_line
                                      (elapsed_between w (n_clock s)
                                         (S (n_clock s))))])%list;
                    n_requests := S (n_requests s);
                    n_clock := S (S (n_clock s)) |})).
Proof.
  split.
  - intros z msg d R P T. unfold elapsed_between in T.
    unfold poll_login, bind, time_time.
    apply while_true_raise.
    exact (poll_round_timeout w key interval timeout (clock w (n_clock s))
             (clock_read s) z msg d R P T).
  - intros d R. unfold poll_login, bind, time_time.
    apply while_true_return.
    exact (poll_round_expired w key interval timeout (clock w (n_clock s))
             (clock_read s) d R).
Qed.

Lemma poll_login_polls_before_timing_out_witness :
  poll_login world_scan 1 (PStr "K1") 2 0 initial
  = Some (Raise (mkExn TimeoutError "扫码登录超时"),
          {| trace :=
               [EvGet (poll_request (PStr "K1"));
                EvPrint (progress_line 0 "未扫码")];
             n_requests := 1;
             n_clock := 2 |}).
Proof.
  apply (proj1 (poll_login_polls_before_timing_out world_scan 0 (PStr "K1")
                  2 0 initial)
           86101 "未扫码"
           [("url", PStr ""); ("refresh_token", PStr "");
            ("timestamp", PInt 0); ("code", PInt 86101);
            ("message", PStr "")]).
  - do 3 eexists. repeat split; vm_compute; reflexivity.
  - reflexivity.
  - vm_compute. discriminate.
Defined.

(* ===================================================================== *)
(** * More properties of the credentials *)
(* ===================================================================== *)


Lemma extract_login_cookies_entries (w : World) (cookies : list Cookie) :
  exists v1 x1 v2 x2 v3 x3,
    extract_login_cookies_with_expiry w cookies
    = PDict [("SESSDATA", credential_entry v1 x1);
             ("bili_jct", credential_entry v2 x2);
             ("DedeUserID", credential_entry v3 x3)].
Proof.
  unfold extract_login_cookies_with_expiry, credential_names.
  cbn [fold_left].
  destruct (find_cookie cookies "SESSDATA"),
           (find_cookie cookies "bili_jct"),
           (find_cookie cookies "DedeUserID");
    cbn; do 6 eexists; reflexivity.
Qed.


Lemma login_cached_usable (w : World) (temp_info : PyVal)
  (e1 e2 e3 : option DateTime) (s : State) :
  field_expiry w temp_info "SESSDATA" e1 ->
  field_expiry w temp_info "bili_jct" e2 ->
  field_expiry w temp_info "DedeUserID" e3 ->
  usable [e1; e2; e3] (utc_now w) ->
  exists v1 v2 v3,
    login_cached w temp_info s
    = Some (Ok (Some temp_info),
            log (EvPrint cache_loaded_line)
              (log (EvCookies (credential_cookies v1 v2 v3)) s)).
Proof.
  intros F1 F2 F3 U. apply usableb_spec in U.
  assert (Check : all_unexpired w temp_info (utc_now w) credential_names
                  = Ok true).
  { unfold credential_names.
    rewrite (all_unexpired_step w temp_info _ _ _ e1 F1).
    rewrite (all_unexpired_step w temp_info _ _ _ e2 F2).
    rewrite (all_unexpired_step w temp_info _ _ _ e3 F3).
    cbn [all_unexpired usableb forallb] in *.
    destruct e1 as [t1 | ], e2 as [t2 | ], e3 as [t3 | ];
      repeat match goal with
             | |- context [dt_gt ?t (utc_now w)] =>
                 destruct (dt_gt t (utc_now w))
             end; try reflexivity; discriminate U. }
  destruct (field_expiry_value w temp_info _ _ F1) as (Tr & v1 & V1).
  destruct (field_expiry_value w temp_info _ _ F2) as (_ & v2 & V2).
  destruct (field_expiry_value w temp_info _ _ F3) as (_ & v3 & V3).
  exists v1, v2, v3. unfold login_cached. rewrite Tr.
  unfold try_except, bind at 1, lift at 1. rewrite Check.
  unfold bind, lift. rewrite V1, V2, V3. reflexivity.
Qed.

(** X18: with a credential file whose three credentials are usable,
    [login] returns what the file holds after it set the cookies and said
    so: it makes no request, shows no QR code and writes no file, whatever
    the fuel of its loop, which it does not enter. *)
Theorem login_uses_cache_without_network (w : World) (fuel : nat)
  (file_path : string) (s : State) (txt : string) (temp_info : PyVal)
  (e1 e2 e3 : option DateTime) :
  makedirs w "data" = None ->
  file_read w file_path = Ok txt ->
  json_loads txt = Some temp_info ->
  field_expiry w temp_info "SESSDATA" e1 ->
  field_expiry w temp_info "bili_jct" e2 ->
  field_expiry w temp_info "DedeUserID" e3 ->
  usable [e1; e2; e3] (utc_now w) ->
  exists v1 v2 v3,
    login w fuel file_path s
    = Some (Ok temp_info,
            {| trace :=
                 (trace s
                  ++ [EvMakedirs "data";
                      EvCookies (credential_cookies v1 v2 v3);
                      EvPrint cache_loaded_line])%list;
               n_requests := n_requests s;
               n_clock := n_clock s |}).
Proof.
  intros Mk Rd Js F1 F2 F3 U.
  destruct (login_cached_usable w temp_info e1 e2 e3
              (log (EvMakedirs "data") s) F1 F2 F3 U) as (v1 & v2 & v3 & C).
  exists v1, v2, v3. unfold login.
  unfold bind at 1. unfold os_makedirs, bind at 1, emit. rewrite Mk.
  cbn [ret]. unfold bind at 1. unfold parse_login_info, try_except.
  rewrite Rd. unfold json_loads_M. rewrite Js. cbn [ret].
  unfold bind at 1. rewrite C. cbn [ret]. f_equal. f_equal. same_state.
Qed.

Lemma login_uses_cache_without_network_witness :
  exists info s',
    login (world_with_file good_file noon_2025_06_01) 0 login_file initial
    = Some (Ok info, s')
    /\ requests_of (trace s') = [].
Proof.
  destruct (login_uses_cache_without_network
              (world_with_file good_file noon_2025_06_01) 0 login_file
              initial good_file
              (PDict
                 [("SESSDATA",
                   PDict [("value", PStr "a");
                          ("expires", PStr "2025-12-01 08:00:00 UTC")]);
                  ("bili_jct",
                   PDict [("value", PStr "b");
                          ("expires", PStr "2025-12-01 08:00:00 UTC")]);
                  ("DedeUserID",
                   PDict [("value", PStr "c"); ("expires", PNone)])])
              (Some (mkDateTime 2025 12 1 8 0 0 0))
              (Some (mkDateTime 2025 12 1 8 0 0 0)) None)
    as (v1 & v2 & v3 & E).
  - reflexivity.
  - reflexivity.
  - vm_compute. reflexivity.
  - do 2 eexists. split; [reflexivity | split; [reflexivity | ]].
    eexists. split; [reflexivity | vm_compute; reflexivity].
  - do 2 eexists. split; [reflexivity | split; [reflexivity | ]].
    eexists. split; [reflexivity | vm_compute; reflexivity].
  - do 2 eexists. split; [reflexivity | split; reflexivity].
  - intros t [X | [X | [X | []]]]; try discriminate X;
      injection X as <-; reflexivity.
  - do 2 eexists. split; [exact E | reflexivity].
Defined.

(** X19: a credential file whose JSON value is false for Python (an empty
    object, an empty array, [null], zero, the empty string, [false]) is
    passed over without a word: [login] goes on to the QR login in the
    state it was in after it made the directory. *)
Theorem login_passes_over_empty_cache (w : World) (fuel : nat)
  (file_path : string) (s : State) (txt : string) (temp_info : PyVal) :
  makedirs w "data" = None ->
  file_read w file_path = Ok txt ->
  json_loads txt = Some temp_info ->
  truthy temp_info = false ->
  login w fuel file_path s
  = qr_login w fuel file_path (log (EvMakedirs "data") s).
Proof.
  intros Mk Rd Js Tr.
  apply (login_after_cache w fuel file_path s (log (EvMakedirs "data") s)
           (log (EvMakedirs "data") s) temp_info Mk).
  - unfold parse_login_info, try_except. rewrite Rd.
    unfold json_loads_M. now rewrite Js.
  - unfold login_cached. now rewrite Tr.
Qed.

Lemma login_passes_over_empty_cache_witness :
  login (world_with_file "{}" noon_2025_06_01) 2 login_file initial
  = qr_login (world_with_file "{}" noon_2025_06_01) 2 login_file
      (log (EvMakedirs "data") initial).
Proof.
  apply (login_passes_over_empty_cache
           (world_with_file "{}" noon_2025_06_01) 2 login_file initial
           "{}" (PDict [])); reflexivity.
Defined.

Lemma login_cached_some (w : World) (temp_info info : PyVal) (s s' : State) :
  login_cached w temp_info s = Some (Ok (Some info), s') ->
  info = temp_info
  /\ exists v1 v2 v3,
       cached_value info "SESSDATA" = Ok v1
       /\ cached_value info "bili_jct" = Ok v2
       /\ cached_value info "DedeUserID" = Ok v3.
Proof.
  unfold login_cached. destruct (truthy temp_info); [ | discriminate].
  unfold try_except, bind at 1, lift at 1.
  destruct (all_unexpired w temp_info (utc_now w) credential_names)
    as [[ | ] | e].
  - unfold bind, lift.
    destruct (cached_value temp_info "SESSDATA") as [a | x] eqn:V1.
    2:{ destruct (isinstance_any x [Exception]); discriminate. }
    destruct (cached_value temp_info "bili_jct") as [b | x] eqn:V2.
    2:{ destruct (isinstance_any x [Exception]); discriminate. }
    destruct (cached_value temp_info "DedeUserID") as [c | x] eqn:V3.
    2:{ destruct (isinstance_any x [Exception]); discriminate. }
    cbn. intros [= <- _]. split; [reflexivity | ]. now exists a, b, c.
  - discriminate.
  - destruct (isinstance_any e [Exception]); discriminate.
Qed.

Lemma login_finish_result (w : World) (file_path : string) (s s' : State)
  (info : PyVal) :
  login_finish w file_path s = Some (Ok info, s') ->
  info = extract_login_cookies_with_expiry w (cookiejar w (n_requests s)).
Proof.
  unfold login_finish.
  destruct (extract_login_cookies_entries w (cookiejar w (n_requests s)))
    as (v1 & x1 & v2 & x2 & v3 & x3 & E).
  rewrite E. unfold bind, print, emit, dump, ret. cbn.
  destruct (file_write w file_path); [discriminate | ].
  now intros [= <- _].
Qed.

(** X20: whatever [login] returns, from the file or from the cookies of a
    new login, has the three credentials, each with a value: the lookups of
    [main.py] in it cannot fail. *)
Theorem login_result_has_credentials (w : World) (fuel : nat)
  (file_path : string) (s s' : State) (info : PyVal) :
  login w fuel file_path s = Some (Ok info, s') ->
  exists v1 v2 v3,
    cached_value info "SESSDATA" = Ok v1
    /\ cached_value info "bili_jct" = Ok v2
    /\ cached_value info "DedeUserID" = Ok v3.
Proof.
  unfold login. unfold bind at 1.
  destruct (os_makedirs w "data" s) as [[[[] | e] s0] | ];
    [ | discriminate | discriminate].
  unfold bind at 1.
  destruct (parse_login_info w file_path s0) as [[[temp_info | e] s1] | ];
    [ | discriminate | discriminate].
  unfold bind at 1.
  destruct (login_cached w temp_info s1) as [[[[cached | ] | e] s2] | ] eqn:C;
    [ | | discriminate | discriminate].
  - cbn [ret]. intros [= <- _].
    now destruct (login_cached_some _ _ _ _ _ C) as [_ X].
  - unfold bind at 1.
    destruct (login_loop w fuel s2) as [[[[] | e] s3] | ];
      [ | discriminate | discriminate].
    intros F. apply login_finish_result in F. subst info.
    destruct (extract_login_cookies_entries w (cookiejar w (n_requests s3)))
      as (v1 & x1 & v2 & x2 & v3 & x3 & E).
    rewrite E. now exists v1, v2, v3.
Qed.

Lemma login_result_has_credentials_witness :
  exists v1 v2 v3,
    cached_value
      (extract_login_cookies_with_expiry world_two_timeouts [])
      "SESSDATA" = Ok v1
    /\ cached_value
         (extract_login_cookies_with_expiry world_two_timeouts [])
         "bili_jct" = Ok v2
    /\ cached_value
         (extract_login_cookies_with_expiry world_two_timeouts [])
         "DedeUserID" = Ok v3.
Proof.
  assert (E : exists s',
             login world_two_timeouts 3 "data/login_info.json" initial
             = Some (Ok (extract_login_cookies_with_expiry
                           world_two_timeouts []), s'))
    by (eexists; vm_compute; reflexivity).
  destruct E as (s' & E).
  exact (login_result_has_credentials _ _ _ _ _ _ E).
Defined.

(* ===================================================================== *)
(** * Properties of the expiry times *)
(* ===================================================================== *)

Lemma one_digit_range (lo hi : Z) (s r : string) (v : Z) :
  one_digit lo hi s = Some (v, r) -> lo <= v <= hi.
Proof.
  unfold one_digit. destruct s as [ | c s]; [discriminate | ].
  destruct (lo <=? code c - 48) eqn:A; [ | discriminate].
  destruct (code c - 48 <=? hi) eqn:B; [ | discriminate].
  cbn [andb]. intros [= <- _]. lia.
Qed.

Lemma two_digits_range (lo1 hi1 lo2 hi2 : Z) (s r : string) (v : Z) :
  two_digits lo1 hi1 lo2 hi2 s = Some (v, r) ->
  10 * lo1 + lo2 <= v <= 10 * hi1 + hi2.
Proof.
  unfold two_digits.
  destruct (one_digit lo1 hi1 s) as [[a t] | ] eqn:A; [ | discriminate].
  destruct (one_digit lo2 hi2 t) as [[b u] | ] eqn:B; [ | discriminate].
  intros X. assert (V : v = 10 * a + b) by congruence.
  apply one_digit_range in A. apply one_digit_range in B. lia.
Qed.

Lemma first_match_inv {A : Type} (alts : list (string -> option (Z * string)))
  (s : string) (k : Z -> string -> option A) (a : A) :
  first_match alts s k = Some a ->
  exists alt v r, In alt alts /\ alt s = Some (v, r) /\ k v r = Some a.
Proof.
  induction alts as [ | alt more IH]; cbn [first_match]; [discriminate | ].
  destruct (alt s) as [[v r] | ] eqn:E.
  - destruct (k v r) as [x | ] eqn:K.
    + intros [= ->]. exists alt, v, r. repeat split; [now left | easy | easy].
    + intros F. destruct (IH F) as (alt' & v' & r' & I & E' & K').
      exists alt', v', r'. repeat split; [now right | easy | easy].
  - intros F. destruct (IH F) as (alt' & v' & r' & I & E' & K').
    exists alt', v', r'. repeat split; [now right | easy | easy].
Qed.

Lemma literal_inv {A : Type} (c s : string) (k : string -> option A) (a : A) :
  literal c s k = Some a -> exists r, k r = Some a.
Proof.
  unfold literal. destruct (strip_prefix c s) as [r | ]; [ | discriminate].
  intros K. now exists r.
Qed.

Lemma spaces1_inv {A : Type} (s : string) (k : string -> option A) (a : A) :
  spaces1 s k = Some a -> exists r, k r = Some a.
Proof.
  unfold spaces1. destruct (space_prefix s) as [r | ]; [ | discriminate].
  intros K. eexists. exact K.
Qed.

Lemma alts_Y_range (alt : string -> option (Z * string)) (s r : string)
  (v : Z) :
  In alt alts_Y -> alt s = Some (v, r) -> 0 <= v <= 9999.
Proof.
  intros [<- | []].
  destruct (two_digits 0 9 0 9 s) as [[a t] | ] eqn:A; [ | discriminate].
  destruct (two_digits 0 9 0 9 t) as [[b u] | ] eqn:B; [ | discriminate].
  intros X. assert (V : v = 100 * a + b) by congruence.
  apply two_digits_range in A. apply two_digits_range in B. lia.
Qed.

Ltac alt_range :=
  match goal with
  | H : two_digits _ _ _ _ _ = Some _ |- _ =>
      apply two_digits_range in H; lia
  | H : one_digit _ _ _ = Some _ |- _ =>
      apply one_digit_range in H; lia
  end.

Lemma space_digit_range (s r : string) (v : Z) :
  space_digit s = Some (v, r) -> 1 <= v <= 9.
Proof.
  unfold space_digit. destruct s as [ | c s]; [discriminate | ].
  destruct (code c =? 32); [ | discriminate]. apply one_digit_range.
Qed.

Lemma alts_m_range (alt : string -> option (Z * string)) (s r : string)
  (v : Z) :
  In alt alts_m -> alt s = Some (v, r) -> 1 <= v <= 12.
Proof. intros [<- | [<- | [<- | []]]] H; alt_range. Qed.

Lemma alts_d_range (alt : string -> option (Z * string)) (s r : string)
  (v : Z) :
  In alt alts_d -> alt s = Some (v, r) -> 1 <= v <= 31.
Proof.
  intros [<- | [<- | [<- | [<- | [<- | []]]]]] H; try alt_range.
  apply space_digit_range in H. lia.
Qed.

Lemma alts_H_range (alt : string -> option (Z * string)) (s r : string)
  (v : Z) :
  In alt alts_H -> alt s = Some (v, r) -> 0 <= v <= 23.
Proof. intros [<- | [<- | [<- | []]]] H; alt_range. Qed.

Lemma alts_M_range (alt : string -> option (Z * string)) (s r : string)
  (v : Z) :
  In alt alts_M -> alt s = Some (v, r) -> 0 <= v <= 59.
Proof. intros [<- | [<- | []]] H; alt_range. Qed.

Lemma alts_S_range (alt : string -> option (Z * string)) (s r : string)
  (v : Z) :
  In alt alts_S -> alt s = Some (v, r) -> 0 <= v <= 61.
Proof. intros [<- | [<- | [<- | []]]] H; alt_range. Qed.

Lemma match_format_ranges (tznames : list string) (s r : string)
  (Y m d H Mi Sec : Z) :
  match_format tznames s = Some (Y, m, d, H, Mi, Sec, r) ->
  0 <= Y <= 9999 /\ 1 <= m <= 12 /\ 1 <= d <= 31 /\ 0 <= H <= 23
  /\ 0 <= Mi <= 59 /\ 0 <= Sec <= 61.
Proof.
  unfold match_format. intros F.
  apply first_match_inv in F as (aY & vY & rY & IY & EY & F).
  apply literal_inv in F as (r1 & F).
  apply first_match_inv in F as (am & vm & rm & Im & Em & F).
  apply literal_inv in F as (r2 & F).
  apply first_match_inv in F as (ad & vd & rd & Id & Ed & F).
  apply spaces1_inv in F as (r3 & F).
  apply first_match_inv in F as (aH & vH & rH & IH & EH & F).
  apply literal_inv in F as (r4 & F).
  apply first_match_inv in F as (aM & vM & rM & IM & EM & F).
  apply literal_inv in F as (r5 & F).
  apply first_match_inv in F as (aS & vS & rS & IS & ES & F).
  apply spaces1_inv in F as (r6 & F).
  destruct (longest_name _ r6 None) as [rest | ]; [ | discriminate].
  injection F as <- <- <- <- <- <- <-.
  pose proof (alts_Y_range _ _ _ _ IY EY).
  pose proof (alts_m_range _ _ _ _ Im Em).
  pose proof (alts_d_range _ _ _ _ Id Ed).
  pose proof (alts_H_range _ _ _ _ IH EH).
  pose proof (alts_M_range _ _ _ _ IM EM).
  pose proof (alts_S_range _ _ _ _ IS ES).
  repeat split; lia.
Qed.

(** X21: a time that [parse_utc] returns is a date and a time of the
    calendar, whatever text it was given: the month has that day in that
    year, the hour is under 24, the minute and the second under 60, and
    there are no microseconds; and what it was given is a string. *)
Theorem parse_utc_returns_calendar_times (w : World) (v : PyVal)
  (t : DateTime) :
  parse_utc w v = Ok t -> valid_datetime t /\ exists s, v = PStr s.
Proof.
  unfold parse_utc. destruct v as [ | | | | | s | | ]; try discriminate.
  unfold strptime_utc.
  destruct (match_format (local_tznames w) s)
    as [[[[[[[Y m] d] H] Mi] Sec] r] | ] eqn:F; [ | discriminate].
  destruct (String.eqb r "" && (1 <=? Y) && (d <=? days_in_month Y m)
            && (Sec <=? 59)) eqn:C; [ | discriminate].
  intros [= <-]. split; [ | now exists s].
  apply match_format_ranges in F.
  apply andb_true_iff in C as [C C4]. apply andb_true_iff in C as [C C3].
  apply andb_true_iff in C as [_ C2].
  unfold valid_datetime. cbn [year month day hour minute second microsecond].
  repeat split; lia.
Qed.

Lemma parse_utc_returns_calendar_times_witness :
  parse_utc (world_of net_plain) (PStr "2025-12-01 08:00:00 UTC")
  = Ok (mkDateTime 2025 12 1 8 0 0 0)
  /\ valid_datetime (mkDateTime 2025 12 1 8 0 0 0).
Proof.
  split; [reflexivity | ].
  exact (proj1 (parse_utc_returns_calendar_times (world_of net_plain)
                  (PStr "2025-12-01 08:00:00 UTC")
                  (mkDateTime 2025 12 1 8 0 0 0) eq_refl)).
Defined.























(* ===================================================================== *)
(** * Properties of the downloads *)
(* ===================================================================== *)

Lemma download_video_eq (w : World) (md : Media) (bvid title url : PyVal) :
  download_video w md bvid title url
  = download_file w md "_video_only.mp4" "下载视频 " "视频" bvid title url.
Proof. reflexivity. Qed.

Lemma download_audio_eq (w : World) (md : Media) (bvid title url : PyVal) :
  download_audio w md bvid title url
  = download_file w md "_audio_only.mp3" "下载音频 " "音频" bvid title url.
Proof. reflexivity. Qed.

Lemma downloads_cases (w : World) (md : Media)
  (f : PyVal -> PyVal -> PyVal -> D string) (suffix label : string) :
  In (f, suffix, label) (downloads w md) ->
  startswith suffix "/" = false
  /\ string_forall not_slash suffix = true
  /\ exists saved,
       forall bvid title url,
         f bvid title url
         = download_file w md suffix label saved bvid title url.
Proof.
  intros [[= <- <- <-] | [[= <- <- <-] | []]].
  - repeat split. exists "视频". apply download_video_eq.
  - repeat split. exists "音频". apply download_audio_eq.
Qed.

Lemma legal_not_slash (c : ascii) : legal c = true -> not_slash c = true.
Proof.
  unfold legal, not_slash. destruct (Ascii.eqb_spec c "/"%char) as [-> | N];
    [discriminate | reflexivity].
Qed.

Lemma string_forall_append (p : ascii -> bool) (a b : string) :
  string_forall p (a ++ b) = string_forall p a && string_forall p b.
Proof.
  induction a as [ | c a IH]; simpl; [reflexivity | ].
  now rewrite IH, andb_assoc.
Qed.

Lemma string_forall_impl (p q : ascii -> bool) (s : string) :
  (forall c, p c = true -> q c = true) ->
  string_forall p s = true -> string_forall q s = true.
Proof.
  intros I. induction s as [ | c s IH]; simpl; [reflexivity | ].
  intros [P S]%andb_true_iff. now rewrite (I c P), (IH S).
Qed.

Lemma string_forall_head (p : ascii -> bool) (s : string) :
  string_forall p s = true -> p "/"%char = false ->
  startswith s "/" = false.
Proof.
  destruct s as [ | c s]; [reflexivity | ]. simpl.
  intros [P _]%andb_true_iff N. unfold startswith. cbn [strip_prefix].
  destruct (Ascii.eqb_spec "/"%char c) as [<- | ]; [congruence | reflexivity].
Qed.

(** The name of the file of a download has no slash, so the file lies in
    the directory [temp] itself. *)
Lemma download_path_join (title suffix : string) :
  string_forall not_slash suffix = true ->
  os_path_join "temp" (_sanitize_filename title ++ suffix)
  = download_path title suffix
  /\ string_forall not_slash (_sanitize_filename title ++ suffix) = true.
Proof.
  intros S.
  assert (N : string_forall not_slash (_sanitize_filename title ++ suffix)
              = true).
  { rewrite string_forall_append, S, andb_true_r.
    apply (string_forall_impl legal); [apply legal_not_slash | ].
    apply sanitize_legal. }
  split; [ | exact N].
  unfold os_path_join.
  rewrite (string_forall_head not_slash _ N eq_refl). reflexivity.
Qed.

Lemma asked_app (a b : list Step) :
  asked (a ++ b) = (asked a ++ asked b)%list.
Proof. unfold asked. apply flat_map_app. Qed.

Lemma asked_chunk_steps (path : string) (cs : list string) :
  asked (chunk_steps path cs) = [].
Proof.
  induction cs as [ | c cs IH]; [reflexivity | ].
  unfold chunk_steps. cbn [flat_map]. rewrite asked_app.
  fold (chunk_steps path cs). rewrite IH.
  now destruct (String.eqb c "").
Qed.

Lemma progress_app (a b : list Step) :
  progress (a ++ b) = progress a + progress b.
Proof.
  unfold progress. induction a as [ | x a IH]; cbn [app fold_right].
  - reflexivity.
  - destruct x; rewrite IH; lia.
Qed.

Lemma length_empty (c : string) :
  String.eqb c "" = true -> String.length c = 0%nat.
Proof. now intros ->%String.eqb_eq. Qed.

Lemma progress_chunk_steps (path : string) (cs : list string) :
  progress (chunk_steps path cs) = Z.of_nat (String.length (body_bytes cs)).
Proof.
  induction cs as [ | c cs IH]; [reflexivity | ].
  unfold chunk_steps. cbn [flat_map]. rewrite progress_app.
  fold (chunk_steps path cs). rewrite IH.
  cbn [body_bytes fold_right]. fold (body_bytes cs).
  rewrite length_append.
  destruct (String.eqb c "") eqn:E.
  - rewrite (length_empty c E). reflexivity.
  - unfold progress. cbn [fold_right]. lia.
Qed.

Lemma file_after_app (path : string) (a b : list Step)
  (before : option string) :
  file_after path (a ++ b) before
  = file_after path b (file_after path a before).
Proof.
  revert before. induction a as [ | x a IH]; intros before; [reflexivity | ].
  cbn [app]. destruct x; cbn [file_after]; apply IH.
Qed.

Lemma file_after_chunk_steps (path : string) (cs : list string) (t : string) :
  file_after path (chunk_steps path cs) (Some t) = Some (t ++ body_bytes cs).
Proof.
  revert t. induction cs as [ | c cs IH]; intros t.
  - cbn. now rewrite append_empty.
  - unfold chunk_steps. cbn [flat_map]. rewrite file_after_app.
    fold (chunk_steps path cs).
    cbn [body_bytes fold_right]. fold (body_bytes cs).
    destruct (String.eqb c "") eqn:E.
    + apply String.eqb_eq in E. subst c. cbn [file_after append]. apply IH.
    + cbn [file_after]. rewrite String.eqb_refl, IH.
      now rewrite append_assoc.
Qed.

(** The loop over the chunks when no write is refused. *)
Lemma write_chunks_all (md : Media) (path : string) (cs : list string)
  (end_ : option exn) :
  (forall n, write_refused md n path = None) ->
  forall d,
    write_chunks md path cs end_ d
    = Some (match end_ with Some e => Raise e | None => Ok tt end,
            {| steps := (steps d ++ chunk_steps path cs)%list;
               r_requests := r_requests d;
               r_clock := r_clock d |}).
Proof.
  intros W. induction cs as [ | c cs IH]; intros d.
  - cbn [write_chunks chunk_steps flat_map]. rewrite app_nil_r.
    destruct d. now destruct end_.
  - cbn [write_chunks]. unfold chunk_steps. cbn [flat_map].
    fold (chunk_steps path cs).
    destruct (String.eqb c "").
    + apply IH.
    + unfold dbind at 1. unfold f_write. rewrite W.
      unfold dbind at 1. unfold step. rewrite IH.
      unfold add. cbn [steps r_requests r_clock].
      now rewrite <- !app_assoc.
Qed.

(** The loop over the chunks, whatever happens: what it did is the steps of
    some of the first chunks, and of all of them when it ends well. *)
Lemma write_chunks_some (md : Media) (path : string) (cs : list string)
  (end_ : option exn) :
  forall d,
    exists r k,
      write_chunks md path cs end_ d
      = Some (r,
              {| steps := (steps d ++ chunk_steps path (firstn k cs))%list;
                 r_requests := r_requests d;
                 r_clock := r_clock d |})
      /\ (r = Ok tt -> firstn k cs = cs).
Proof.
  induction cs as [ | c cs IH]; intros d.
  - cbn [write_chunks]. exists (match end_ with
                                | Some e => Raise e
                                | None => Ok tt
                                end), 0%nat.
    cbn [firstn chunk_steps flat_map]. rewrite app_nil_r.
    split; [ | reflexivity]. destruct d. now destruct end_.
  - cbn [write_chunks]. destruct (String.eqb c "") eqn:E.
    + destruct (IH d) as (r & k & H & All). exists r, (S k). rewrite H.
      cbn [firstn]. unfold chunk_steps. cbn [flat_map]. rewrite E.
      split; [reflexivity | ]. intros R. now rewrite (All R).
    + unfold dbind at 1. unfold f_write.
      destruct (write_refused md (List.length (steps d)) path) as [e | ].
      * exists (Raise e), 0%nat. cbn [firstn chunk_steps flat_map].
        rewrite app_nil_r. split; [now destruct d | discriminate].
      * unfold dbind at 1. unfold step.
        destruct (IH (add (BarUpdate (Z.of_nat (String.length c)))
                        (add (WriteChunk path c) d))) as (r & k & H & All).
        exists r, (S k). rewrite H. unfold add.
        cbn [steps r_requests r_clock firstn]. unfold chunk_steps.
        cbn [flat_map]. rewrite E. rewrite <- !app_assoc.
        split; [reflexivity | ]. intros R. now rewrite (All R).
Qed.

Lemma liftM_makedirs (w : World) (path : string) (d : Run) :
  liftM (os_makedirs w path) d
  = Some (match makedirs w path with
          | Some e => Raise e
          | None => Ok tt
          end, add (Did (EvMakedirs path)) d).
Proof.
  unfold liftM, os_makedirs, bind, emit, log, add. cbn [trace n_requests n_clock].
  now destruct (makedirs w path).
Qed.

Lemma liftM_raise_for_status (resp : Response) (d : Run) :
  liftM (raise_for_status resp) d
  = Some (if String.eqb (http_error_msg resp) ""
          then Ok tt
          else Raise (mkExn HTTPError (http_error_msg resp)), d).
Proof.
  unfold liftM, raise_for_status.
  destruct (String.eqb (http_error_msg resp) ""); cbn; rewrite app_nil_r;
    now destruct d.
Qed.

Lemma liftM_print (line : string) (d : Run) :
  liftM (print line) d = Some (Ok tt, add (Did (EvPrint (line ++ LF))) d).
Proof. reflexivity. Qed.


(** X23: a download whose requests are answered, the second without HTTP
    error, and whose writes go through, returns the path of its file, which
    lies in [temp] itself whatever the title.  It asked twice, first with
    [HEAD] and then with [GET], through the session and with the same
    headers; the file holds the bytes of the chunks in order, whatever it
    held before; and the progress bar, made with the length the first
    request gave, moved by the number of these bytes. *)
Theorem download_writes_the_body (w : World) (md : Media)
  (f : PyVal -> PyVal -> PyVal -> D string) (suffix label : string)
  (bvid url : PyVal) (title : string) (d : Run) (bar_total : Z)
  (resp : Response) (cs : list string) :
  In (f, suffix, label) (downloads w md) ->
  makedirs w "temp" = None ->
  head_length md (r_requests d) (head_request bvid url) = Ok bar_total ->
  net w (S (r_requests d)) (stream_request bvid url) = Reply resp ->
  http_error_msg resp = "" ->
  transfer md (S (r_requests d)) (stream_request bvid url)
  = mkTransfer cs None ->
  file_write w (download_path title suffix) = None ->
  (forall n, write_refused md n (download_path title suffix) = None) ->
  exists d' new,
    f bvid (PStr title) url d = Some (Ok (download_path title suffix), d')
    /\ steps d' = (steps d ++ new)%list
    /\ asked new
       = [(HEAD, head_request bvid url); (GET, stream_request bvid url)]
    /\ (forall before,
           file_after (download_path title suffix) new before
           = Some (body_bytes cs))
    /\ progress new = Z.of_nat (String.length (body_bytes cs))
    /\ In (Bar (label ++ _sanitize_filename title) bar_total) new
    /\ string_forall not_slash (_sanitize_filename title ++ suffix) = true.
Proof.
  intros I Mk Hd Net Ok_ Tr Fw Wr.
  destruct (downloads_cases w md f suffix label I) as (_ & Sl & saved & Ef).
  destruct (download_path_join title suffix Sl) as [Pj Ns].
  rewrite Ef. unfold download_file.
  unfold dbind at 1. rewrite liftM_makedirs, Mk.
  unfold dbind at 1. unfold dlift at 1. cbn [sanitize_arg]. rewrite Pj.
  unfold dbind at 1. unfold head_total at 1. cbn [add r_requests].
  fold (head_request bvid url). rewrite Hd.
  unfold dbind at 1. unfold get_stream at 1. cbn [r_requests].
  fold (stream_request bvid url). rewrite Net, Tr. cbn [fst snd chunks broken].
  unfold dbind at 1. unfold with_exit at 1.
  unfold dbind at 1. rewrite liftM_raise_for_status, Ok_. cbn [String.eqb].
  unfold dbind at 1. unfold open_wb. rewrite Fw. unfold step at 1.
  unfold with_exit at 1. unfold dbind at 1. unfold step at 1.
  unfold with_exit at 1. rewrite (write_chunks_all md _ cs None Wr).
  cbv beta iota. unfold dbind at 1. rewrite liftM_print.
  unfold dret, add. cbn [steps r_requests r_clock].
  exists
    {| steps :=
         (steps d
          ++ download_steps suffix label saved bvid title url bar_total
               (chunk_steps (download_path title suffix) cs)
          ++ [Did (EvPrint ((LF ++ "✅ " ++ saved ++ "已保存到 "
                             ++ download_path title suffix) ++ LF))])%list;
       r_requests := S (S (r_requests d));
       r_clock := r_clock d |}.
  eexists. split; [ | split; [reflexivity | ]].
  { do 2 f_equal. f_equal. unfold download_steps.
    rewrite <- !app_assoc. reflexivity. }
  unfold download_steps. repeat split.
  - rewrite !asked_app, asked_chunk_steps. reflexivity.
  - intros before. rewrite <- app_assoc. cbn [app file_after].
    rewrite String.eqb_refl.
    rewrite !file_after_app, file_after_chunk_steps. reflexivity.
  - rewrite !progress_app, progress_chunk_steps. unfold progress.
    cbn [fold_right]. lia.
  - apply in_or_app. left. apply in_or_app. left. cbn. tauto.
  - exact Ns.
Qed.

Lemma download_writes_the_body_witness :
  exists d' new,
    download_video world_ok media_example (PStr "BV1xx411c7mD")
      (PStr "a/b: c?") (PStr "https://cdn.example/v.m4s") start
    = Some (Ok "temp/a_b_ c__video_only.mp4", d')
    /\ steps d' = new
    /\ file_after "temp/a_b_ c__video_only.mp4" new None = Some "abcde"
    /\ progress new = 5.
Proof.
  destruct (download_writes_the_body world_ok media_example
              (download_video world_ok media_example) "_video_only.mp4"
              "下载视频 " (PStr "BV1xx411c7mD")
              (PStr "https://cdn.example/v.m4s") "a/b: c?" start 5 ok_page
              ["ab"; ""; "cde"])
    as (d' & new & E & St & _ & Fa & Pr & _).
  - now left.
  - reflexivity.
  - reflexivity.
  - reflexivity.
  - reflexivity.
  - reflexivity.
  - reflexivity.
  - reflexivity.
  - exists d', new. split; [exact E | split; [exact St | split]].
    + apply Fa.
    + exact Pr.
Defined.

(** X24: when the response to the [GET] request of a download has the
    status of an error, the download raises the [HTTPError] of that status
    after it closed the response: it opened no file and made no progress
    bar.  The status of the response to the [HEAD] request is not looked
    at. *)
Theorem download_http_error_opens_no_file (w : World) (md : Media)
  (f : PyVal -> PyVal -> PyVal -> D string) (suffix label : string)
  (bvid url : PyVal) (title : string) (d : Run) (bar_total : Z)
  (resp : Response) :
  In (f, suffix, label) (downloads w md) ->
  makedirs w "temp" = None ->
  head_length md (r_requests d) (head_request bvid url) = Ok bar_total ->
  net w (S (r_requests d)) (stream_request bvid url) = Reply resp ->
  400 <= status_code resp < 600 ->
  f bvid (PStr title) url d
  = Some (Raise (mkExn HTTPError (http_error_msg resp)),
          {| steps :=
               (steps d
                ++ [Did (EvMakedirs "temp");
                    Head (head_request bvid url);
                    Did (EvGet (stream_request bvid url));
                    CloseResponse])%list;
             r_requests := S (S (r_requests d));
             r_clock := r_clock d |}).
Proof.
  intros I Mk Hd Net Err.
  destruct (downloads_cases w md f suffix label I) as (_ & Sl & saved & Ef).
  apply http_error_msg_error_status in Err.
  rewrite Ef. unfold download_file.
  unfold dbind at 1. rewrite liftM_makedirs, Mk.
  unfold dbind at 1. unfold dlift at 1. cbn [sanitize_arg].
  unfold dbind at 1. unfold head_total at 1. cbn [add r_requests].
  fold (head_request bvid url). rewrite Hd.
  unfold dbind at 1. unfold get_stream at 1. cbn [r_requests].
  fold (stream_request bvid url). rewrite Net. cbn [fst snd].
  unfold dbind at 1. unfold with_exit at 1.
  unfold dbind at 1. rewrite liftM_raise_for_status, Err.
  unfold add. cbn [steps r_requests r_clock].
  now rewrite <- !app_assoc.
Qed.

Lemma download_http_error_opens_no_file_witness :
  download_audio world_not_found media_example (PStr "BV1xx411c7mD")
    (PStr "t") (PStr "https://cdn.example/a.m4s") start
  = Some (Raise (mkExn HTTPError "404 Client Error: Not Found for url: "),
          {| steps :=
               [Did (EvMakedirs "temp");
                Head (head_request (PStr "BV1xx411c7mD")
                        (PStr "https://cdn.example/a.m4s"));
                Did (EvGet (stream_request (PStr "BV1xx411c7mD")
                              (PStr "https://cdn.example/a.m4s")));
                CloseResponse];
             r_requests := 2;
             r_clock := 0 |}).
Proof.
  apply (download_http_error_opens_no_file world_not_found media_example
           (download_audio world_not_found media_example) "_audio_only.mp3"
           "下载音频 " (PStr "BV1xx411c7mD") (PStr "https://cdn.example/a.m4s")
           "t" start 5 not_found).
  - right. now left.
  - reflexivity.
  - reflexivity.
  - reflexivity.
  - cbn. lia.
Defined.

(** The steps of a state are those of the state before, and more. *)
Ltac steps_eq :=
  unfold add; cbn [steps]; rewrite <- ?app_assoc; cbn [app]; reflexivity.

Lemma touches_no_file_intro (l : list Step) :
  forallb (fun x => match x with
                    | OpenWb _ | WriteChunk _ _ | Remove _ => false
                    | _ => true
                    end) l = true ->
  touches_no_file l.
Proof.
  intros A x I. rewrite forallb_forall in A. specialize (A x I).
  destruct x; easy.
Qed.

(** X25: whatever happens to a download, it asks at most twice, [HEAD]
    before [GET]; it touches no file, or it leaves in its own file the
    bytes of the first chunks of the body, up to some chunk, and nothing
    else; and when it returns, it returns the path of its file, which then
    holds the whole body. *)
Theorem download_leaves_a_prefix (w : World) (md : Media)
  (f : PyVal -> PyVal -> PyVal -> D string) (suffix label : string)
  (bvid title url : PyVal) (d : Run) :
  In (f, suffix, label) (downloads w md) ->
  let body := chunks (transfer md (S (r_requests d))
                        (stream_request bvid url)) in
  exists r d' new,
    f bvid title url d = Some (r, d')
    /\ steps d' = (steps d ++ new)%list
    /\ (asked new = []
        \/ asked new = [(HEAD, head_request bvid url)]
        \/ asked new
           = [(HEAD, head_request bvid url); (GET, stream_request bvid url)])
    /\ (touches_no_file new
        \/ exists t k,
             title = PStr t
             /\ forall before,
                  file_after (download_path t suffix) new before
                  = Some (body_bytes (firstn k body)))
    /\ (forall p,
           r = Ok p ->
           exists t,
             title = PStr t /\ p = download_path t suffix
             /\ forall before,
                  file_after p new before = Some (body_bytes body)).
Proof.
  intros I body.
  destruct (downloads_cases w md f suffix label I) as (_ & Sl & saved & Ef).
  rewrite Ef. unfold download_file.
  unfold dbind at 1. rewrite liftM_makedirs.
  destruct (makedirs w "temp") as [e | ].
  { do 3 eexists. split; [reflexivity | split; [reflexivity | ]].
    split; [now left | split; [left; now apply touches_no_file_intro | ]].
    discriminate. }
  unfold dbind at 1. unfold dlift at 1.
  assert (T : (exists t, title = PStr t)
              \/ exists e, sanitize_arg title = Raise e).
  { destruct title; try (right; eexists; reflexivity). left. now eexists. }
  destruct T as [(t & ->) | (e & T)].
  2:{ rewrite T. do 3 eexists. split; [reflexivity | split; [reflexivity | ]].
      split; [now left | split; [left; now apply touches_no_file_intro | ]].
      discriminate. }
  cbn [sanitize_arg].
  destruct (download_path_join t suffix Sl) as [Pj Ns]. rewrite Pj.
  unfold dbind at 1. unfold head_total at 1. cbn [add r_requests].
  fold (head_request bvid url).
  destruct (head_length md (r_requests d) (head_request bvid url))
    as [bar_total | e].
  2:{ do 3 eexists. split; [reflexivity | ].
      split; [steps_eq | ].
      split; [right; now left | ].
      split; [left; now apply touches_no_file_intro | discriminate]. }
  unfold dbind at 1. unfold get_stream at 1. cbn [r_requests steps r_clock].
  fold (stream_request bvid url).
  destruct (net w (S (r_requests d)) (stream_request bvid url))
    as [resp | e].
  2:{ do 3 eexists. split; [reflexivity | ].
      split; [steps_eq | ].
      split; [right; now right | ].
      split; [left; now apply touches_no_file_intro | discriminate]. }
  cbn [fst snd]. fold body.
  unfold dbind at 1. unfold with_exit at 1.
  unfold dbind at 1. rewrite liftM_raise_for_status.
  destruct (String.eqb (http_error_msg resp) "").
  2:{ do 3 eexists. split; [reflexivity | ].
      split; [steps_eq | ].
      split; [right; now right | ].
      split; [left; now apply touches_no_file_intro | discriminate]. }
  unfold dbind at 1. unfold open_wb.
  destruct (file_write w (download_path t suffix)) as [e | ].
  { do 3 eexists. split; [reflexivity | ].
    split; [steps_eq | ].
    split; [right; now right | ].
    split; [left; now apply touches_no_file_intro | discriminate]. }
  unfold step at 1. unfold with_exit at 1. unfold dbind at 1.
  unfold step at 1. unfold with_exit at 1.
  match goal with
  | |- context [write_chunks md ?p ?cs ?e ?st] =>
      destruct (write_chunks_some md p cs e st) as (r & k & W & All)
  end.
  fold body in W, All. rewrite W. unfold add. cbn [steps r_requests r_clock].
  set (new := download_steps suffix label saved bvid t url bar_total
                (chunk_steps (download_path t suffix) (firstn k body))).
  assert (Fa : forall more before,
             file_after (download_path t suffix)
               (new ++ map Did more) before
             = Some (body_bytes (firstn k body))).
  { intros more before. subst new. unfold download_steps.
    rewrite <- !app_assoc. cbn [app file_after]. rewrite String.eqb_refl.
    rewrite !file_after_app, file_after_chunk_steps. cbn [append file_after].
    clear. induction more as [ | x more IH]; [reflexivity | exact IH]. }
  assert (As : forall more,
             asked (new ++ [Did (EvPrint more)])
             = [(HEAD, head_request bvid url);
                (GET, stream_request bvid url)]).
  { intros more. subst new. unfold download_steps.
    rewrite !asked_app, asked_chunk_steps. reflexivity. }
  assert (As' : asked new
                = [(HEAD, head_request bvid url);
                   (GET, stream_request bvid url)]).
  { subst new. unfold download_steps.
    rewrite !asked_app, asked_chunk_steps. reflexivity. }
  destruct r as [[] | e].
  - cbv beta iota. unfold dbind at 1. rewrite liftM_print.
    unfold dret, add. cbn [steps r_requests r_clock].
    do 2 eexists.
    exists (new ++ [Did (EvPrint ((LF ++ "✅ " ++ saved ++ "已保存到 "
                                    ++ download_path t suffix) ++ LF))])%list.
    split; [reflexivity | ].
    split.
    { subst new. unfold download_steps. now rewrite <- !app_assoc. }
    split; [right; right; apply As | ].
    split.
    { right. exists t, k. split; [reflexivity | ]. intros before.
      apply (Fa [EvPrint _] before). }
    intros p [= <-]. exists t. split; [reflexivity | split; [reflexivity | ]].
    intros before.
    transitivity (Some (body_bytes (firstn k body)));
      [apply (Fa [EvPrint _] before) | now rewrite (All eq_refl)].
  - do 2 eexists. exists new. split; [reflexivity | ].
    split.
    { subst new. unfold download_steps. now rewrite <- !app_assoc. }
    split; [right; right; exact As' | ].
    split; [ | discriminate].
    right. exists t, k. split; [reflexivity | ]. intros before.
    pose proof (Fa [] before) as X. cbn [map] in X.
    now rewrite app_nil_r in X.
Qed.

Lemma download_leaves_a_prefix_witness :
  exists r d' new,
    download_video world_ok media_example (PStr "BV1xx411c7mD") (PInt 7)
      (PStr "https://cdn.example/v.m4s") start = Some (r, d')
    /\ steps d' = (steps start ++ new)%list
    /\ (asked new = []
        \/ asked new
           = [(HEAD, head_request (PStr "BV1xx411c7mD")
                       (PStr "https://cdn.example/v.m4s"))]
        \/ asked new
           = [(HEAD, head_request (PStr "BV1xx411c7mD")
                       (PStr "https://cdn.example/v.m4s"));
              (GET, stream_request (PStr "BV1xx411c7mD")
                      (PStr "https://cdn.example/v.m4s"))]).
Proof.
  destruct (download_leaves_a_prefix world_ok media_example
              (download_video world_ok media_example) "_video_only.mp4"
              "下载视频 " (PStr "BV1xx411c7mD") (PInt 7)
              (PStr "https://cdn.example/v.m4s") start (or_introl eq_refl))
    as (r & d' & new & E & St & As & _).
  now exists r, d', new.
Defined.

(* ===================================================================== *)
(** * Properties of the merge *)
(* ===================================================================== *)

Lemma length_add (x : Step) (d : Run) :
  List.length (steps (add x d)) = S (List.length (steps d)).
Proof. unfold add. cbn [steps]. rewrite length_app. cbn. lia. Qed.



(** X27: whatever happens to [merge], it removes an input only after
    [ffmpeg] merged: the files it removed are none, or the video, or the
    video and then the audio; it removes both whenever [ffmpeg] merged and
    it returns; and it runs [ffmpeg] once at most. *)
Theorem merge_removes_only_after_success (w : World) (md : Media)
  (name : PyVal) (av_path audio_path out_dir_path : string) (d : Run) :
  exists r d' new,
    merge w md name av_path audio_path out_dir_path d = Some (r, d')
    /\ steps d' = (steps d ++ new)%list
    /\ (removed new = []
        \/ merged md name av_path audio_path out_dir_path d
           /\ (removed new = [av_path]
               \/ removed new = [av_path; audio_path]))
    /\ (merged md name av_path audio_path out_dir_path d ->
        r = Ok tt -> removed new = [av_path; audio_path])
    /\ (ffmpeg_runs new <= 1)%nat.
Proof.
  unfold merge. unfold dbind at 1. rewrite liftM_makedirs.
  destruct (makedirs w out_dir_path) as [e | ].
  { do 3 eexists. split; [reflexivity | split; [steps_eq | ]].
    split; [now left | split; [discriminate | cbn; lia]]. }
  unfold dbind at 1. unfold dlift at 1.
  destruct (sanitize_arg name) as [safe_name | e] eqn:Sn.
  2:{ do 3 eexists. split; [reflexivity | split; [steps_eq | ]].
      split; [now left | split; [discriminate | cbn; lia]]. }
  unfold dbind at 1. unfold run_ffmpeg. rewrite length_add.
  set (out := os_path_join out_dir_path (safe_name ++ ".mp4")).
  assert (Mg : merged md name av_path audio_path out_dir_path d ->
               ffmpeg_run md (S (List.length (steps d)))
                 [av_path; audio_path] out = Merged).
  { unfold merged. rewrite Sn. intros (x & [= <-] & M). exact M. }
  destruct (ffmpeg_run md (S (List.length (steps d))) [av_path; audio_path]
              out) as [ | stderr message | e] eqn:Ff.
  - assert (M : merged md name av_path audio_path out_dir_path d)
      by (exists safe_name; split; [exact Sn | exact Ff]).
    unfold dbind at 1. rewrite liftM_print.
    unfold dbind at 1. unfold os_remove at 1.
    destruct (remove_refused md _ av_path) as [e | ].
    { do 3 eexists. split; [reflexivity | split; [steps_eq | ]].
      split; [now left | split; [discriminate | cbn; lia]]. }
    unfold os_remove.
    destruct (remove_refused md _ audio_path) as [e | ].
    { do 3 eexists. split; [reflexivity | split; [steps_eq | ]].
      split; [right; split; [exact M | now left] | ].
      split; [discriminate | cbn; lia]. }
    do 3 eexists. split; [reflexivity | split; [steps_eq | ]].
    split; [right; split; [exact M | now right] | ].
    split; [reflexivity | cbn; lia].
  - unfold dbind at 1. rewrite liftM_print.
    match goal with
    | |- context [match ?e with Some _ => _ | None => _ end ?st] =>
        assert (P : exists line,
                   (match e with
                    | Some t =>
                        if String.eqb t "" then liftM (print message)
                        else liftM (print t)
                    | None => liftM (print message)
                    end) st
                   = Some (Ok tt, add (Did (EvPrint (line ++ LF))) st))
    end.
    { destruct stderr as [b | ]; [ | now eexists].
      destruct (String.eqb b ""); [now eexists | ].
      destruct (String.eqb (utf8_ignore md b) ""); now eexists. }
    destruct P as (line & P). rewrite P.
    do 3 eexists. split; [reflexivity | split; [steps_eq | ]].
    split; [now left | split; [ | cbn; lia]].
    intros M. apply Mg in M. discriminate M.
  - do 3 eexists. split; [reflexivity | split; [steps_eq | ]].
    split; [now left | split; [discriminate | cbn; lia]].
Qed.

(* ===================================================================== *)
(** * Properties of the script *)
(* ===================================================================== *)

(** The script up to the reading of the address. *)
Lemma main_prompted (w : World) (md : Media) (fuel : nat) (d : Run)
  (infos : PyVal) (s' : State) (typed : string) :
  login w fuel "data/login_info.json" (as_state d) = Some (Ok infos, s') ->
  stdin_line md = Ok typed ->
  main w md fuel d
  = match extract_bv typed with
    | None =>
        dbind (liftM (print "invalid url, parse failed"))
          (fun _ => liftM (exit 1))
    | Some bvid =>
        (sessdata <- dlift (cached_value infos "SESSDATA") ;;
         bili_jct <- dlift (cached_value infos "bili_jct") ;;
         dede_user_id <- dlift (cached_value infos "DedeUserID") ;;
         bv_info <- liftM (get_bv_info w bvid sessdata bili_jct
                             dede_user_id) ;;
         v_path <- call_kwargs "download_video" "bvid" "title" "video_url"
                     (download_video w md) (get_video_infos bv_info tt) ;;
         a_path <- call_kwargs "download_audio" "bvid" "title" "audio_url"
                     (download_audio w md) (get_audio_infos bv_info tt) ;;
         merge w md (title bv_info) v_path a_path "output")%run
    end (prompted d s').
Proof.
  intros L In_. unfold main.
  unfold dbind at 1. unfold liftM at 1. rewrite L.
  unfold dbind at 1. unfold input. unfold dbind at 1.
  unfold liftM at 1, print_noeol, emit, log, as_state.
  cbn [trace n_requests n_clock steps r_requests r_clock map].
  unfold dlift at 1. rewrite In_. unfold prompted.
  rewrite <- !app_assoc. reflexivity.
Qed.

(** X28: when the text the user types holds no identifier of a video, the
    script says so and exits with the code 1: after the login it made no
    request, started no download and ran no merge. *)
Theorem main_exits_without_identifier (w : World) (md : Media) (fuel : nat)
  (d : Run) (infos : PyVal) (s' : State) (typed : string) :
  login w fuel "data/login_info.json" (as_state d) = Some (Ok infos, s') ->
  stdin_line md = Ok typed ->
  extract_bv typed = None ->
  main w md fuel d
  = Some (Raise (mkExn SystemExit "1"),
          {| steps :=
               (steps d ++ map Did (trace s')
                ++ [Did (EvPrint "enter url: ");
                    Did (EvPrint ("invalid url, parse failed" ++ LF))])%list;
             r_requests := n_requests s';
             r_clock := n_clock s' |}).
Proof.
  intros L In_ No. rewrite (main_prompted w md fuel d infos s' typed L In_).
  rewrite No. unfold dbind. rewrite liftM_print.
  unfold liftM, exit, raise, add, prompted, as_state.
  cbn [steps r_requests r_clock trace n_requests n_clock map].
  rewrite app_nil_r, <- !app_assoc. reflexivity.
Qed.

Lemma main_exits_without_identifier_witness :
  exists d',
    main (world_with_file good_file noon_2025_06_01) media_failing 0 start
    = Some (Raise (mkExn SystemExit "1"), d')
    /\ asked (steps d') = [].
Proof.
  assert (L : exists infos s',
             login (world_with_file good_file noon_2025_06_01) 0
               "data/login_info.json" (as_state start)
             = Some (Ok infos, s')
             /\ requests_of (trace s') = [])
    by (do 2 eexists; split; vm_compute; reflexivity).
  destruct L as (infos & s' & L & Rq).
  eexists. split.
  - exact (main_exits_without_identifier _ media_failing 0 start infos s'
             "hello" L eq_refl eq_refl).
  - cbn [steps start app]. rewrite asked_app. cbn.
    rewrite app_nil_r. clear L. revert Rq.
    induction (trace s') as [ | e t IH]; [reflexivity | ].
    destruct e; cbn; try exact IH. discriminate.
Defined.

Lemma login_result_cases (w : World) (fuel : nat) (file_path : string)
  (s s' : State) (info : PyVal) :
  login w fuel file_path s = Some (Ok info, s') ->
  (exists s1 s2, login_cached w info s1 = Some (Ok (Some info), s2))
  \/ exists n, info = extract_login_cookies_with_expiry w (cookiejar w n).
Proof.
  unfold login. unfold bind at 1.
  destruct (os_makedirs w "data" s) as [[[[] | e] s0] | ];
    [ | discriminate | discriminate].
  unfold bind at 1.
  destruct (parse_login_info w file_path s0) as [[[temp_info | e] s1] | ];
    [ | discriminate | discriminate].
  unfold bind at 1.
  destruct (login_cached w temp_info s1) as [[[[cached | ] | e] s2] | ] eqn:C;
    [ | | discriminate | discriminate].
  - cbn [ret]. intros [= <- _]. left.
    destruct (login_cached_some _ _ _ _ _ C) as [-> _]. now exists s1, s2.
  - unfold bind at 1.
    destruct (login_loop w fuel s2) as [[[[] | e] s3] | ];
      [ | discriminate | discriminate].
    intros F. apply login_finish_result in F. right.
    exists (n_requests s3). exact F.
Qed.

Lemma get_bv_info_closures (w : World) (bvid : string)
  (sessdata bili_jct dede_user_id : PyVal) (s s' : State) (info : BvInfo) :
  get_bv_info w bvid sessdata bili_jct dede_user_id s = Some (Ok info, s') ->
  get_video_infos info tt
  = [("bvid", PStr bvid); ("title", title info);
     ("video_url", video_url info)]
  /\ get_audio_infos info tt
     = [("bvid", PStr bvid); ("title", title info);
        ("audio_url", audio_url info)].
Proof.
  unfold get_bv_info.
  repeat match goal with
         | |- context [try_except ?b ?c ?h] =>
             generalize (try_except b c h); intro
         end.
  unfold bind, lift, cookies_update, emit, json_loads_M, ret, raise.
  repeat (innermost_case; cbv beta).
  all: try discriminate.
  all: intros [= <- _]; split; reflexivity.
Qed.

(** X29: when the text the user types holds an identifier, the script goes
    on as follows, and in this order: it resolves the video of the
    identifier with the three credentials of the login, which are always
    there; it downloads the video and then the audio of what the
    resolution returned, under that identifier and its title; and it merges
    the two files that the downloads returned, under the title, into
    [output]. *)
Theorem main_resolves_downloads_merges (w : World) (md : Media) (fuel : nat)
  (d : Run) (infos : PyVal) (s' : State) (typed bvid : string) :
  login w fuel "data/login_info.json" (as_state d) = Some (Ok infos, s') ->
  stdin_line md = Ok typed ->
  extract_bv typed = Some bvid ->
  exists sessdata bili_jct dede_user_id,
    cached_value infos "SESSDATA" = Ok sessdata
    /\ cached_value infos "bili_jct" = Ok bili_jct
    /\ cached_value infos "DedeUserID" = Ok dede_user_id
    /\ main w md fuel d
       = (bv_info <- liftM (get_bv_info w bvid sessdata bili_jct
                              dede_user_id) ;;
          v_path <- download_video w md (PStr bvid) (title bv_info)
                      (video_url bv_info) ;;
          a_path <- download_audio w md (PStr bvid) (title bv_info)
                      (audio_url bv_info) ;;
          merge w md (title bv_info) v_path a_path "output")%run
           (prompted d s').
Proof.
  intros L In_ Bv.
  assert (C : exists v1 v2 v3,
             cached_value infos "SESSDATA" = Ok v1
             /\ cached_value infos "bili_jct" = Ok v2
             /\ cached_value infos "DedeUserID" = Ok v3).
  { destruct (login_result_cases _ _ _ _ _ _ L) as [(s1 & s2 & C) | (n & ->)].
    - now destruct (login_cached_some _ _ _ _ _ C) as [_ X].
    - destruct (extract_login_cookies_entries w (cookiejar w n))
        as (v1 & x1 & v2 & x2 & v3 & x3 & E).
      rewrite E. now exists v1, v2, v3. }
  destruct C as (v1 & v2 & v3 & C1 & C2 & C3).
  exists v1, v2, v3. repeat split; try assumption.
  rewrite (main_prompted w md fuel d infos s' typed L In_), Bv.
  unfold dbind at 1. unfold dlift at 1. rewrite C1.
  unfold dbind at 1. unfold dlift at 1. rewrite C2.
  unfold dbind at 1. unfold dlift at 1. rewrite C3.
  unfold dbind at 1. symmetry. unfold dbind at 1. symmetry.
  destruct (liftM (get_bv_info w bvid v1 v2 v3) (prompted d s'))
    as [[[info | e] d2] | ] eqn:G; [ | reflexivity | reflexivity].
  assert (Cl : get_video_infos info tt
               = [("bvid", PStr bvid); ("title", title info);
                  ("video_url", video_url info)]
               /\ get_audio_infos info tt
                  = [("bvid", PStr bvid); ("title", title info);
                     ("audio_url", audio_url info)]).
  { unfold liftM in G.
    destruct (get_bv_info w bvid v1 v2 v3 (as_state (prompted d s')))
      as [[r s2] | ] eqn:G'; [ | discriminate].
    injection G as -> _. now apply (get_bv_info_closures _ _ _ _ _ _ _ _ G'). }
  destruct Cl as [Cv Ca]. rewrite Cv, Ca. reflexivity.
Qed.

Lemma main_resolves_downloads_merges_witness :
  exists sessdata bili_jct dede_user_id,
    main (world_with_file good_file noon_2025_06_01) media_example 0 start
    = (bv_info <- liftM (get_bv_info
                           (world_with_file good_file noon_2025_06_01)
                           "BV1xx411c7mD" sessdata bili_jct dede_user_id) ;;
       v_path <- download_video (world_with_file good_file noon_2025_06_01)
                   media_example (PStr "BV1xx411c7mD") (title bv_info)
                   (video_url bv_info) ;;
       a_path <- download_audio (world_with_file good_file noon_2025_06_01)
                   media_example (PStr "BV1xx411c7mD") (title bv_info)
                   (audio_url bv_info) ;;
       merge (world_with_file good_file noon_2025_06_01) media_example
         (title bv_info) v_path a_path "output")%run
        (prompted start
           {| trace :=
                [EvMakedirs "data";
                 EvCookies (credential_cookies (PStr "a") (PStr "b")
                              (PStr "c"));
                 EvPrint cache_loaded_line];
              n_requests := 0;
              n_clock := 0 |}).
Proof.
  destruct (main_resolves_downloads_merges
              (world_with_file good_file noon_2025_06_01) media_example 0
              start
              (PDict
                 [("SESSDATA",
                   PDict [("value", PStr "a");
                          ("expires", PStr "2025-12-01 08:00:00 UTC")]);
                  ("bili_jct",
                   PDict [("value", PStr "b");
                          ("expires", PStr "2025-12-01 08:00:00 UTC")]);
                  ("DedeUserID",
                   PDict [("value", PStr "c"); ("expires", PNone)])])
              {| trace :=
                   [EvMakedirs "data";
                    EvCookies (credential_cookies (PStr "a") (PStr "b")
                                 (PStr "c"));
                    EvPrint cache_loaded_line];
                 n_requests := 0;
                 n_clock := 0 |}
              "https://www.bilibili.com/video/BV1xx411c7mD" "BV1xx411c7mD")
    as (v1 & v2 & v3 & _ & _ & _ & E).
  - vm_compute. reflexivity.
  - reflexivity.
  - vm_compute. reflexivity.
  - now exists v1, v2, v3.
Defined.
